(** * Attachment archiving service (scraper_api): a shallow embedding

  The Python module drives a headless browser, resolves attachment links
  hidden behind popups, downloads them through a [requests] session and
  uploads them (archives expanded) to a knowledge base.

  Python [str] values are represented by their UTF-8 encoding as Rocq
  [string]s.  Concatenation, [startswith]/[endswith]/[in] with ASCII
  patterns and [lower] restricted to the ASCII letters give, on these
  encodings, the answers Python gives on the code points: no character
  outside ASCII lower-cases to one of the letters of the recognised
  extensions. *)

From Stdlib Require Import ZArith Lia Ascii String List Bool.
From stdpp Require Import base tactics option list gmap strings pretty.

Open Scope string_scope.

(** ** Strings *)

Module PyStr.

Definition lower_ascii (c : ascii) : ascii :=
  let n := nat_of_ascii c in
  if (65 <=? n)%nat && (n <=? 90)%nat then ascii_of_nat (n + 32) else c.

(** [s.lower()] *)
Fixpoint lower (s : string) : string :=
  match s with
  | EmptyString => EmptyString
  | String c s' => String (lower_ascii c) (lower s')
  end.

(** [s.startswith(p)] *)
Definition startswith (s p : string) : bool := String.prefix p s.

(** [s.endswith(suf)] *)
Fixpoint endswith (s suf : string) : bool :=
  if String.eqb s suf then true
  else match s with
       | EmptyString => false
       | String _ s' => endswith s' suf
       end.

(** [sub in s] *)
Fixpoint contains (sub s : string) : bool :=
  if String.prefix sub s then true
  else match s with
       | EmptyString => false
       | String _ s' => contains sub s'
       end.

(** [s.strip()], on the ASCII white space Python strips. *)
Definition is_space (c : ascii) : bool :=
  let n := nat_of_ascii c in
  ((9 <=? n)%nat && (n <=? 13)%nat) || ((28 <=? n)%nat && (n <=? 32)%nat).

Fixpoint lstrip (s : string) : string :=
  match s with
  | EmptyString => EmptyString
  | String c s' => if is_space c then lstrip s' else s
  end.

Fixpoint rstrip (s : string) : string :=
  match s with
  | EmptyString => EmptyString
  | String c s' =>
      match rstrip s' with
      | EmptyString => if is_space c then EmptyString else String c EmptyString
      | r => String c r
      end
  end.

Definition strip (s : string) : string := rstrip (lstrip s).

(** Truthiness of a string: [not s] is true for the empty string. *)
Definition nonempty (s : string) : bool :=
  match s with EmptyString => false | _ => true end.

(** [x or ''] for an optional string. *)
Definition or_empty (o : option string) : string :=
  match o with Some s => s | None => "" end.

(** The first [n] characters of [s]: a byte that continues a UTF-8
    sequence (10xxxxxx) belongs to the character before it. *)
Definition is_continuation (c : ascii) : bool :=
  let n := nat_of_ascii c in (128 <=? n)%nat && (n <? 192)%nat.

Fixpoint take_chars (n : nat) (s : string) : string :=
  match s with
  | EmptyString => EmptyString
  | String c s' =>
      if is_continuation c then String c (take_chars n s')
      else match n with
           | O => EmptyString
           | S n' => String c (take_chars n' s')
           end
  end.

End PyStr.

Import PyStr.

(** ** Recognised attachment extensions *)

Definition ATTACH_EXTS : list string :=
  [".pdf"; ".doc"; ".docx"; ".xls"; ".xlsx"; ".zip"; ".rar"; ".txt"].

(** [looks_like_attachment(s: Optional[str]) -> bool] *)
Definition looks_like_attachment (s : option string) : bool :=
  match s with
  | None => false
  | Some s0 =>
      if negb (nonempty s0) then false
      else
        let s := lower s0 in
        existsb (fun ext =>
                   endswith s ext
                   || (contains ext s && existsb (endswith s) ATTACH_EXTS))
                ATTACH_EXTS
  end.

(** ** Regular expressions used by the scraper

    The patterns are fixed, so each is written out as the matcher the
    [re] engine runs for it.  In both, every character class that is
    repeated excludes the characters that may follow it, so the greedy
    match is the only match at a given start.  Below, Q stands for the
    double quote character. *)

Module Regex.

Definition is_quote (c : ascii) : bool :=
  Ascii.eqb c "'"%char || Ascii.eqb c (ascii_of_nat 34).

(** The longest prefix of [s] whose characters satisfy [p], and the rest. *)
Fixpoint span (p : ascii -> bool) (s : string) : string * string :=
  match s with
  | EmptyString => (EmptyString, EmptyString)
  | String c s' =>
      if p c then let '(a, b) := span p s' in (String c a, b)
      else (EmptyString, s)
  end.

Fixpoint drop (n : nat) (s : string) : string :=
  match n, s with
  | O, _ => s
  | S n', String _ s' => drop n' s'
  | S _, EmptyString => EmptyString
  end.

(** An optional quote, ['Q]? *)
Definition skip_quote (s : string) : string :=
  match s with
  | String c s' => if is_quote c then s' else s
  | EmptyString => s
  end.

(** ['Q]?([^'Q)]+)['Q]?\) matched at the start of [s]: group 1. *)
Definition match_selid_at (s : string) : option string :=
  let '(grp, rest) :=
    span (fun c => negb (is_quote c || Ascii.eqb c ")"%char)) (skip_quote s) in
  if nonempty grp then
    match skip_quote rest with
    | String c _ => if Ascii.eqb c ")"%char then Some grp else None
    | EmptyString => None
    end
  else None.

(** re.search of GetValidateCode\(['Q]?([^'Q)]+)['Q]?\) in [s]: group 1
    of the leftmost match. *)
Fixpoint search_selid (s : string) : option string :=
  match (if String.prefix "GetValidateCode(" s
         then match_selid_at (drop 16 s) else None) with
  | Some g => Some g
  | None => match s with
            | EmptyString => None
            | String _ s' => search_selid s'
            end
  end.

(** ['Q]([^'Q]+)['Q] matched at the start of [s]: group 1 and the
    number of characters matched. *)
Definition match_href_value (s : string) : option (string * nat) :=
  match s with
  | String q r =>
      if is_quote q then
        let '(grp, rest) := span (fun c => negb (is_quote c)) r in
        if nonempty grp then
          match rest with
          | String _ _ => Some (grp, 2 + String.length grp)
          | EmptyString => None
          end
        else None
      else None
  | EmptyString => None
  end.

(** href=['Q]([^'Q]+)['Q] with re.I, matched at the start of [s]. *)
Definition match_href_at (s : string) : option (string * nat) :=
  if String.prefix "href=" (lower (String.substring 0 5 s))
  then match match_href_value (drop 5 s) with
       | Some (g, n) => Some (g, 5 + n)
       | None => None
       end
  else None.

(** re.findall of href=['Q]([^'Q]+)['Q] with re.I: the groups of the
    matches found left to right, each search resuming where the previous
    match ended ([skip] counts the characters still inside it). *)
Fixpoint findall_href_go (skip : nat) (s : string) : list string :=
  match s with
  | EmptyString => []
  | String _ s' =>
      match skip with
      | S k => findall_href_go k s'
      | O => match match_href_at s with
             | Some (g, n) => g :: findall_href_go (n - 1) s'
             | None => findall_href_go 0 s'
             end
      end
  end.

Definition findall_href (s : string) : list string := findall_href_go 0 s.

(** re.search of the same pattern: group 1. *)
Definition search_href (s : string) : option string := head (findall_href s).

End Regex.

(** ** File names and paths *)

(** A [pathlib.Path] built as [parent / name]. *)
Record Path := mkPath { parent : string; name : string }.

Global Instance Path_eq_dec : EqDecision Path.
Proof. solve_decision. Defined.

(** [str(p)] *)
Definition path_str (p : Path) : string := parent p ++ "/" ++ name p.

(** [p / child], for a [child] that is one path component. *)
Definition path_join (p : Path) (child : string) : Path :=
  {| parent := path_str p; name := child |}.

(** The parts of a path text between its slashes; [cur] is the part read
    so far. *)
Fixpoint split_slash (cur s : string) : list string :=
  match s with
  | EmptyString => [cur]
  | String c s' =>
      if Ascii.eqb c "/"%char then cur :: split_slash EmptyString s'
      else split_slash (cur ++ String c EmptyString) s'
  end.

(** The components [pathlib] keeps of a path text: empty parts and single
    dots are dropped, double dots are kept. *)
Definition path_components (s : string) : list string :=
  List.filter (fun c => nonempty c && negb (String.eqb c "."))
              (split_slash EmptyString s).

(** [dir / c / c1 / ... / cn], for the text [dir] of a directory. *)
Fixpoint descend (dir c : string) (rest : list string) : Path :=
  match rest with
  | [] => {| parent := dir; name := c |}
  | c' :: rest' => descend (dir ++ "/" ++ c) c' rest'
  end.

(** [p / child] for any text [child], as [pathlib] joins on POSIX: an
    absolute [child] replaces [p] (two leading slashes, but not three,
    are kept); otherwise the components of [child] are appended to [p],
    and [p] itself is the result when there is none. *)
Definition py_join (p : Path) (child : string) : Path :=
  if startswith child "/" then
    let root :=
      if startswith child "//" && negb (startswith child "///")
      then "/" else "" in
    match path_components child with
    | [] => {| parent := root; name := "" |}
    | c :: rest => descend root c rest
    end
  else
    match path_components child with
    | [] => p
    | c :: rest => descend (path_str p) c rest
    end.

(** The position of the last dot: the text before it and the text from it
    on, [name.rfind('.')]. *)
Fixpoint rsplit_dot (s : string) : option (string * string) :=
  match s with
  | EmptyString => None
  | String c s' =>
      match rsplit_dot s' with
      | Some (a, b) => Some (String c a, b)
      | None => if Ascii.eqb c "."%char then Some (EmptyString, s) else None
      end
  end.

(** [p.suffix]: the last dot must be neither the first nor the last
    character of the name. *)
Definition path_suffix (p : Path) : string :=
  match rsplit_dot (name p) with
  | Some (a, b) =>
      if nonempty a && (1 <? String.length b)%nat then b else ""
  | None => ""
  end.

(** [p.stem] *)
Definition path_stem (p : Path) : string :=
  match rsplit_dot (name p) with
  | Some (a, b) =>
      if nonempty a && (1 <? String.length b)%nat then a else name p
  | None => name p
  end.

(** [re.sub(cls+, '_', s)]: every maximal run of characters of the class
    becomes one underscore. *)
Fixpoint sub_runs (cls : ascii -> bool) (in_run : bool) (s : string) : string :=
  match s with
  | EmptyString => EmptyString
  | String c s' =>
      if cls c then
        if in_run then sub_runs cls true s'
        else String "_"%char (sub_runs cls true s')
      else String c (sub_runs cls false s')
  end.

Definition is_forbidden (c : ascii) : bool :=
  existsb (Ascii.eqb c)
    ["\"%char; "/"%char; ":"%char; "*"%char; "?"%char; ascii_of_nat 34;
     "<"%char; ">"%char; "|"%char; ascii_of_nat 13; ascii_of_nat 10].

(** [sanitize_filename(name)].  White space outside ASCII is left as it
    is by this model. *)
Definition sanitize_filename (name : string) : string :=
  if negb (nonempty name) then ""
  else
    let s := sub_runs is_forbidden false name in
    let s := sub_runs is_space false s in
    take_chars 200 (strip s).

(** [short_title(text)] *)
Definition short_title (text : string) : string :=
  take_chars 15 (sanitize_filename text).

(** ** Exceptions and results *)

Inductive exn_class :=
| UnexpectedAlertPresentException
| TypeError
| IndexError
| HTTPError
| OtherException.

Global Instance exn_class_eq_dec : EqDecision exn_class.
Proof. solve_decision. Defined.

(** A raised exception: its class and [str(e)].  Every class here derives
    from [Exception]. *)
Record exn := Exn { exn_cls : exn_class; exn_msg : string }.

(** What a Python call gives: a value, or a raised exception. *)
Inductive Res (A : Type) :=
| Ok (a : A)
| Raise (e : exn).
Arguments Ok {A} a.
Arguments Raise {A} e.

Definition is_ok {A} (r : Res A) : bool :=
  match r with Ok _ => true | Raise _ => false end.

(** ** The browser, the network and the disk *)

Definition elem := nat.

(** The XPath and tag queries the scraper issues with [find_elements]. *)
Inductive selector :=
| SelOpendownTriggers
| SelIframes
| SelCandidates
| SelAnchors
| SelH3.

(** Driver calls that return nothing. *)
Inductive driver_cmd :=
| CmdGet (url : string)
| CmdScrollIntoView (el : elem)
| CmdClick (el : elem)
| CmdDefaultContent
| CmdSwitchFrame (el : elem)
| CmdSwitchWindow (handle : string)
| CmdClose
| CmdQuit
| CmdAlertDismiss
| CmdNetworkEnable
| CmdSetPageLoadTimeout
| CmdSetScriptTimeout.

(** Driver reads that return a string. *)
Inductive driver_query :=
| QCurrentUrl
| QTitle
| QPageSource
| QAlertText
| QText (el : elem).

(** The call site of [download_with_session]: the way the URL was found. *)
Inductive discovered_via :=
| DirectHref
| NewWindow
| NetworkTrace
| DomContainer
| StaticScan.

Global Instance discovered_via_eq_dec : EqDecision discovered_via.
Proof. solve_decision. Defined.

Inductive archive_kind := Zip | Rar.

(** The environment.  The [n]-th call made to it (counting every call of
    the run) is answered by the field for that operation at index [n], so
    an environment may answer the same call differently at different
    times.  The last fields are library functions the model leaves to the
    environment. *)
Record World := {
  (** milliseconds the [n]-th call takes *)
  w_latency : nat -> N;
  w_cmd : nat -> driver_cmd -> Res unit;
  w_query : nat -> driver_query -> Res string;
  w_get_attribute : nat -> elem -> string -> Res (option string);
  w_find_elements : nat -> selector -> Res (list elem);
  w_find_element_by_id : nat -> string -> Res elem;
  w_window_handles : nat -> Res (list string);
  w_get_cookies : nat -> Res unit;
  (** the list [extract_urls_from_perf_logs(driver)] returns; that
      function catches every exception it meets *)
  w_perf_urls : nat -> list string;
  (** [webdriver.Chrome(...)], with or without [executable_path] *)
  w_chrome : nat -> bool -> Res unit;
  w_mkdtemp : nat -> Res string;
  w_mkdir : nat -> string -> Res unit;
  (** [shutil.rmtree(dir, ignore_errors=True)]: whether the path [q]
      under [dir] resists deletion; the failure is ignored and [q] is
      left in place *)
  w_rmtree_left : nat -> string -> string -> bool;
  (** [session.get]: the status code of the response *)
  w_session_get : nat -> string -> Res Z;
  w_open_write : nat -> string -> Res unit;
  (** streaming the body into the open file *)
  w_write_body : nat -> string -> Res unit;
  (** [extractall] / [patoolib.extract_archive]: the files created *)
  w_extract : nat -> archive_kind -> string -> string -> Res (list string);
  (** [os.walk(dir)]: the directories under [dir] with their files *)
  w_walk : nat -> string -> list (string * list string);
  w_copy2 : nat -> string -> string -> Res unit;
  w_open_read : nat -> string -> Res unit;
  (** [requests.post]: the status code of the response *)
  w_post : nat -> string -> Res Z;
  (** whether [import patoolib] succeeded *)
  w_patoolib : bool;
  (** [urllib.parse.urljoin] *)
  w_urljoin : string -> string -> string;
  (** [unquote(Path(urlparse(url).path).name or urlparse(url).fragment
      or 'download')] *)
  w_url_basename : string -> Res string;
}.

(** One call made to the environment, with its answer. *)
Inductive event :=
| EvCmd (c : driver_cmd) (r : Res unit)
| EvQuery (q : driver_query) (r : Res string)
| EvGetAttribute (el : elem) (attr : string) (r : Res (option string))
| EvFindElements (sel : selector) (r : Res (list elem))
| EvFindElementById (id : string) (r : Res elem)
| EvWindowHandles (r : Res (list string))
| EvGetCookies (r : Res unit)
| EvPerfUrls (urls : list string)
| EvChrome (with_path : bool) (r : Res unit)
| EvMkdtemp (r : Res string)
| EvSleep (ms : Z)
| EvRmtree (p : string)
| EvMkdir (p : string) (r : Res unit)
| EvSessionGet (via : discovered_via) (url : string) (r : Res Z)
| EvOpenWrite (p : string) (r : Res unit)
| EvWriteBody (p : string) (r : Res unit)
| EvExtract (k : archive_kind) (archive dest : string) (r : Res (list string))
| EvWalk (dir : string) (tree : list (string * list string))
| EvCopy2 (src dst : string) (r : Res unit)
| EvOpenRead (p : string) (r : Res unit)
| EvPost (p : string) (r : Res Z).

Inductive log_level := INFO | WARNING | ERROR.

(** ** Program state

    Besides the clock, the disk and the record of calls, the state holds
    the Python objects the functions mutate in place: the [messages],
    [downloaded] and [uploaded] lists, and the locals [got_one] and
    [driver] that exception handlers read after an assignment inside the
    guarded block. *)
Record State := {
  (** [time.time()], in milliseconds *)
  st_clock : Z;
  (** the calls made so far, oldest first *)
  st_trace : list event;
  (** the paths that exist *)
  st_fs : gset string;
  st_messages : list string;
  st_log : list (log_level * string);
  st_downloaded : list Path;
  st_uploaded : list string;
  (** the candidate list of the direct-link scan *)
  st_cand : list string;
  st_got_one : bool;
  (** [driver is not None] *)
  st_driver : bool;
  (** set when a loop of the model runs out of fuel *)
  st_stuck : bool;
}.

Definition M (A : Type) : Type := State -> Res A * State.

Global Instance M_ret : MRet M := fun A a s => (Ok a, s).

Global Instance M_bind : MBind M := fun A B f m s =>
  match m s with
  | (Ok a, s') => f a s'
  | (Raise e, s') => (Raise e, s')
  end.

(** [raise e] *)
Definition raise {A} (e : exn) : M A := fun s => (Raise e, s).

(** [try: m  except Exception as e: h e] *)
Definition try_except {A} (m : M A) (h : exn -> M A) : M A := fun s =>
  match m s with
  | (Ok a, s') => (Ok a, s')
  | (Raise e, s') => h e s'
  end.

(** [try: m  except Exception: pass] *)
Definition try_pass (m : M unit) : M unit :=
  try_except m (fun _ => mret tt).

(** [try: m  finally: fin] *)
Definition try_finally {A} (m : M A) (fin : M unit) : M A := fun s =>
  match m s with
  | (r, s') =>
      match fin s' with
      | (Ok _, s'') => (r, s'')
      | (Raise e, s'') => (Raise e, s'')
      end
  end.

(** [for x in l: body x] *)
Fixpoint for_each {A} (l : list A) (body : A -> M unit) : M unit :=
  match l with
  | [] => mret tt
  | x :: l' => body x ;; for_each l' body
  end.

(** [for i, x in enumerate(l): body i x], counting from [i]. *)
Fixpoint for_each_from {A} (i : nat) (l : list A) (body : nat -> A -> M unit)
  : M unit :=
  match l with
  | [] => mret tt
  | x :: l' => body i x ;; for_each_from (S i) l' body
  end.

(** *** State updates *)

Definition set_clock (v : Z) (s : State) : State :=
  {| st_clock := v; st_trace := st_trace s; st_fs := st_fs s;
     st_messages := st_messages s; st_log := st_log s;
     st_downloaded := st_downloaded s; st_uploaded := st_uploaded s;
     st_cand := st_cand s; st_got_one := st_got_one s;
     st_driver := st_driver s; st_stuck := st_stuck s |}.

Definition set_trace (v : list event) (s : State) : State :=
  {| st_clock := st_clock s; st_trace := v; st_fs := st_fs s;
     st_messages := st_messages s; st_log := st_log s;
     st_downloaded := st_downloaded s; st_uploaded := st_uploaded s;
     st_cand := st_cand s; st_got_one := st_got_one s;
     st_driver := st_driver s; st_stuck := st_stuck s |}.

Definition set_fs (v : gset string) (s : State) : State :=
  {| st_clock := st_clock s; st_trace := st_trace s; st_fs := v;
     st_messages := st_messages s; st_log := st_log s;
     st_downloaded := st_downloaded s; st_uploaded := st_uploaded s;
     st_cand := st_cand s; st_got_one := st_got_one s;
     st_driver := st_driver s; st_stuck := st_stuck s |}.

Definition set_messages (v : list string) (s : State) : State :=
  {| st_clock := st_clock s; st_trace := st_trace s; st_fs := st_fs s;
     st_messages := v; st_log := st_log s;
     st_downloaded := st_downloaded s; st_uploaded := st_uploaded s;
     st_cand := st_cand s; st_got_one := st_got_one s;
     st_driver := st_driver s; st_stuck := st_stuck s |}.

Definition set_log (v : list (log_level * string)) (s : State) : State :=
  {| st_clock := st_clock s; st_trace := st_trace s; st_fs := st_fs s;
     st_messages := st_messages s; st_log := v;
     st_downloaded := st_downloaded s; st_uploaded := st_uploaded s;
     st_cand := st_cand s; st_got_one := st_got_one s;
     st_driver := st_driver s; st_stuck := st_stuck s |}.

Definition set_downloaded (v : list Path) (s : State) : State :=
  {| st_clock := st_clock s; st_trace := st_trace s; st_fs := st_fs s;
     st_messages := st_messages s; st_log := st_log s; st_downloaded := v;
     st_uploaded := st_uploaded s; st_cand := st_cand s;
     st_got_one := st_got_one s; st_driver := st_driver s;
     st_stuck := st_stuck s |}.

Definition set_uploaded (v : list string) (s : State) : State :=
  {| st_clock := st_clock s; st_trace := st_trace s; st_fs := st_fs s;
     st_messages := st_messages s; st_log := st_log s;
     st_downloaded := st_downloaded s; st_uploaded := v;
     st_cand := st_cand s; st_got_one := st_got_one s;
     st_driver := st_driver s; st_stuck := st_stuck s |}.

Definition set_cand (v : list string) (s : State) : State :=
  {| st_clock := st_clock s; st_trace := st_trace s; st_fs := st_fs s;
     st_messages := st_messages s; st_log := st_log s;
     st_downloaded := st_downloaded s; st_uploaded := st_uploaded s;
     st_cand := v; st_got_one := st_got_one s; st_driver := st_driver s;
     st_stuck := st_stuck s |}.

Definition set_got_one (v : bool) (s : State) : State :=
  {| st_clock := st_clock s; st_trace := st_trace s; st_fs := st_fs s;
     st_messages := st_messages s; st_log := st_log s;
     st_downloaded := st_downloaded s; st_uploaded := st_uploaded s;
     st_cand := st_cand s; st_got_one := v; st_driver := st_driver s;
     st_stuck := st_stuck s |}.

Definition set_driver (v : bool) (s : State) : State :=
  {| st_clock := st_clock s; st_trace := st_trace s; st_fs := st_fs s;
     st_messages := st_messages s; st_log := st_log s;
     st_downloaded := st_downloaded s; st_uploaded := st_uploaded s;
     st_cand := st_cand s; st_got_one := st_got_one s; st_driver := v;
     st_stuck := st_stuck s |}.

Definition set_stuck (v : bool) (s : State) : State :=
  {| st_clock := st_clock s; st_trace := st_trace s; st_fs := st_fs s;
     st_messages := st_messages s; st_log := st_log s;
     st_downloaded := st_downloaded s; st_uploaded := st_uploaded s;
     st_cand := st_cand s; st_got_one := st_got_one s;
     st_driver := st_driver s; st_stuck := v |}.

(** Read a component of the state. *)
Definition gets {A} (f : State -> A) : M A := fun s => (Ok (f s), s).

(** Change the state. *)
Definition modify (f : State -> State) : M unit := fun s => (Ok tt, f s).

(** [messages.append(msg)] *)
Definition say (msg : string) : M unit :=
  modify (fun s => set_messages (st_messages s ++ [msg]) s).

(** [logger.info], [logger.warning], [logger.error] *)
Definition log (lvl : log_level) (msg : string) : M unit :=
  modify (fun s => set_log (st_log s ++ [(lvl, msg)]) s).

(** [downloaded.append(p)] *)
Definition append_downloaded (p : Path) : M unit :=
  modify (fun s => set_downloaded (st_downloaded s ++ [p]) s).

(** [uploaded.append(n)] *)
Definition append_uploaded (n : string) : M unit :=
  modify (fun s => set_uploaded (st_uploaded s ++ [n]) s).

(** [cand.append(u)] *)
Definition append_cand (u : string) : M unit :=
  modify (fun s => set_cand (st_cand s ++ [u]) s).

(** A loop of the model ran out of fuel. *)
Definition stuck : M unit := modify (set_stuck true).

(** [time.time()] *)
Definition time_time : M Z := gets st_clock.

(** [p.exists()] *)
Definition path_exists (p : Path) : M bool :=
  gets (fun s => bool_decide (path_str p ∈ st_fs s)).

(** The disk gains a path. *)
Definition fs_add (p : string) : M unit :=
  modify (fun s => set_fs ({[ p ]} ∪ st_fs s) s).

(** [p] is [dir] or lies under it. *)
Definition under (dir p : string) : bool :=
  String.eqb p dir || String.prefix (dir ++ "/") p.

(** ** Configuration *)

Definition BISHENG_API_BASE_URL : string := "http://192.168.168.19:3001".
Definition KNOWLEDGE_BASE_ID : Z := 254.
Definition TEMP_DOWNLOAD_DIR : string := "/root/scraper_project/temp_downloads".
Definition DOWNLOAD_WORK_DIR : string := TEMP_DOWNLOAD_DIR.
(** Seconds in the source; milliseconds here. *)
Definition CLICK_NEW_WINDOW_WAIT : Z := 8000.
Definition PERF_POLL_ITER : nat := 6.
Definition PERF_POLL_SLEEP : Z := 800.
(** Fuel of the new-window loop, which the source bounds by the clock. *)
Definition NEW_WINDOW_FUEL : nat := 28.

(** The statuses [raise_for_status] refuses: client and server errors. *)
Definition http_error_status (status : Z) : bool :=
  ((400 <=? status) && (status <? 600))%Z.

(** [str(b)] for a Python [bool]. *)
Definition py_bool (b : bool) : string := if b then "True" else "False".

(** [not l] for a list. *)
Definition is_nil {A} (l : list A) : bool :=
  match l with [] => true | _ => false end.

Section Program.

Context (w : World).

(** *** Calls to the environment *)

(** A call that may raise: it is answered by the environment, recorded,
    and takes the time the environment says. *)
Definition call {A} (oracle : nat -> Res A) (ev : Res A -> event) : M A :=
  fun s =>
    let n := length (st_trace s) in
    let r := oracle n in
    (r, set_clock (st_clock s + Z.of_N (w_latency w n))
          (set_trace (st_trace s ++ [ev r]) s)).

(** A call that cannot raise. *)
Definition observe {A} (oracle : nat -> A) (ev : A -> event) : M A :=
  fun s =>
    let n := length (st_trace s) in
    let r := oracle n in
    (Ok r, set_clock (st_clock s + Z.of_N (w_latency w n))
             (set_trace (st_trace s ++ [ev r]) s)).

(** A pure library call that may raise. *)
Definition lift_res {A} (r : Res A) : M A := fun s => (r, s).

Definition cmd (c : driver_cmd) : M unit :=
  call (fun n => w_cmd w n c) (EvCmd c).

Definition query (q : driver_query) : M string :=
  call (fun n => w_query w n q) (EvQuery q).

Definition get_attribute (el : elem) (attr : string) : M (option string) :=
  call (fun n => w_get_attribute w n el attr) (EvGetAttribute el attr).

Definition find_elements (sel : selector) : M (list elem) :=
  call (fun n => w_find_elements w n sel) (EvFindElements sel).

Definition find_element_by_id (id : string) : M elem :=
  call (fun n => w_find_element_by_id w n id) (EvFindElementById id).

Definition window_handles : M (list string) :=
  call (w_window_handles w) EvWindowHandles.

(** [time.sleep(ms / 1000)] *)
Definition sleep (ms : Z) : M unit := fun s =>
  let n := length (st_trace s) in
  (Ok tt, set_clock (st_clock s + ms + Z.of_N (w_latency w n))
            (set_trace (st_trace s ++ [EvSleep ms]) s)).

(** [shutil.rmtree(p, ignore_errors=True)]: [p] and what lies under it
    is removed, except the paths that resist deletion, which stay without
    a report; nothing is raised. *)
Definition rmtree (p : Path) : M unit := fun s =>
  let n := length (st_trace s) in
  (Ok tt, set_clock (st_clock s + Z.of_N (w_latency w n))
            (set_fs (filter (fun q => under (path_str p) q
                                      && negb (w_rmtree_left w n (path_str p) q)
                                      = false) (st_fs s))
               (set_trace (st_trace s ++ [EvRmtree (path_str p)]) s))).

(** [ensure_dir(p)]: [p.mkdir(parents=True, exist_ok=True)] *)
Definition ensure_dir (p : Path) : M unit :=
  call (fun n => w_mkdir w n (path_str p)) (EvMkdir (path_str p)) ;;
  fs_add (path_str p).

(** [open(p, 'wb')]: the file exists from then on. *)
Definition open_write (p : Path) : M unit :=
  call (fun n => w_open_write w n (path_str p)) (EvOpenWrite (path_str p)) ;;
  fs_add (path_str p).

Definition write_body (p : Path) : M unit :=
  call (fun n => w_write_body w n (path_str p)) (EvWriteBody (path_str p)).

(** [shutil.copy2(src, dst)] *)
Definition copy2 (src dst : Path) : M unit :=
  call (fun n => w_copy2 w n (path_str src) (path_str dst))
       (EvCopy2 (path_str src) (path_str dst)) ;;
  fs_add (path_str dst).

(** Expanding an archive into [dest]. *)
Definition extract (k : archive_kind) (archive dest : Path) : M unit :=
  files ← call (fun n => w_extract w n k (path_str archive) (path_str dest))
               (EvExtract k (path_str archive) (path_str dest)) ;
  for_each files fs_add.

Definition walk (dir : Path) : M (list (string * list string)) :=
  observe (fun n => w_walk w n (path_str dir)) (EvWalk (path_str dir)).

(** [r.raise_for_status()]: statuses 400 to 599 raise [HTTPError]. *)
Definition raise_for_status (status : Z) : M unit :=
  if http_error_status status
  then raise (Exn HTTPError (pretty status ++ " Error"))
  else mret tt.

(** *** Helper utilities *)

(** [derive_filename_from_url(url)]: the last segment of the path of the
    URL, its fragment or the word download, percent-decoded, is left to
    the environment ([urlparse], [pathlib] and [unquote] are library
    code); the model sanitises what they return. *)
Definition derive_filename_from_url (url : string) : M string :=
  base ← lift_res (w_url_basename w url) ;
  mret (sanitize_filename base).

(** *** Download wrapper

    [via] names the call site; the Python function has no such argument
    and is indifferent to it. *)
Definition download_with_session (via : discovered_via) (url : string)
    (out_dir : Path) (filename_override : option string) : M (option Path) :=
  try_except
    (ensure_dir out_dir ;;
     parsed_name ←
       (if nonempty (or_empty filename_override)
        then mret (or_empty filename_override)
        else derive_filename_from_url url) ;
     let out_path := path_join out_dir parsed_name in
     log INFO ("尝试下载: " ++ url ++ " -> " ++ name out_path) ;;
     status ← call (fun n => w_session_get w n url) (EvSessionGet via url) ;
     raise_for_status status ;;
     open_write out_path ;;
     write_body out_path ;;
     log INFO ("下载完成: " ++ path_str out_path) ;;
     mret (Some out_path))
    (fun e =>
       log WARNING ("下载失败: " ++ url ++ " -> " ++ exn_msg e) ;;
       mret None).

(** *** Upload of one file to the knowledge base *)

Definition upload_endpoint : string :=
  BISHENG_API_BASE_URL ++ "/api/v2/filelib/file/" ++ pretty KNOWLEDGE_BASE_ID.

(** [upload_file_to_bisheng(file_path)] *)
Definition upload_file_to_bisheng (file_path : Path) : M (bool * string) :=
  try_except
    (call (fun n => w_open_read w n (path_str file_path))
          (EvOpenRead (path_str file_path)) ;;
     status ← call (fun n => w_post w n (path_str file_path))
                   (EvPost (path_str file_path)) ;
     raise_for_status status ;;
     mret (true, "HTTP" ++ pretty status))
    (fun e => mret (false, "UploadFailed: " ++ exn_msg e)).

(** *** Extraction and upload *)

(** The name an inner file of an archive is uploaded under.  The upload
    path is built below as [path.parent / stdname] with the standard name
    as one path component; that is what [pathlib] builds, and the name is
    then [dest.name], when the task identifier and the title hold no
    slash (the file names never do). *)
Definition inner_stdname (path : Path) (task_id page_title_15 fi : string)
  : string :=
  task_id ++ page_title_15 ++ "附件" ++ name path ++ "_" ++ fi.

(** The body of [for fi in files]. *)
Definition upload_inner (path : Path) (task_id page_title_15 : string)
    (root fi : string) : M unit :=
  let src := mkPath root fi in
  let stdname := inner_stdname path task_id page_title_15 fi in
  let dest := mkPath (parent path) stdname in
  copy2 src dest ;;
  '(ok, info) ← upload_file_to_bisheng dest ;
  say ("    上传解压文件 '" ++ name dest ++ "' => " ++ py_bool ok
       ++ " (" ++ info ++ ")") ;;
  if (ok : bool) then append_uploaded (name dest) else mret tt.

(** [for root, _, files in os.walk(...): for fi in files: ...] *)
Definition upload_tree (path : Path) (task_id page_title_15 : string)
    (tree : list (string * list string)) : M unit :=
  for_each tree (fun d : string * list string =>
    for_each d.2 (upload_inner path task_id page_title_15 d.1)).

(** The guarded block of the zip and of the rar branch. *)
Definition expand_and_upload (k : archive_kind) (path : Path)
    (task_id page_title_15 : string) : M unit :=
  let extract_dir := mkPath (parent path) ("_extracted_" ++ path_stem path) in
  ensure_dir extract_dir ;;
  extract k path extract_dir ;;
  say (match k with
       | Zip => "  解压 zip 成功: " ++ name path
       | Rar => "  rar 解压成功: " ++ name path
       end) ;;
  tree ← walk extract_dir ;
  upload_tree path task_id page_title_15 tree.

(** [extract_and_upload_file(path, task_id, page_title_15, uploaded,
    messages)].  As for the inner files of an archive, the standard name
    of a plain file is taken as one path component. *)
Definition extract_and_upload_file (path : Path)
    (task_id page_title_15 : string) : M unit :=
  if String.eqb (lower (path_suffix path)) ".zip" then
    try_except (expand_and_upload Zip path task_id page_title_15)
      (fun e => say ("  zip 解压失败: " ++ exn_msg e))
  else if String.eqb (lower (path_suffix path)) ".rar" then
    if negb (w_patoolib w) then say "  patoolib 未安装，无法解压 rar"
    else
      try_except (expand_and_upload Rar path task_id page_title_15)
        (fun e => say ("  rar 解压失败: " ++ exn_msg e))
  else
    let stdname := task_id ++ page_title_15 ++ "附件" ++ name path in
    let dest := mkPath (parent path) stdname in
    try_except
      (present ← path_exists dest ;
       (if negb present then copy2 path dest else mret tt) ;;
       '(ok, info) ← upload_file_to_bisheng dest ;
       say ("  上传文件 '" ++ name dest ++ "' => " ++ py_bool ok
            ++ " (" ++ info ++ ")") ;;
       if (ok : bool) then append_uploaded (name dest) else mret tt)
      (fun e => say ("  上传失败: " ++ name dest ++ " -> " ++ exn_msg e)).

(** *** Browser and session *)

Definition CHROMEDRIVER_PATH : string := "/usr/local/bin/chromedriver".
Definition HEADLESS : bool := true.

(** [build_driver(download_dir, headless)] *)
Definition build_driver (download_dir : Path) (headless : bool) : M unit :=
  profile ← call (w_mkdtemp w) EvMkdtemp ;
  fs_add profile ;;
  try_except
    (if nonempty CHROMEDRIVER_PATH
     then call (fun n => w_chrome w n true) (EvChrome true)
     else call (fun n => w_chrome w n false) (EvChrome false))
    (fun e =>
       if decide (exn_cls e = TypeError)
       then call (fun n => w_chrome w n false) (EvChrome false)
       else raise e) ;;
  try_except (cmd CmdNetworkEnable)
    (fun _ => log INFO "CDP Network.enable not available in this environment.") ;;
  cmd CmdSetPageLoadTimeout ;;
  cmd CmdSetScriptTimeout.

(** [session_from_driver(driver)] *)
Definition session_from_driver : M unit :=
  try_pass (call (w_get_cookies w) EvGetCookies).

(** [extract_urls_from_perf_logs(driver)] *)
Definition extract_urls_from_perf_logs : M (list string) :=
  observe (w_perf_urls w) EvPerfUrls.

(** *** Strategy A: popup iframes *)

(** What each probe does with the URL it found:
    [p = download_with_session(...)], then, when [p] is a path,
    [downloaded.append(p)] and [got_one = True]. *)
Definition fetch_found (via : discovered_via) (url : string)
    (work_dir : Path) : M unit :=
  p ← download_with_session via url work_dir None ;
  match p with
  | Some p' => append_downloaded p' ;; modify (set_got_one true)
  | None => mret tt
  end.

(** Probe A, the body of [if new:]: the new window is visited, its URL
    fetched when it looks like a file, and the window closed. *)
Definition visit_new_window (new_win : string) (base_handles : gset string)
    (work_dir : Path) : M unit :=
  cmd (CmdSwitchWindow new_win) ;;
  sleep 600 ;;
  new_url ← query QCurrentUrl ;
  say ("        新窗口出现: " ++ new_url) ;;
  (if nonempty new_url && startswith new_url "http"
      && looks_like_attachment (Some new_url)
   then fetch_found NewWindow new_url work_dir
   else mret tt) ;;
  try_pass (cmd CmdClose) ;;
  try_pass
    (match elements base_handles with
     | h :: _ => cmd (CmdSwitchWindow h)
     | [] => raise (Exn IndexError "list index out of range")
     end).

(** Probe A, the body of [while time.time() - t0 < CLICK_NEW_WINDOW_WAIT]. *)
Fixpoint wait_new_window (fuel : nat) (t0 : Z) (base_handles : gset string)
    (work_dir : Path) : M unit :=
  match fuel with
  | O => stuck
  | S fuel' =>
      now ← time_time ;
      if (now - t0 <? CLICK_NEW_WINDOW_WAIT)%Z then
        hs ← window_handles ;
        let now_handles : gset string := list_to_set hs in
        match elements (now_handles ∖ base_handles) with
        | new_win :: _ => visit_new_window new_win base_handles work_dir
        | [] =>
            sleep 300 ;;
            wait_new_window fuel' t0 base_handles work_dir
        end
      else mret tt
  end.

(** Probe B, the body of [for pu in perf_urls]. *)
Fixpoint pick_perf_url (perf_urls : list string) : M (option string) :=
  match perf_urls with
  | [] => mret None
  | pu :: rest =>
      pu' ← (if negb (startswith pu "http")
              then cur ← query QCurrentUrl ; mret (w_urljoin w cur pu)
              else mret pu) ;
      if looks_like_attachment (Some pu') || contains "down.bidcenter" pu'
      then mret (Some pu')
      else pick_perf_url rest
  end.

(** Probe B, [for _ in range(PERF_POLL_ITER)]. *)
Fixpoint poll_perf_logs (n : nat) : M (option string) :=
  match n with
  | O => mret None
  | S n' =>
      perf_urls ← extract_urls_from_perf_logs ;
      perf_found ← (if is_nil perf_urls then mret None
                    else pick_perf_url perf_urls) ;
      match perf_found with
      | Some u => mret (Some u)
      | None => sleep PERF_POLL_SLEEP ;; poll_perf_logs n'
      end
  end.

(** Probe C, the container named by the click handler. *)
Definition inspect_container (selid : string) (work_dir : Path) : M unit :=
  try_pass
    (try_pass
       (elc ← find_element_by_id selid ;
        inner ← get_attribute elc "innerHTML" ;
        match Regex.search_href (or_empty inner) with
        | Some c0 =>
            candidate ← (if negb (startswith c0 "http")
                         then cur ← query QCurrentUrl ;
                              mret (w_urljoin w cur c0)
                         else mret c0) ;
            say ("        在容器 " ++ selid ++ " 中发现链接: " ++ candidate) ;;
            fetch_found DomContainer candidate work_dir
        | None => mret tt
        end)).

(** The click on a candidate, with its two handlers. *)
Definition click_candidate (el : elem) : M unit :=
  try_except
    (cmd (CmdScrollIntoView el) ;; cmd (CmdClick el))
    (fun e =>
       if decide (exn_cls e = UnexpectedAlertPresentException) then
         try_pass
           (msg ← query QAlertText ;
            say ("        捕获 alert: " ++ msg ++ " -> dismiss") ;;
            cmd CmdAlertDismiss)
       else say ("        点击失败: " ++ exn_msg e)).

(** What follows the click: the three probes. *)
Definition run_probes (selid : option string) (base_handles : gset string)
    (work_dir : Path) : M unit :=
  modify (set_got_one false) ;;
  try_except
    (t0 ← time_time ;
     wait_new_window NEW_WINDOW_FUEL t0 base_handles work_dir)
    (fun e => say ("        检查新窗口异常: " ++ exn_msg e)) ;;
  got ← gets st_got_one ;
  if (got : bool) then mret tt
  else
    perf_found ← poll_perf_logs PERF_POLL_ITER ;
    match perf_found with
    | Some u =>
        say ("        从 performance logs 找到: " ++ u) ;;
        fetch_found NetworkTrace u work_dir
    | None => mret tt
    end ;;
    got ← gets st_got_one ;
    if (got : bool) then mret tt
    else
      (if nonempty (or_empty selid)
       then inspect_container (or_empty selid) work_dir
       else mret tt) ;;
      sleep 300.

(** The head of the body of [for i, el in enumerate(cand)]: the candidate
    is announced and its [href] and [onclick] attributes are read. *)
Definition read_candidate (i : nat) (el : elem) : M (string * string) :=
  title_attr ← get_attribute el "title" ;
  title0 ← (if nonempty (or_empty title_attr)
            then mret (or_empty title_attr)
            else query (QText el)) ;
  let title := take_chars 120 (strip title0) in
  say ("      处理候选 " ++ pretty (i + 1)%nat ++ ": '" ++ title ++ "'") ;;
  href_attr ← get_attribute el "href" ;
  onclick_attr ← get_attribute el "onclick" ;
  mret (or_empty href_attr, or_empty onclick_attr).

(** Case 1 of the candidate loop: a direct link to a file. *)
Definition is_direct_href (href : string) : bool :=
  nonempty href && startswith (lower (strip href)) "http"
  && looks_like_attachment (Some href).

(** The rest of the body: case 1 downloads the link and goes on to the
    next candidate; case 2 clicks and probes. *)
Definition resolve_candidate (work_dir : Path) (base_handles : gset string)
    (el : elem) (href onclick : string) : M unit :=
  if is_direct_href href then
    path ← download_with_session DirectHref href work_dir None ;
    match path with
    | Some p => append_downloaded p
    | None => mret tt
    end
  else
    let selid := Regex.search_selid onclick in
    click_candidate el ;;
    run_probes selid base_handles work_dir.

(** The body of [for i, el in enumerate(cand)]. *)
Definition process_candidate (work_dir : Path) (base_handles : gset string)
    (i : nat) (el : elem) : M unit :=
  try_except
    (attrs ← read_candidate i el ;
     resolve_candidate work_dir base_handles el attrs.1 attrs.2)
    (fun e => say ("      处理候选异常: " ++ exn_msg e)).

(** The body of [for t in triggers]. *)
Definition click_trigger (t : elem) : M unit :=
  try_except
    (cmd (CmdScrollIntoView t) ;;
     sleep 300 ;;
     cmd (CmdClick t) ;;
     sleep 400)
    (fun e => say ("      点击 trigger 失败: " ++ exn_msg e)).

(** The body of [for idx, ifr in enumerate(iframes)]. *)
Definition scan_iframe (work_dir : Path) (idx : nat) (ifr : elem) : M unit :=
  try_finally
    (try_except
       (src_attr ← get_attribute ifr "src" ;
        let src := or_empty src_attr in
        entered ← try_except
                    (cmd CmdDefaultContent ;;
                     cmd (CmdSwitchFrame ifr) ;;
                     mret true)
                    (fun _ => mret false) ;
        if (entered : bool) then
          say ("    切入 iframe#" ++ pretty idx ++ " (src=" ++ src ++ ")") ;;
          cand ← find_elements SelCandidates ;
          say ("      在 iframe#" ++ pretty idx ++ " 发现候选链接: "
               ++ pretty (length cand)) ;;
          hs ← window_handles ;
          let base_handles : gset string := list_to_set hs in
          for_each_from 0 cand (process_candidate work_dir base_handles) ;;
          try_pass (cmd CmdDefaultContent)
        else mret tt)
       (fun e => say ("    iframe#" ++ pretty idx ++ " 处理异常: "
                      ++ exn_msg e)))
    (try_pass (cmd CmdDefaultContent)).

(** [strategy_iframe_popups(driver, session, task_id, page_title_15,
    work_dir, messages)] *)
Definition strategy_iframe_popups (task_id page_title_15 : string)
    (work_dir : Path) : M (list Path) :=
  say "  [策略A] 尝试触发 opendown() 并解析 iframe 内附件..." ;;
  modify (set_downloaded []) ;;
  try_except
    (triggers ← try_except (find_elements SelOpendownTriggers)
                  (fun _ => mret []) ;
     (if is_nil triggers
      then say "    未发现 opendown 触发点，继续尝试扫描页面 iframe..."
      else
        say ("    发现 opendown 触发点 " ++ pretty (length triggers)
             ++ " 个，依次点击...") ;;
        for_each triggers click_trigger) ;;
     iframes ← find_elements SelIframes ;
     say ("    页面 iframe 数: " ++ pretty (length iframes)) ;;
     for_each_from 0 iframes (scan_iframe work_dir))
    (fun e => say ("  [策略A] 异常: " ++ exn_msg e)) ;;
  downloaded ← gets st_downloaded ;
  say ("  [策略A] 共下载 " ++ pretty (length downloaded) ++ " 个文件") ;;
  mret downloaded.

(** *** Strategy B: direct links of the main page *)

(** The body of [for a in anchors]. *)
Definition scan_anchor (a : elem) : M unit :=
  r ← try_except
        (href_attr ← get_attribute a "href" ;
         txt ← query (QText a) ;
         (if nonempty txt then mret tt
          else get_attribute a "title" ;; mret tt) ;;
         mret (Some (or_empty href_attr)))
        (fun _ => mret None) ;
  match r with
  | None => mret tt
  | Some href =>
      if nonempty href
         && negb (startswith (lower (strip href)) "javascript")
         && looks_like_attachment (Some href)
      then append_cand href
      else mret tt
  end.

(** The body of [for m in re.findall(...)]. *)
Definition scan_markup_href (m : string) : M unit :=
  if looks_like_attachment (Some m) then
    cur ← query QCurrentUrl ;
    let full := w_urljoin w cur m in
    cand ← gets st_cand ;
    if bool_decide (full ∈ (cand : list string)) then mret tt
    else append_cand full
  else mret tt.

(** The candidate list of the scan: the anchors, then the markup. *)
Definition collect_direct_links : M (list string) :=
  cmd CmdDefaultContent ;;
  anchors ← find_elements SelAnchors ;
  modify (set_cand []) ;;
  for_each anchors scan_anchor ;;
  try_pass
    (html ← query QPageSource ;
     for_each (Regex.findall_href html) scan_markup_href) ;;
  gets st_cand.

(** The body of [for u in cand]. *)
Definition download_direct_link (work_dir : Path) (u : string) : M unit :=
  try_except
    (path ← download_with_session StaticScan u work_dir None ;
     match path with
     | Some p => append_downloaded p
     | None => mret tt
     end)
    (fun e => say ("    下载直链失败: " ++ u ++ " -> " ++ exn_msg e)).

(** [strategy_direct_links(driver, session, task_id, page_title_15,
    work_dir, messages)] *)
Definition strategy_direct_links (task_id page_title_15 : string)
    (work_dir : Path) : M (list Path) :=
  modify (set_downloaded []) ;;
  say "  [策略B] 页面直链与 detial 区域扫描（兜底）" ;;
  try_except
    (cand ← collect_direct_links ;
     say ("    直链候选数: " ++ pretty (length cand)) ;;
     for_each cand (download_direct_link work_dir))
    (fun e => say ("  [策略B] 异常: " ++ exn_msg e)) ;;
  downloaded ← gets st_downloaded ;
  say ("  [策略B] 共下载 " ++ pretty (length downloaded) ++ " 个文件") ;;
  mret downloaded.

(** *** The single-task processor *)

(** A value of the result mapping. *)
Inductive pyval :=
| VStr (s : string)
| VList (l : list string).

(** [for h in h3s]: the first heading whose text is not blank. *)
Fixpoint first_heading (h3s : list elem) : M string :=
  match h3s with
  | [] => mret ""
  | h :: rest =>
      t ← query (QText h) ;
      if nonempty (strip t) then mret (strip t) else first_heading rest
  end.

(** The page title, headings first. *)
Definition read_page_title : M string :=
  try_except
    (h3s ← find_elements SelH3 ;
     page_title ← first_heading h3s ;
     if nonempty page_title then mret page_title else query QTitle)
    (fun _ => query QTitle).

(** [if driver: driver.quit()], guarded by [try ... except: pass]. *)
Definition quit_driver : M unit :=
  try_pass
    (d ← gets st_driver ;
     if (d : bool) then cmd CmdQuit else mret tt).

(** The body of [for f in downloaded]. *)
Definition process_download (task_id page_title_15 : string) (f : Path)
  : M unit :=
  present ← path_exists f ;
  if negb present then say ("  文件缺失: " ++ path_str f)
  else extract_and_upload_file f task_id page_title_15.

(** From the creation of the session to the page title. *)
Definition open_page (work_dir : Path) (url : string) : M string :=
  say ("  为本次任务创建临时下载目录: " ++ path_str work_dir) ;;
  build_driver work_dir HEADLESS ;;
  modify (set_driver true) ;;
  say "  浏览器启动成功" ;;
  cmd (CmdGet url) ;;
  sleep 1000 ;;
  page_title ← read_page_title ;
  mret (short_title page_title).

(** The two strategies, B only when A found nothing. *)
Definition run_strategies (task_id page_title_15 : string) (work_dir : Path)
  : M (list Path) :=
  say "  开始执行 策略A (iframe 弹窗内 GetValidateCode / 直链)" ;;
  downloaded_a ← strategy_iframe_popups task_id page_title_15 work_dir ;
  say ("  策略A 获取文件数: " ++ pretty (length downloaded_a)) ;;
  downloaded_b ←
    (if is_nil downloaded_a then
       say "  策略A 未获取到文件，开始执行 策略B (主页面直链)" ;;
       b ← strategy_direct_links task_id page_title_15 work_dir ;
       say ("  策略B 获取文件数: " ++ pretty (length b)) ;;
       mret b
     else
       say "  策略A 已获取文件，跳过 策略B" ;;
       mret []) ;
  mret ((downloaded_a : list Path) ++ downloaded_b)%list.

(** What follows the strategies: the result for the files found. *)
Definition finish_task (task_id page_title_15 : string)
    (downloaded : list Path) : M (gmap string pyval) :=
  if is_nil downloaded then
    say ("任务ID " ++ task_id ++ ": 未找到任何附件。") ;;
    messages ← gets st_messages ;
    mret (<[ "status" := VStr "no_content" ]>
          (<[ "message" := VStr ("任务ID " ++ task_id ++ ": 未找到任何附件。") ]>
          (<[ "messages" := VList messages ]> ∅)))
  else
    modify (set_uploaded []) ;;
    for_each downloaded (process_download task_id page_title_15) ;;
    uploaded ← gets st_uploaded ;
    say ("--- [附件攻坚任务] ID " ++ task_id ++ " 结束: 上传 "
         ++ pretty (length uploaded) ++ " 件 ---") ;;
    messages ← gets st_messages ;
    mret (<[ "status" := VStr "success" ]>
          (<[ "report" := VStr ("上传 " ++ pretty (length uploaded) ++ " 件") ]>
          (<[ "uploaded" := VList uploaded ]>
          (<[ "messages" := VList messages ]> ∅)))).

(** The guarded block of [handle_single_task]. *)
Definition task_body (task_id url : string) (work_dir : Path)
  : M (gmap string pyval) :=
  page_title_15 ← open_page work_dir url ;
  say ("  页面标题(前15): " ++ page_title_15) ;;
  session_from_driver ;;
  downloaded ← run_strategies task_id page_title_15 work_dir ;
  finish_task task_id page_title_15 downloaded.

(** The handler of [except Exception as e]. *)
Definition task_failed (task_id : string) (e : exn) : M (gmap string pyval) :=
  log ERROR ("!!! 任务ID " ++ task_id ++ " 崩溃: " ++ exn_msg e) ;;
  say ("!!! 任务失败: " ++ exn_msg e) ;;
  quit_driver ;;
  messages ← gets st_messages ;
  mret (<[ "status" := VStr "error" ]>
        (<[ "message" := VStr (exn_msg e) ]>
        (<[ "messages" := VList messages ]> ∅))).

(** [Path(DOWNLOAD_WORK_DIR)] *)
Definition DOWNLOAD_WORK_PATH : Path :=
  {| parent := "/root/scraper_project"; name := "temp_downloads" |}.

(** The working directory of a task, [Path(DOWNLOAD_WORK_DIR) / task_id]:
    the identifier is any text, so it may hold several components, none
    (the directory is then the root of all working directories), or be
    absolute. *)
Definition task_work_dir (task_id : string) : Path :=
  py_join DOWNLOAD_WORK_PATH task_id.

(** What [handle_single_task] does before its [try]: the working
    directory is purged and made again. *)
Definition prepare_work_dir (task_id : string) : M unit :=
  modify (set_messages []) ;;
  say ("--- [附件攻坚任务] ID " ++ task_id ++ " 已接收 ---") ;;
  present ← path_exists (task_work_dir task_id) ;
  (if (present : bool) then rmtree (task_work_dir task_id) else mret tt) ;;
  ensure_dir (task_work_dir task_id).

(** [handle_single_task(task_id, url)] *)
Definition handle_single_task (task_id url : string)
  : M (gmap string pyval) :=
  prepare_work_dir task_id ;;
  modify (set_driver false) ;;
  try_finally
    (try_except (task_body task_id url (task_work_dir task_id))
                (task_failed task_id))
    quit_driver.

End Program.

(** *** The route's reading of a result *)

(** [res.get('status')] *)
Definition res_status (res : gmap string pyval) : option string :=
  match res !! "status" with
  | Some (VStr s) => Some s
  | _ => None
  end.

(** [res.get('uploaded', [])] *)
Definition res_uploaded (res : gmap string pyval) : list string :=
  match res !! "uploaded" with
  | Some (VList l) => l
  | _ => []
  end.

(** [res.get('message', '')] *)
Definition res_message (res : gmap string pyval) : string :=
  match res !! "message" with
  | Some (VStr s) => s
  | _ => ""
  end.

(** [', '.join(l)] *)
Fixpoint join_comma (l : list string) : string :=
  match l with
  | [] => ""
  | [x] => x
  | x :: l' => x ++ ", " ++ join_comma l'
  end.

(** The line [upload_to_bisheng] adds to its report for one task. *)
Definition task_report (tid : string) (res : gmap string pyval) : string :=
  if bool_decide (res_status res = Some "success") then
    "ID " ++ tid ++ ": 上传 " ++ pretty (length (res_uploaded res)) ++ " 件 -> "
    ++ join_comma (take 3 (res_uploaded res))
    ++ (if (3 <? length (res_uploaded res))%nat then "..." else "")
  else if bool_decide (res_status res = Some "no_content") then
    "ID " ++ tid ++ ": 未找到任何附件"
  else "ID " ++ tid ++ ": 失败 - " ++ res_message res.

(** * Vocabulary of the properties *)

(** ** The path component of a URL

    This follows the glossary of the specification (an attachment-shaped
    URL is one whose path ends in a recognised extension), with the path
    taken as RFC 3986 and [urllib.parse.urlsplit] take it: what follows
    the scheme and the authority, up to the query or the fragment. *)

Definition is_scheme_char (c : ascii) : bool :=
  let n := nat_of_ascii c in
  ((48 <=? n)%nat && (n <=? 57)%nat) || ((65 <=? n)%nat && (n <=? 90)%nat)
  || ((97 <=? n)%nat && (n <=? 122)%nat)
  || Ascii.eqb c "+"%char || Ascii.eqb c "-"%char || Ascii.eqb c "."%char.

Definition is_alpha (c : ascii) : bool :=
  let n := nat_of_ascii c in
  ((65 <=? n)%nat && (n <=? 90)%nat) || ((97 <=? n)%nat && (n <=? 122)%nat).

Fixpoint all_chars (p : ascii -> bool) (s : string) : bool :=
  match s with
  | EmptyString => true
  | String c s' => p c && all_chars p s'
  end.

(** The URL without its scheme. *)
Definition strip_scheme (u : string) : string :=
  match Regex.span (fun c => negb (Ascii.eqb c ":"%char)) u with
  | (String c0 sch, String _ rest) =>
      if is_alpha c0 && all_chars is_scheme_char sch then rest else u
  | _ => u
  end.

(** The URL without its authority. *)
Definition strip_netloc (u : string) : string :=
  if String.prefix "//" u then
    (Regex.span (fun c => negb (Ascii.eqb c "/"%char || Ascii.eqb c "?"%char
                                || Ascii.eqb c "#"%char))
                (Regex.drop 2 u)).2
  else u.

Definition url_path (u : string) : string :=
  (Regex.span (fun c => negb (Ascii.eqb c "?"%char || Ascii.eqb c "#"%char))
              (strip_netloc (strip_scheme u))).1.

(** The glossary's attachment-shaped URL. *)
Definition attachment_shaped (u : string) : bool :=
  existsb (endswith (lower (url_path u))) ATTACH_EXTS.

(** ** Reading a run *)

(** The calls a computation made, given the states before and after. *)
Definition new_events (s s' : State) : list event :=
  drop (length (st_trace s)) (st_trace s').

(** The messages a computation appended. *)
Definition new_messages (s s' : State) : list string :=
  drop (length (st_messages s)) (st_messages s').

(** The answer of a call was an exception. *)
Definition ev_failed (ev : event) : bool :=
  match ev with
  | EvCmd _ (Raise _) | EvQuery _ (Raise _) | EvGetAttribute _ _ (Raise _)
  | EvFindElements _ (Raise _) | EvFindElementById _ (Raise _)
  | EvWindowHandles (Raise _) | EvGetCookies (Raise _) | EvChrome _ (Raise _)
  | EvMkdtemp (Raise _) | EvMkdir _ (Raise _) | EvSessionGet _ _ (Raise _)
  | EvOpenWrite _ (Raise _) | EvWriteBody _ (Raise _)
  | EvExtract _ _ _ (Raise _) | EvCopy2 _ _ (Raise _)
  | EvOpenRead _ (Raise _) | EvPost _ (Raise _) => true
  | _ => false
  end.


(** The working directory is deleted. *)
Definition is_rmtree (ev : event) : bool :=
  match ev with EvRmtree _ => true | _ => false end.

(** A call of the upload: opening the file to send, and the POST. *)
Definition is_upload (ev : event) : bool :=
  match ev with EvOpenRead _ _ | EvPost _ _ => true | _ => false end.


(** A download wrote its file to the end. *)
Definition is_completed_download (ev : event) : bool :=
  match ev with EvWriteBody _ (Ok _) => true | _ => false end.

(** The calls [download_with_session] makes from the call site [via]. *)
Definition is_download_from (via : discovered_via) (ev : event) : bool :=
  match ev with
  | EvMkdir _ _ | EvOpenWrite _ _ | EvWriteBody _ _ => true
  | EvSessionGet v _ _ => bool_decide (v = via)
  | _ => false
  end.

(** The calls that belong to the new-window probe. *)
Definition is_window_probe (ev : event) : bool :=
  match ev with
  | EvWindowHandles _ | EvCmd (CmdSwitchWindow _) _ | EvCmd CmdClose _
  | EvQuery QCurrentUrl _ | EvSleep _ => true
  | _ => is_download_from NewWindow ev
  end.

(** The calls that belong to the network-trace probe. *)
Definition is_trace_probe (ev : event) : bool :=
  match ev with
  | EvPerfUrls _ | EvQuery QCurrentUrl _ | EvSleep _ => true
  | _ => is_download_from NetworkTrace ev
  end.

(** The calls that belong to the inspection of the DOM container, and the
    pause that ends the candidate. *)
Definition is_container_probe (ev : event) : bool :=
  match ev with
  | EvFindElementById _ _ | EvGetAttribute _ _ _ | EvQuery QCurrentUrl _
  | EvSleep _ => true
  | _ => is_download_from DomContainer ev
  end.


(** One poll of the new-window probe, of the network-trace probe. *)
Definition is_window_poll (ev : event) : bool :=
  match ev with EvWindowHandles _ => true | _ => false end.

Definition is_trace_poll (ev : event) : bool :=
  match ev with EvPerfUrls _ => true | _ => false end.

Definition count_events (p : event -> bool) (evs : list event) : nat :=
  length (filter (fun ev => p ev = true) evs).



(** What precedes the strategies in [handle_single_task]: the working
    directory, the session, the page and its title. *)
Definition reach_strategies (w : World) (task_id url : string) : M string :=
  prepare_work_dir w task_id ;;
  modify (set_driver false) ;;
  page_title_15 ← open_page w (task_work_dir task_id) url ;
  say ("  页面标题(前15): " ++ page_title_15) ;;
  session_from_driver w ;;
  mret page_title_15.

(** ** Sample environments *)

(** The text after the last slash. *)
Fixpoint last_segment (acc s : string) : string :=
  match s with
  | EmptyString => acc
  | String c s' =>
      if Ascii.eqb c "/"%char then last_segment "" s'
      else last_segment (acc ++ String c "") s'
  end.

(** A page with nothing on it, a network and a disk that never fail. *)
Definition quiet_world : World := {|
  w_latency := fun _ => 0%N;
  w_cmd := fun _ _ => Ok tt;
  w_query := fun _ _ => Ok "";
  w_get_attribute := fun _ _ _ => Ok None;
  w_find_elements := fun _ _ => Ok [];
  w_find_element_by_id := fun _ _ => Raise (Exn OtherException "no such element");
  w_window_handles := fun _ => Ok ["main"];
  w_get_cookies := fun _ => Ok tt;
  w_perf_urls := fun _ => [];
  w_chrome := fun _ _ => Ok tt;
  w_mkdtemp := fun _ => Ok "/tmp/chrome_profile_0";
  w_mkdir := fun _ _ => Ok tt;
  w_rmtree_left := fun _ _ _ => false;
  w_session_get := fun _ _ => Ok 200%Z;
  w_open_write := fun _ _ => Ok tt;
  w_write_body := fun _ _ => Ok tt;
  w_extract := fun _ _ _ _ => Ok [];
  w_walk := fun _ _ => [];
  w_copy2 := fun _ _ _ => Ok tt;
  w_open_read := fun _ _ => Ok tt;
  w_post := fun _ _ => Ok 200%Z;
  w_patoolib := false;
  w_urljoin := fun _ u => u;
  w_url_basename := fun u => Ok (last_segment "" u);
|}.

Definition init_state : State := {|
  st_clock := 0; st_trace := []; st_fs := ∅; st_messages := []; st_log := [];
  st_downloaded := []; st_uploaded := []; st_cand := []; st_got_one := false;
  st_driver := false; st_stuck := false |}.

(** ** Properties of computations *)

(** The computation returns a value from every state. *)
Definition never_raises {A} (m : M A) : Prop :=
  forall s, exists a, (m s).1 = Ok a.

(** From [s] to [s'] nothing on the disk was lost, the calls made all
    satisfy [P], and every file opened for writing exists. *)
Definition grows (P : event -> bool) (s s' : State) : Prop :=
  st_fs s ⊆ st_fs s'
  /\ exists evs : list event, st_trace s' = (st_trace s ++ evs)%list
       /\ Forall (fun ev => P ev = true) evs
       /\ forall p, In (EvOpenWrite p (Ok tt)) evs -> p ∈ st_fs s'.

(** Whatever the computation returns, it takes every state to one
    related to it by [R]. *)
Definition respects (R : State -> State -> Prop) {A} (m : M A) : Prop :=
  forall s, R s (m s).2.

(** The computation only ever [grows] the state. *)
Abbreviation keeps P := (respects (grows P)).

(** Calls that neither delete nor upload. *)
Definition is_scraping (ev : event) : bool :=
  negb (is_rmtree ev) && negb (is_upload ev).

(** Calls that do not delete. *)
Definition is_keeping (ev : event) : bool := negb (is_rmtree ev).

(** ** The archive pipeline *)











(** ** The probes of a candidate *)

(** The files written to the end by the downloads among [evs]. *)
Definition completed_downloads (evs : list event) : list string :=
  omap (fun ev => match ev with
                  | EvWriteBody p (Ok _) => Some p
                  | _ => None
                  end) evs.

(** The paths appended to [downloaded] between two states. *)
Definition new_downloaded (s s' : State) : list Path :=
  drop (length (st_downloaded s)) (st_downloaded s').

(** From [s] to [s'] the calls made all satisfy [P], no loop ran out of
    fuel, the paths appended to [downloaded] are those of the downloads
    that completed, and [got_one] was set exactly if there is one. *)
Definition tracks (P : event -> bool) (s s' : State) : Prop :=
  st_trace s' = (st_trace s ++ new_events s s')%list
  /\ Forall (fun ev => P ev = true) (new_events s s')
  /\ st_stuck s' = st_stuck s
  /\ st_downloaded s' = (st_downloaded s ++ new_downloaded s s')%list
  /\ map path_str (new_downloaded s s') = completed_downloads (new_events s s')
  /\ st_got_one s' = st_got_one s || negb (is_nil (new_downloaded s s')).

(** Not a completed download. *)
Definition is_not_written (ev : event) : bool := negb (is_completed_download ev).


(** A candidate (element 2 of the only iframe) whose [href] is a direct
    link to a PDF. *)
Definition direct_href_world : World := {|
  w_latency := w_latency quiet_world;
  w_cmd := w_cmd quiet_world;
  w_query := w_query quiet_world;
  w_get_attribute := fun _ el attr =>
    if (el =? 2)%nat && String.eqb attr "href"
    then Ok (Some "http://site/files/a.pdf") else Ok None;
  w_find_elements := fun _ sel =>
    match sel with
    | SelIframes => Ok [1%nat]
    | SelCandidates => Ok [2%nat]
    | _ => Ok []
    end;
  w_find_element_by_id := w_find_element_by_id quiet_world;
  w_window_handles := w_window_handles quiet_world;
  w_get_cookies := w_get_cookies quiet_world;
  w_perf_urls := w_perf_urls quiet_world;
  w_chrome := w_chrome quiet_world;
  w_mkdtemp := w_mkdtemp quiet_world;
  w_mkdir := w_mkdir quiet_world;
  w_rmtree_left := w_rmtree_left quiet_world;
  w_session_get := w_session_get quiet_world;
  w_open_write := w_open_write quiet_world;
  w_write_body := w_write_body quiet_world;
  w_extract := w_extract quiet_world;
  w_walk := w_walk quiet_world;
  w_copy2 := w_copy2 quiet_world;
  w_open_read := w_open_read quiet_world;
  w_post := w_post quiet_world;
  w_patoolib := w_patoolib quiet_world;
  w_urljoin := w_urljoin quiet_world;
  w_url_basename := w_url_basename quiet_world;
|}.

(** Two anchors of the page point to the same PDF. *)
Definition two_anchors_world : World := {|
  w_latency := w_latency quiet_world;
  w_cmd := w_cmd quiet_world;
  w_query := fun _ q =>
    match q with
    | QCurrentUrl => Ok "http://site/detail/7"
    | QPageSource =>
        Ok "<a href='http://site/a.pdf'>PDF</a> <a href='http://site/a.pdf'>download</a>"
    | QText _ => Ok "PDF"
    | _ => Ok ""
    end;
  w_get_attribute := fun _ el attr =>
    if String.eqb attr "href" then Ok (Some "http://site/a.pdf") else Ok None;
  w_find_elements := fun _ sel =>
    match sel with
    | SelAnchors => Ok [1%nat; 2%nat]
    | _ => Ok []
    end;
  w_find_element_by_id := w_find_element_by_id quiet_world;
  w_window_handles := w_window_handles quiet_world;
  w_get_cookies := w_get_cookies quiet_world;
  w_perf_urls := w_perf_urls quiet_world;
  w_chrome := w_chrome quiet_world;
  w_mkdtemp := w_mkdtemp quiet_world;
  w_mkdir := w_mkdir quiet_world;
  w_rmtree_left := w_rmtree_left quiet_world;
  w_session_get := w_session_get quiet_world;
  w_open_write := w_open_write quiet_world;
  w_write_body := w_write_body quiet_world;
  w_extract := w_extract quiet_world;
  w_walk := w_walk quiet_world;
  w_copy2 := w_copy2 quiet_world;
  w_open_read := w_open_read quiet_world;
  w_post := w_post quiet_world;
  w_patoolib := w_patoolib quiet_world;
  w_urljoin := fun _ u => u;
  w_url_basename := w_url_basename quiet_world;
|}.

(** The environment [w] with another network trace. *)
Definition with_perf_urls (f : nat -> list string) (w : World) : World := {|
  w_latency := w_latency w;
  w_cmd := w_cmd w;
  w_query := w_query w;
  w_get_attribute := w_get_attribute w;
  w_find_elements := w_find_elements w;
  w_find_element_by_id := w_find_element_by_id w;
  w_window_handles := w_window_handles w;
  w_get_cookies := w_get_cookies w;
  w_perf_urls := f;
  w_chrome := w_chrome w;
  w_mkdtemp := w_mkdtemp w;
  w_mkdir := w_mkdir w;
  w_rmtree_left := w_rmtree_left w;
  w_session_get := w_session_get w;
  w_open_write := w_open_write w;
  w_write_body := w_write_body w;
  w_extract := w_extract w;
  w_walk := w_walk w;
  w_copy2 := w_copy2 w;
  w_open_read := w_open_read w;
  w_post := w_post w;
  w_patoolib := w_patoolib w;
  w_urljoin := w_urljoin w;
  w_url_basename := w_url_basename w;
|}.

(** The click opens a window on the file, and the network trace holds a
    link to a file as well: either probe would succeed. *)
Definition both_world : World := {|
  w_latency := w_latency quiet_world;
  w_cmd := w_cmd quiet_world;
  w_query := fun _ q =>
    match q with
    | QCurrentUrl => Ok "http://site/files/a.pdf"
    | _ => Ok ""
    end;
  w_get_attribute := w_get_attribute quiet_world;
  w_find_elements := w_find_elements quiet_world;
  w_find_element_by_id := w_find_element_by_id quiet_world;
  w_window_handles := fun _ => Ok ["main"; "popup"];
  w_get_cookies := w_get_cookies quiet_world;
  w_perf_urls := fun _ => ["http://site/files/trace.pdf"];
  w_chrome := w_chrome quiet_world;
  w_mkdtemp := w_mkdtemp quiet_world;
  w_mkdir := w_mkdir quiet_world;
  w_rmtree_left := w_rmtree_left quiet_world;
  w_session_get := w_session_get quiet_world;
  w_open_write := w_open_write quiet_world;
  w_write_body := w_write_body quiet_world;
  w_extract := w_extract quiet_world;
  w_walk := w_walk quiet_world;
  w_copy2 := w_copy2 quiet_world;
  w_open_read := w_open_read quiet_world;
  w_post := w_post quiet_world;
  w_patoolib := w_patoolib quiet_world;
  w_urljoin := w_urljoin quiet_world;
  w_url_basename := w_url_basename quiet_world;
|}.

(** The calls of the visit of a new window: those of the new-window probe
    that are not polls. *)
Definition is_window_visit (ev : event) : bool :=
  is_window_probe ev && negb (is_window_poll ev).

(** The calls of the network-trace probe that are neither polls nor
    downloads. *)
Definition is_trace_pick (ev : event) : bool :=
  match ev with EvQuery QCurrentUrl _ => true | _ => false end.

(** ** The task *)

(** The disk knows the working directory of a task whenever it knows
    something under it. *)
Definition work_dir_consistent (task_id : string) (s : State) : Prop :=
  forall p, p ∈ st_fs s ->
            under (path_str (task_work_dir task_id)) p = true ->
            path_str (task_work_dir task_id) ∈ st_fs s.

(** A state whose disk holds the working directory of task 7 with a file
    of an earlier run. *)
Definition stale_state : State := {|
  st_clock := 0; st_trace := [];
  st_fs := {[ path_str (task_work_dir "7");
              (path_str (task_work_dir "7") ++ "/old.pdf")%string ]};
  st_messages := []; st_log := [];
  st_downloaded := []; st_uploaded := []; st_cand := []; st_got_one := false;
  st_driver := false; st_stuck := false |}.

(** A text without slash. *)
Definition no_slash (s : string) : bool :=
  all_chars (fun c => negb (Ascii.eqb c "/"%char)) s.

(** A text that is one path component: not empty, without slash, and
    neither [.] nor [..]. *)
Definition is_component (s : string) : bool :=
  nonempty s && no_slash s && negb (String.eqb s ".")
  && negb (String.eqb s "..").

(** The file of the earlier run resists deletion. *)
Definition sticky_world : World := {|
  w_latency := w_latency quiet_world;
  w_cmd := w_cmd quiet_world;
  w_query := w_query quiet_world;
  w_get_attribute := w_get_attribute quiet_world;
  w_find_elements := w_find_elements quiet_world;
  w_find_element_by_id := w_find_element_by_id quiet_world;
  w_window_handles := w_window_handles quiet_world;
  w_get_cookies := w_get_cookies quiet_world;
  w_perf_urls := w_perf_urls quiet_world;
  w_chrome := w_chrome quiet_world;
  w_mkdtemp := w_mkdtemp quiet_world;
  w_mkdir := w_mkdir quiet_world;
  w_rmtree_left := fun _ _ q =>
    String.eqb q (path_str (task_work_dir "7") ++ "/old.pdf");
  w_session_get := w_session_get quiet_world;
  w_open_write := w_open_write quiet_world;
  w_write_body := w_write_body quiet_world;
  w_extract := w_extract quiet_world;
  w_walk := w_walk quiet_world;
  w_copy2 := w_copy2 quiet_world;
  w_open_read := w_open_read quiet_world;
  w_post := w_post quiet_world;
  w_patoolib := w_patoolib quiet_world;
  w_urljoin := w_urljoin quiet_world;
  w_url_basename := w_url_basename quiet_world;
|}.

(** A state whose disk holds what a run of task 7 downloaded. *)
Definition downloaded_state : State := {|
  st_clock := 0; st_trace := [];
  st_fs := {[ path_str DOWNLOAD_WORK_PATH;
              path_str (task_work_dir "7");
              (path_str (task_work_dir "7") ++ "/a.pdf")%string ]};
  st_messages := []; st_log := [];
  st_downloaded := []; st_uploaded := []; st_cand := []; st_got_one := false;
  st_driver := false; st_stuck := false |}.

(** The page loads, but its headings cannot be listed and its title
    cannot be read. *)
Definition no_title_world : World := {|
  w_latency := w_latency quiet_world;
  w_cmd := w_cmd quiet_world;
  w_query := fun _ q =>
    match q with
    | QTitle => Raise (Exn OtherException "unexpected alert open")
    | _ => Ok ""
    end;
  w_get_attribute := w_get_attribute quiet_world;
  w_find_elements := fun _ sel =>
    match sel with
    | SelH3 => Raise (Exn UnexpectedAlertPresentException "unexpected alert open")
    | _ => Ok []
    end;
  w_find_element_by_id := w_find_element_by_id quiet_world;
  w_window_handles := w_window_handles quiet_world;
  w_get_cookies := w_get_cookies quiet_world;
  w_perf_urls := w_perf_urls quiet_world;
  w_chrome := w_chrome quiet_world;
  w_mkdtemp := w_mkdtemp quiet_world;
  w_mkdir := w_mkdir quiet_world;
  w_rmtree_left := w_rmtree_left quiet_world;
  w_session_get := w_session_get quiet_world;
  w_open_write := w_open_write quiet_world;
  w_write_body := w_write_body quiet_world;
  w_extract := w_extract quiet_world;
  w_walk := w_walk quiet_world;
  w_copy2 := w_copy2 quiet_world;
  w_open_read := w_open_read quiet_world;
  w_post := w_post quiet_world;
  w_patoolib := w_patoolib quiet_world;
  w_urljoin := w_urljoin quiet_world;
  w_url_basename := w_url_basename quiet_world;
|}.

(** A call that creates the browser session or navigates to the page
    raised. *)
Definition session_or_navigation_failed (ev : event) : bool :=
  match ev with
  | EvMkdtemp (Raise _) | EvChrome _ (Raise _)
  | EvCmd CmdSetPageLoadTimeout (Raise _)
  | EvCmd CmdSetScriptTimeout (Raise _)
  | EvCmd (CmdGet _) (Raise _) => true
  | _ => false
  end.

(** * Further vocabulary *)

(** ** File names *)

(** The number of characters of a string: its bytes that do not continue
    a UTF-8 sequence. *)
Fixpoint char_count (s : string) : nat :=
  match s with
  | EmptyString => 0
  | String c s' => (if is_continuation c then 0 else 1) + char_count s'
  end.

(** A character that [sanitize_filename] leaves in place: none of the
    characters it replaces, and no white space. *)
Definition is_name_char (c : ascii) : bool :=
  negb (is_forbidden c) && negb (is_space c).

(** A white-space character outside ASCII starts the string: U+0085,
    U+00A0, U+1680, U+2000 to U+200A, U+2028, U+2029, U+202F, U+205F or
    U+3000, in UTF-8. *)
Definition wide_space_at (s : string) : bool :=
  match s with
  | String a (String b r) =>
      let x := nat_of_ascii a in
      let y := nat_of_ascii b in
      ((x =? 194)%nat && ((y =? 133)%nat || (y =? 160)%nat))
      || match r with
         | String c _ =>
             let z := nat_of_ascii c in
             ((x =? 225)%nat && (y =? 154)%nat && (z =? 128)%nat)
             || ((x =? 226)%nat && (y =? 128)%nat
                 && (((128 <=? z)%nat && (z <=? 138)%nat)
                     || (z =? 168)%nat || (z =? 169)%nat || (z =? 175)%nat))
             || ((x =? 226)%nat && (y =? 129)%nat && (z =? 159)%nat)
             || ((x =? 227)%nat && (y =? 128)%nat && (z =? 128)%nat)
         | EmptyString => false
         end
  | _ => false
  end.

(** The string holds no white space outside ASCII. *)
Fixpoint no_wide_space (s : string) : bool :=
  negb (wide_space_at s)
  && match s with
     | EmptyString => true
     | String _ s' => no_wide_space s'
     end.

(** ** The argument of the click handler *)

(** An optional quote: nothing, or one quote character. *)
Definition is_opt_quote (q : string) : bool :=
  match q with
  | EmptyString => true
  | String c EmptyString => Regex.is_quote c
  | _ => false
  end.

(** A character the identifier inside [GetValidateCode(...)] may hold. *)
Definition is_selid_char (c : ascii) : bool :=
  negb (Regex.is_quote c || Ascii.eqb c ")"%char).

(** ** The stages of a task *)

(** The files whose POST was answered with a status that is not an error,
    in order. *)
Definition posted_ok (evs : list event) : list string :=
  omap (fun ev => match ev with
                  | EvPost p (Ok st) =>
                      if http_error_status st then None else Some p
                  | _ => None
                  end) evs.

(** The calls that create the browser session, load the page and read
    its title. *)
Definition is_page_open (ev : event) : bool :=
  match ev with
  | EvMkdtemp _ | EvChrome _ _ | EvSleep _
  | EvCmd CmdNetworkEnable _ | EvCmd CmdSetPageLoadTimeout _
  | EvCmd CmdSetScriptTimeout _ | EvCmd (CmdGet _) _
  | EvFindElements SelH3 _ | EvQuery (QText _) _ | EvQuery QTitle _ => true
  | _ => false
  end.

(** The call that copies the cookies of the browser into the session. *)
Definition is_cookie_read (ev : event) : bool :=
  match ev with EvGetCookies _ => true | _ => false end.

(** The calls of strategy A: it looks for triggers, frames and candidates,
    clicks, switches between frames and windows, reads attributes, polls
    the windows and the network trace, and downloads what it resolved. *)
Definition is_strategy_a (ev : event) : bool :=
  match ev with
  | EvFindElements SelOpendownTriggers _ | EvFindElements SelIframes _
  | EvFindElements SelCandidates _
  | EvCmd (CmdScrollIntoView _) _ | EvCmd (CmdClick _) _
  | EvCmd CmdDefaultContent _ | EvCmd (CmdSwitchFrame _) _
  | EvCmd (CmdSwitchWindow _) _ | EvCmd CmdClose _ | EvCmd CmdAlertDismiss _
  | EvQuery (QText _) _ | EvQuery QAlertText _ | EvQuery QCurrentUrl _
  | EvGetAttribute _ _ _ | EvFindElementById _ _ | EvWindowHandles _
  | EvPerfUrls _ | EvSleep _
  | EvMkdir _ _ | EvOpenWrite _ _ | EvWriteBody _ _ => true
  | EvSessionGet via _ _ => negb (bool_decide (via = StaticScan))
  | _ => false
  end.

(** The calls of strategy B: it lists the anchors, reads the markup and
    downloads the links it kept. *)
Definition is_strategy_b (ev : event) : bool :=
  match ev with
  | EvCmd CmdDefaultContent _ | EvFindElements SelAnchors _
  | EvGetAttribute _ _ _
  | EvQuery (QText _) _ | EvQuery QPageSource _ | EvQuery QCurrentUrl _
  | EvMkdir _ _ | EvOpenWrite _ _ | EvWriteBody _ _ => true
  | EvSessionGet via _ _ => bool_decide (via = StaticScan)
  | _ => false
  end.

(** The calls that expand, copy and upload what was downloaded. *)
Definition is_upload_stage (ev : event) : bool :=
  match ev with
  | EvMkdir _ _ | EvExtract _ _ _ _ | EvWalk _ _ | EvCopy2 _ _ _
  | EvOpenRead _ _ | EvPost _ _ => true
  | _ => false
  end.

(** [driver.quit()] *)
Definition is_quit (ev : event) : bool :=
  match ev with EvCmd CmdQuit _ => true | _ => false end.

(** [build_driver] returned: its last call was answered. *)
Definition driver_built (evs : list event) : bool :=
  existsb (fun ev => match ev with
                     | EvCmd CmdSetScriptTimeout (Ok _) => true
                     | _ => false
                     end) evs.

(** The browser process was started. *)
Definition chrome_started (evs : list event) : bool :=
  existsb (fun ev => match ev with
                     | EvChrome _ (Ok _) => true
                     | _ => false
                     end) evs.

(** From [s] to [s'] the calls made all satisfy [P], the variable
    [driver] was not assigned, the paths appended to [downloaded] are
    those of the downloads that completed, and the names appended to
    [uploaded] are those of the files whose POST was answered without an
    error status. *)
Definition ledger (P : event -> bool) (s s' : State) : Prop :=
  st_driver s' = st_driver s
  /\ exists (evs : list event) (dl up : list Path),
       st_trace s' = (st_trace s ++ evs)%list
       /\ Forall (fun ev => P ev = true) evs
       /\ st_downloaded s' = (st_downloaded s ++ dl)%list
       /\ map path_str dl = completed_downloads evs
       /\ st_uploaded s' = (st_uploaded s ++ map name up)%list
       /\ map path_str up = posted_ok evs.

(** The calls that set up the working directory of a task. *)
Definition is_work_dir_setup (ev : event) : bool :=
  match ev with EvRmtree _ | EvMkdir _ _ => true | _ => false end.

(** The browser starts, but setting its page-load timeout fails. *)
Definition timeout_failure_world : World := {|
  w_latency := w_latency quiet_world;
  w_cmd := fun _ c =>
    match c with
    | CmdSetPageLoadTimeout => Raise (Exn OtherException "chrome not reachable")
    | _ => Ok tt
    end;
  w_query := w_query quiet_world;
  w_get_attribute := w_get_attribute quiet_world;
  w_find_elements := w_find_elements quiet_world;
  w_find_element_by_id := w_find_element_by_id quiet_world;
  w_window_handles := w_window_handles quiet_world;
  w_get_cookies := w_get_cookies quiet_world;
  w_perf_urls := w_perf_urls quiet_world;
  w_chrome := w_chrome quiet_world;
  w_mkdtemp := w_mkdtemp quiet_world;
  w_mkdir := w_mkdir quiet_world;
  w_rmtree_left := w_rmtree_left quiet_world;
  w_session_get := w_session_get quiet_world;
  w_open_write := w_open_write quiet_world;
  w_write_body := w_write_body quiet_world;
  w_extract := w_extract quiet_world;
  w_walk := w_walk quiet_world;
  w_copy2 := w_copy2 quiet_world;
  w_open_read := w_open_read quiet_world;
  w_post := w_post quiet_world;
  w_patoolib := w_patoolib quiet_world;
  w_urljoin := w_urljoin quiet_world;
  w_url_basename := w_url_basename quiet_world;
|}.

(** The candidate of [direct_href_world], with a knowledge base that
    answers every POST with status 500. *)
Definition refusing_world : World := {|
  w_latency := w_latency direct_href_world;
  w_cmd := w_cmd direct_href_world;
  w_query := w_query direct_href_world;
  w_get_attribute := w_get_attribute direct_href_world;
  w_find_elements := w_find_elements direct_href_world;
  w_find_element_by_id := w_find_element_by_id direct_href_world;
  w_window_handles := w_window_handles direct_href_world;
  w_get_cookies := w_get_cookies direct_href_world;
  w_perf_urls := w_perf_urls direct_href_world;
  w_chrome := w_chrome direct_href_world;
  w_mkdtemp := w_mkdtemp direct_href_world;
  w_mkdir := w_mkdir direct_href_world;
  w_rmtree_left := w_rmtree_left direct_href_world;
  w_session_get := w_session_get direct_href_world;
  w_open_write := w_open_write direct_href_world;
  w_write_body := w_write_body direct_href_world;
  w_extract := w_extract direct_href_world;
  w_walk := w_walk direct_href_world;
  w_copy2 := w_copy2 direct_href_world;
  w_open_read := w_open_read direct_href_world;
  w_post := fun _ _ => Ok 500%Z;
  w_patoolib := w_patoolib direct_href_world;
  w_urljoin := w_urljoin direct_href_world;
  w_url_basename := w_url_basename direct_href_world;
|}.

(** The mapping a run of the task returned. *)
Definition run_result (r : Res (gmap string pyval) * State)
  : gmap string pyval :=
  match r.1 with Ok res => res | Raise _ => ∅ end.

(** ** JSON documents

    What [json.loads] returns: [None], a [bool], a number (kept as the
    text [str()] gives for it), a [str], a [list], or a [dict] (its items
    in order, its keys distinct). *)
#[warnings="-register-all"]
Inductive json :=
| JNull
| JBool (b : bool)
| JNum (text : string)
| JStr (s : string)
| JList (items : list json)
| JDict (items : list (string * json)).

(** [any(v.endswith(ext) for ext in ATTACH_EXTS)] *)
Definition ends_with_ext (v : string) : bool :=
  existsb (endswith v) ATTACH_EXTS.

(** [v.startswith('http') and ('down.bidcenter' in v
    or any(ext in v for ext in ATTACH_EXTS))] *)
Definition is_download_link (v : string) : bool :=
  startswith v "http"
  && (contains "down.bidcenter" v
      || existsb (fun ext => contains ext v) ATTACH_EXTS).

(** [find_url(obj)], the search nested in [extract_urls_from_perf_logs]:
    the values of a [dict] are tried in order, a string value against the
    two tests and then, as any other value, by the recursive call (which
    gives [None] for a string); the items of a [list] by the recursive
    call only. *)
Fixpoint find_url (obj : json) : option string :=
  match obj with
  | JDict items =>
      (fix items_loop (l : list (string * json)) : option string :=
         match l with
         | [] => None
         | (_, v) :: l' =>
             match (match v with
                    | JStr s =>
                        if ends_with_ext s then Some s
                        else if is_download_link s then Some s
                        else None
                    | _ => None
                    end) with
             | Some r => Some r
             | None =>
                 match find_url v with
                 | Some res => if nonempty res then Some res else items_loop l'
                 | None => items_loop l'
                 end
             end
         end) items
  | JList items =>
      (fix list_loop (l : list json) : option string :=
         match l with
         | [] => None
         | it :: l' =>
             match find_url it with
             | Some res => if nonempty res then Some res else list_loop l'
             | None => list_loop l'
             end
         end) items
  | _ => None
  end.

(** [key in j]: membership in the keys of a [dict], in the items of a
    [list], as a substring of a [str]; a [TypeError] otherwise (its text
    is never read by the code). *)
Definition py_in (key : string) (j : json) : Res bool :=
  match j with
  | JDict items => Ok (existsb (fun kv => String.eqb kv.1 key) items)
  | JList items =>
      Ok (existsb (fun it => match it with
                             | JStr s => String.eqb s key
                             | _ => false
                             end) items)
  | JStr s => Ok (contains key s)
  | _ => Raise (Exn TypeError "argument is not iterable")
  end.

(** The value of [key] in the items of a [dict]. *)
Fixpoint dict_lookup (key : string) (items : list (string * json))
  : option json :=
  match items with
  | [] => None
  | (k, v) :: items' => if String.eqb k key then Some v else dict_lookup key items'
  end.

(** [j.get(key)]: [None] for a missing key; an [AttributeError] when [j]
    is not a [dict]. *)
Definition py_get (j : json) (key : string) : Res (option json) :=
  match j with
  | JDict items => Ok (dict_lookup key items)
  | _ => Raise (Exn OtherException "object has no attribute 'get'")
  end.

(** The field names tried before the deep search. *)
Definition URL_FIELDS : list string :=
  ["urlhref"; "fileUrl"; "downloadUrl"; "url"].

(** [for fk in (...): if fk in j: v = j.get(fk); if isinstance(v, str)
    and v.startswith('http'): found = v; break] *)
Fixpoint known_field_url (fields : list string) (j : json)
  : Res (option string) :=
  match fields with
  | [] => Ok None
  | fk :: rest =>
      match py_in fk j with
      | Raise e => Raise e
      | Ok false => known_field_url rest j
      | Ok true =>
          match py_get j fk with
          | Raise e => Raise e
          | Ok (Some (JStr v)) =>
              if startswith v "http" then Ok (Some v)
              else known_field_url rest j
          | Ok _ => known_field_url rest j
          end
      end
  end.

(** What [extract_urls_from_perf_logs] takes from a response body once
    it is parsed: a well-known field, else the deep search.  An exception
    sends the caller to its search of the raw text. *)
Definition url_in_json (j : json) : Res (option string) :=
  match known_field_url URL_FIELDS j with
  | Raise e => Raise e
  | Ok (Some found) =>
      if nonempty found then Ok (Some found) else Ok (find_url j)
  | Ok None => Ok (find_url j)
  end.

(** The strings that are values of a key, at any depth, in the order of
    the document. *)
Fixpoint dict_strings (obj : json) : list string :=
  match obj with
  | JDict items =>
      (fix items_loop (l : list (string * json)) : list string :=
         match l with
         | [] => []
         | (_, v) :: l' =>
             (match v with JStr s => [s] | _ => dict_strings v end
              ++ items_loop l')%list
         end) items
  | JList items =>
      (fix list_loop (l : list json) : list string :=
         match l with
         | [] => []
         | it :: l' => (dict_strings it ++ list_loop l')%list
         end) items
  | _ => []
  end.

(** A string passes one of the two tests of [find_url]. *)
Definition is_url_value (s : string) : bool :=
  ends_with_ext s || is_download_link s.

(** A field of the object holds a string that starts with [http]. *)
Definition is_http_field (items : list (string * json)) (fk : string) : bool :=
  match dict_lookup fk items with
  | Some (JStr v) => startswith v "http"
  | _ => false
  end.

(** A response body with a file link under a field name of its own. *)
Definition sample_body : json :=
  JDict [("code", JNum "0");
         ("result", JDict [("name", JStr "notice");
                           ("files", JList [JDict [("href", JStr "http://down.bidcenter.com.cn/f/17");
                                                   ("size", JNum "1024")]])])].

(** Induction on a document, with the property at hand for every item of
    a list and every value of an object. *)
Section JsonInduction.

Variable P : json -> Prop.

Hypothesis HNull : P JNull.
Hypothesis HBool : forall b, P (JBool b).
Hypothesis HNum : forall text, P (JNum text).
Hypothesis HStr : forall s, P (JStr s).
Hypothesis HList : forall items, Forall P items -> P (JList items).
Hypothesis HDict :
  forall items, Forall (fun kv : string * json => P kv.2) items ->
                P (JDict items).

Fixpoint json_induction (j : json) : P j :=
  match j with
  | JNull => HNull
  | JBool b => HBool b
  | JNum text => HNum text
  | JStr s => HStr s
  | JList items =>
      HList items
        ((fix all (l : list json) : Forall P l :=
            match l with
            | [] => @List.Forall_nil json P
            | it :: l' =>
                @List.Forall_cons json P it l' (json_induction it) (all l')
            end) items)
  | JDict items =>
      HDict items
        ((fix all (l : list (string * json))
            : Forall (fun kv : string * json => P kv.2) l :=
            match l with
            | [] => @List.Forall_nil (string * json) _
            | kv :: l' =>
                @List.Forall_cons (string * json) _ kv l'
                  (match kv return P kv.2 with (_, v) => json_induction v end)
                  (all l')
            end) items)
  end.

End JsonInduction.

(** ** The route [/upload_to_bisheng], once the tasks are read *)

(** [str(t.get(key))] for a task [t] read from the request: [repr] gives
    the text of a value that is a list or a dict. *)
Definition py_str (repr : json -> string) (v : option json) : string :=
  match v with
  | None | Some JNull => "None"
  | Some (JBool b) => py_bool b
  | Some (JNum text) => text
  | Some (JStr s) => s
  | Some j => repr j
  end.

(** [res.get('messages', [])] *)
Definition res_messages (res : gmap string pyval) : list string :=
  match res !! "messages" with
  | Some (VList l) => l
  | _ => []
  end.

(** The line feed. *)
Definition LF : string := String (ascii_of_nat 10) "".

(** [sep.join(l)] *)
Fixpoint join_with (sep : string) (l : list string) : string :=
  match l with
  | [] => ""
  | [x] => x
  | x :: l' => x ++ sep ++ join_with sep l'
  end.

(** What the route answers: the JSON body and the status code. *)
Inductive response :=
| Answer (code : Z) (status report : string)
    (details : list (gmap string pyval))
| Refusal (code : Z) (status message : string).

Section Route.

Context (w : World) (repr : json -> string).

(** The body of [for t in tasks]: the report line and the detail of one
    task. *)
Definition run_task (t : json) : M (string * gmap string pyval) :=
  id_v ← lift_res (py_get t "ID") ;
  let tid := py_str repr id_v in
  url_v ← lift_res (py_get t "url") ;
  let url := py_str repr url_v in
  log INFO ("--- [附件攻坚任务] ID " ++ tid ++ " 已接收 ---") ;;
  res ← handle_single_task w tid url ;
  for_each (res_messages res) (log INFO) ;;
  mret (task_report tid res,
        res ∪ (<[ "ID" := VStr tid ]> (<[ "url" := VStr url ]> ∅))).

(** [for t in tasks: ...], with the lists [reports] and [results] it
    fills. *)
Fixpoint run_tasks (tasks : list json)
  : M (list string * list (gmap string pyval)) :=
  match tasks with
  | [] => mret ([], [])
  | t :: rest =>
      r ← run_task t ;
      rs ← run_tasks rest ;
      mret (r.1 :: rs.1, r.2 :: rs.2)
  end.

(** [upload_to_bisheng()] from [if not tasks:] on. *)
Definition answer_tasks (tasks : list json) : M response :=
  if is_nil tasks then
    mret (Refusal 400 "error" "缺少任务: 需要 {ID,url} 或 {arg1} 多行JSON")
  else
    rr ← run_tasks tasks ;
    mret (Answer 200 "ok" (join_with LF rr.1) rr.2).

End Route.

(** The identifier and the URL of a task that is an object. *)
Definition task_id_of (repr : json -> string) (t : json) : string :=
  match t with
  | JDict items => py_str repr (dict_lookup "ID" items)
  | _ => ""
  end.

Definition task_url_of (repr : json -> string) (t : json) : string :=
  match t with
  | JDict items => py_str repr (dict_lookup "url" items)
  | _ => ""
  end.

Definition is_dict (j : json) : bool :=
  match j with JDict _ => true | _ => false end.

(** The browser cannot be started. *)
Definition no_browser_world : World := {|
  w_latency := w_latency quiet_world;
  w_cmd := w_cmd quiet_world;
  w_query := w_query quiet_world;
  w_get_attribute := w_get_attribute quiet_world;
  w_find_elements := w_find_elements quiet_world;
  w_find_element_by_id := w_find_element_by_id quiet_world;
  w_window_handles := w_window_handles quiet_world;
  w_get_cookies := w_get_cookies quiet_world;
  w_perf_urls := w_perf_urls quiet_world;
  w_chrome := fun _ _ => Raise (Exn OtherException "chrome failed to start");
  w_mkdtemp := w_mkdtemp quiet_world;
  w_mkdir := w_mkdir quiet_world;
  w_rmtree_left := w_rmtree_left quiet_world;
  w_session_get := w_session_get quiet_world;
  w_open_write := w_open_write quiet_world;
  w_write_body := w_write_body quiet_world;
  w_extract := w_extract quiet_world;
  w_walk := w_walk quiet_world;
  w_copy2 := w_copy2 quiet_world;
  w_open_read := w_open_read quiet_world;
  w_post := w_post quiet_world;
  w_patoolib := w_patoolib quiet_world;
  w_urljoin := w_urljoin quiet_world;
  w_url_basename := w_url_basename quiet_world;
|}.

(** Two tasks, the first with a number for identifier. *)
Definition two_tasks : list json :=
  [JDict [("ID", JNum "7"); ("url", JStr "http://site/detail/7")];
   JDict [("ID", JStr "8"); ("url", JStr "http://site/detail/8")]].

(** ** The route [/upload_to_bisheng]: reading the tasks *)

(** The number of bytes of the line boundary at the start of [s], 0 when
    there is none: the boundaries of [str.splitlines] are LF, CR, CR LF,
    VT, FF, FS, GS, RS, NEL (U+0085) and the line and paragraph
    separators (U+2028, U+2029). *)
Definition line_break_len (s : string) : nat :=
  match s with
  | String a r =>
      let x := nat_of_ascii a in
      if (x =? 13)%nat then
        match r with
        | String b _ => if (nat_of_ascii b =? 10)%nat then 2 else 1
        | EmptyString => 1
        end
      else if (x =? 10)%nat || (x =? 11)%nat || (x =? 12)%nat
              || (x =? 28)%nat || (x =? 29)%nat || (x =? 30)%nat then 1
      else if (x =? 194)%nat then
        match r with
        | String b _ => if (nat_of_ascii b =? 133)%nat then 2 else 0
        | EmptyString => 0
        end
      else if (x =? 226)%nat then
        match r with
        | String b (String c _) =>
            if (nat_of_ascii b =? 128)%nat
               && ((nat_of_ascii c =? 168)%nat || (nat_of_ascii c =? 169)%nat)
            then 3 else 0
        | _ => 0
        end
      else 0
  | EmptyString => 0
  end.

(** [s.splitlines()]: [cur] is the line read so far, [skip] counts the
    bytes of a boundary still to pass.  A text that ends with a boundary
    has no empty last line. *)
Fixpoint splitlines_go (skip : nat) (cur s : string) : list string :=
  match s with
  | EmptyString => if nonempty cur then [cur] else []
  | String c s' =>
      match skip with
      | S k => splitlines_go k cur s'
      | O =>
          match line_break_len s with
          | O => splitlines_go 0 (cur ++ String c "")%string s'
          | S k => cur :: splitlines_go k "" s'
          end
      end
  end.

Definition py_splitlines (s : string) : list string := splitlines_go 0 "" s.

(** The number of bytes of the white-space character at the start of
    [s], 0 when there is none. *)
Definition space_len (s : string) : nat :=
  match s with
  | String c _ =>
      if is_space c then 1
      else if wide_space_at s then
             (if (nat_of_ascii c =? 194)%nat then 2 else 3)
           else 0
  | EmptyString => 0
  end.

(** [s.lstrip()], white space of Unicode included. *)
Fixpoint lstrip_go (skip : nat) (s : string) : string :=
  match s with
  | EmptyString => EmptyString
  | String _ s' =>
      match skip with
      | S k => lstrip_go k s'
      | O =>
          match space_len s with
          | O => s
          | S k => lstrip_go k s'
          end
      end
  end.

Definition py_lstrip (s : string) : string := lstrip_go 0 s.

(** [s.rstrip()]: the text is cut where only white space follows. *)
Fixpoint py_rstrip (s : string) : string :=
  match s with
  | EmptyString => EmptyString
  | String c s' =>
      if nonempty (py_lstrip s) then String c (py_rstrip s') else EmptyString
  end.

(** [s.strip()] *)
Definition py_strip (s : string) : string := py_rstrip (py_lstrip s).

(** Truthiness of a value: [None], [False], zero and the empty string,
    list and dict are false. *)
Definition py_truthy (j : json) : bool :=
  match j with
  | JNull => false
  | JBool b => b
  | JNum text =>
      negb (String.eqb text "0" || String.eqb text "0.0"
            || String.eqb text "-0.0")
  | JStr s => nonempty s
  | JList items => negb (is_nil items)
  | JDict items => negb (is_nil items)
  end.

(** ['ID' in j and 'url' in j] *)
Definition has_id_and_url (j : json) : Res bool :=
  match py_in "ID" j with
  | Raise e => Raise e
  | Ok false => Ok false
  | Ok true => py_in "url" j
  end.

(** [j[key]] for a string [key] that is in [j]: a [TypeError] when [j]
    is a list or a string (its text is never read by the code). *)
Definition py_getitem (j : json) (key : string) : Res (option json) :=
  match j with
  | JDict items => Ok (dict_lookup key items)
  | _ => Raise (Exn TypeError "indices must be integers")
  end.

(** What the route reads of the request: [request.get_json(force=True,
    silent=True)], which is [None] for a body that is not JSON, and
    [request.data.decode('utf-8')]. *)
Record Request := {
  req_json : Res json;
  req_text : Res string;
}.

Section ReadingTasks.

(** [json.loads] *)
Context (loads : string -> Res json).

(** [obj = json.loads(ln)], then [if 'ID' in obj and 'url' in obj]: the
    task to append, if any. *)
Definition read_task_line (ln : string) : Res (option json) :=
  match loads ln with
  | Raise e => Raise e
  | Ok obj =>
      match has_id_and_url obj with
      | Raise e => Raise e
      | Ok true => Ok (Some obj)
      | Ok false => Ok None
      end
  end.

(** [for ln in text.splitlines(): ...]: the tasks appended.  A line that
    raises is reported where [warn] holds, passed over in silence where
    not. *)
Fixpoint read_task_lines (warn : bool) (lines : list string)
  : M (list json) :=
  match lines with
  | [] => mret []
  | ln0 :: rest =>
      let ln := py_strip ln0 in
      if negb (nonempty ln) then read_task_lines warn rest
      else
        match read_task_line ln with
        | Ok (Some obj) =>
            tasks ← read_task_lines warn rest ;
            mret (obj :: tasks)
        | Ok None => read_task_lines warn rest
        | Raise _ =>
            (if warn then log WARNING ("未能解析行: " ++ take_chars 120 ln)%string
             else mret tt) ;;
            read_task_lines warn rest
        end
  end.

(** The last resort: the raw body, parsed again. *)
Definition read_raw_body (req : Request) : M (list json) :=
  match req_text req with
  | Raise _ => mret []
  | Ok raw =>
      if negb (nonempty raw) then mret []
      else
        match loads raw with
        | Raise _ => mret []
        | Ok dd =>
            match py_in "arg1" dd with
            | Ok true =>
                match py_getitem dd "arg1" with
                | Ok (Some (JStr text)) =>
                    read_task_lines false (py_splitlines text)
                | _ => mret []
                end
            | _ => mret []
            end
        end
  end.

(** [upload_to_bisheng()] down to [if not tasks:]: the list [tasks]. *)
Definition select_tasks (req : Request) : M (list json) :=
  let data :=
    match req_json req with
    | Ok j => if py_truthy j then j else JDict []
    | Raise _ => JDict []
    end in
  both ← lift_res (has_id_and_url data) ;
  if (both : bool) then mret [data]
  else
    has_arg1 ← lift_res (py_in "arg1" data) ;
    arg1 ← (if (has_arg1 : bool) then lift_res (py_getitem data "arg1")
            else mret None) ;
    match arg1 with
    | Some (JStr text) => read_task_lines true (py_splitlines text)
    | _ => read_raw_body req
    end.

End ReadingTasks.

(** [upload_to_bisheng()] *)
Definition upload_to_bisheng (w : World) (repr : json -> string)
    (loads : string -> Res json) (req : Request) : M response :=
  tasks ← select_tasks loads req ;
  answer_tasks w repr tasks.

(** The task a line gives, if it gives one: the line is not blank, it
    parses, and what it holds has the two keys. *)
Definition task_of_line (loads : string -> Res json) (ln : string)
  : option json :=
  if nonempty (py_strip ln) then
    match read_task_line loads (py_strip ln) with
    | Ok (Some obj) => Some obj
    | _ => None
    end
  else None.

(** The line is reported: it is not blank and reading it raises. *)
Definition is_bad_line (loads : string -> Res json) (ln : string) : bool :=
  nonempty (py_strip ln)
  && negb (is_ok (read_task_line loads (py_strip ln))).

(** The warning for a line. *)
Definition line_warning (ln : string) : log_level * string :=
  (WARNING, ("未能解析行: " ++ take_chars 120 (py_strip ln))%string).

(** The double quote. *)
Definition DQ : string := String (ascii_of_nat 34) "".

(** A line for task 7, a line without URL, and a line that is a JSON
    string. *)
Definition task_line : string :=
  ("{" ++ DQ ++ "ID" ++ DQ ++ ": 7, " ++ DQ ++ "url" ++ DQ ++ ": "
   ++ DQ ++ "http://site/detail/7" ++ DQ ++ "}")%string.

Definition id_only_line : string :=
  ("{" ++ DQ ++ "ID" ++ DQ ++ ": 8}")%string.

Definition string_line : string := (DQ ++ "see ID and url" ++ DQ)%string.

(** What [json.loads] gives on the lines of the samples. *)
Definition sample_loads (s : string) : Res json :=
  if String.eqb s task_line
  then Ok (JDict [("ID", JNum "7"); ("url", JStr "http://site/detail/7")])
  else if String.eqb s id_only_line then Ok (JDict [("ID", JNum "8")])
  else if String.eqb s string_line then Ok (JStr "see ID and url")
  else Raise (Exn OtherException "Expecting value").

(** A request whose [arg1] holds a task between spaces, a blank line, a
    line without URL, and a line that is not JSON. *)
Definition sample_request : Request := {|
  req_json :=
    Ok (JDict [("arg1",
                JStr ("  " ++ task_line ++ " " ++ LF ++ "   " ++ LF
                      ++ id_only_line ++ LF ++ "oops")%string)]);
  req_text := Ok "";
|}.

(** A request whose [arg1] holds a task and then a line that is a JSON
    string. *)
Definition string_task_request : Request := {|
  req_json := Ok (JDict [("arg1", JStr (task_line ++ LF ++ string_line)%string)]);
  req_text := Ok "";
|}.

(** A request whose body is the task itself, with an [arg1] beside. *)
Definition single_task_request : Request := {|
  req_json :=
    Ok (JDict [("ID", JNum "7"); ("url", JStr "http://site/detail/7");
               ("arg1", JStr task_line)]);
  req_text := Ok "";
|}.

(** ** The candidate list of the direct-link scan *)






(** * Properties *)

(** ** Strings and the attachment predicate *)

Section StringFacts.

Lemma endswith_unfold (s suf : string) :
  endswith s suf =
  if String.eqb s suf then true
  else match s with
       | EmptyString => false
       | String _ s' => endswith s' suf
       end.
Proof. destruct s; reflexivity. Qed.

Lemma endswith_app (pre suf : string) : endswith (pre ++ suf) suf = true.
Proof.
  induction pre as [|c pre IH].
  - rewrite endswith_unfold. change ("" ++ suf) with suf.
    rewrite String.eqb_refl. reflexivity.
  - rewrite endswith_unfold. change (String c pre ++ suf) with (String c (pre ++ suf)).
    destruct (String.eqb (String c (pre ++ suf)) suf); [reflexivity|exact IH].
Qed.

Lemma endswith_inv (s suf : string) :
  endswith s suf = true -> exists pre, s = pre ++ suf.
Proof.
  induction s as [|c s IH]; rewrite endswith_unfold.
  - destruct (String.eqb "" suf) eqn:E; [|discriminate].
    apply String.eqb_eq in E. exists "". exact E.
  - destruct (String.eqb (String c s) suf) eqn:E.
    + apply String.eqb_eq in E. exists "". exact E.
    + intros H. destruct (IH H) as [pre ->]. exists (String c pre). reflexivity.
Qed.

Lemma endswith_spec (s suf : string) :
  endswith s suf = true <-> exists pre, s = pre ++ suf.
Proof.
  split; [apply endswith_inv|]. intros [pre ->]. apply endswith_app.
Qed.

Lemma existsb_endswith_spec (s : string) (exts : list string) :
  existsb (endswith s) exts = true <->
  exists pre ext, In ext exts /\ s = pre ++ ext.
Proof.
  rewrite existsb_exists. split.
  - intros [ext [Hin H]]. apply endswith_inv in H as [pre ->]. eauto.
  - intros (pre & ext & Hin & ->). exists ext. split; [exact Hin|].
    apply endswith_app.
Qed.

(** The second disjunct of the test in [looks_like_attachment] adds
    nothing to the first. *)
Lemma attach_test_simpl (s : string) :
  existsb (fun ext =>
             endswith s ext
             || (contains ext s && existsb (endswith s) ATTACH_EXTS))
          ATTACH_EXTS
  = existsb (endswith s) ATTACH_EXTS.
Proof.
  destruct (existsb (endswith s) ATTACH_EXTS) eqn:E.
  - apply existsb_exists in E as [ext [Hin H]].
    apply existsb_exists. exists ext. rewrite H. auto.
  - apply not_true_is_false. intros H.
    apply existsb_exists in H as [ext [Hin H]].
    rewrite andb_false_r, orb_false_r in H.
    assert (existsb (endswith s) ATTACH_EXTS = true) as E'
      by (apply existsb_exists; eauto).
    congruence.
Qed.

Lemma nonempty_lower (s : string) : nonempty (lower s) = nonempty s.
Proof. destruct s; reflexivity. Qed.

Lemma app_nonempty_r (a b : string) : nonempty b = true -> nonempty (a ++ b) = true.
Proof. destruct a; simpl; auto. Qed.

End StringFacts.

(** C8, as amended: [looks_like_attachment] holds of an optional string
    exactly when the string is present and, lower-cased as a whole (query
    and fragment included, not only its path component), ends in one of the
    recognised extensions. *)
Theorem looks_like_attachment_whole_string (s : option string) :
  looks_like_attachment s = true <->
  exists u pre ext, s = Some u /\ In ext ATTACH_EXTS /\ lower u = pre ++ ext.
Proof.
  destruct s as [u|]; unfold looks_like_attachment.
  - destruct (nonempty u) eqn:Hne; cbn [negb].
    + rewrite attach_test_simpl, existsb_endswith_spec. split.
      * intros (pre & ext & Hin & E). eauto 6.
      * intros (u' & pre & ext & [= <-] & Hin & E). eauto.
    + split; [discriminate|].
      intros (u' & pre & ext & [= <-] & Hin & E).
      assert (nonempty (lower u) = true) as H.
      { rewrite E. apply app_nonempty_r.
        simpl in Hin.
        repeat (destruct Hin as [<-|Hin]; [reflexivity|]). destruct Hin. }
      rewrite nonempty_lower in H. congruence.
  - split; [discriminate|]. intros (u & ? & ? & [=] & _).
Qed.

(** C8, counterexample: a URL whose path ends in [.pdf] but which carries a
    query is not recognised, and a URL whose path has no extension but
    whose query ends in [.pdf] is. *)
Lemma looks_like_attachment_not_path_based :
  attachment_shaped "http://site/a.pdf?x=1" = true
  /\ looks_like_attachment (Some "http://site/a.pdf?x=1") = false
  /\ attachment_shaped "http://site/get?f=a.pdf" = false
  /\ looks_like_attachment (Some "http://site/get?f=a.pdf") = true.
Proof. repeat split; vm_compute; reflexivity. Qed.

(** ** Paths *)

Section PathFacts.

Lemma path_app_cons (c : ascii) (a b : string) :
  (String c a ++ b)%string = String c (a ++ b)%string.
Proof. reflexivity. Qed.

Lemma path_app_nil_r (a : string) : (a ++ "")%string = a.
Proof.
  induction a as [|c a IH]; [reflexivity|].
  rewrite path_app_cons, IH. reflexivity.
Qed.

Lemma path_app_assoc (a b c : string) :
  ((a ++ b) ++ c)%string = (a ++ b ++ c)%string.
Proof.
  induction a as [|x a IH]; [reflexivity|].
  rewrite !path_app_cons, IH. reflexivity.
Qed.

Lemma prefix_split (a p : string) :
  String.prefix a p = true -> exists r, p = (a ++ r)%string.
Proof.
  revert p. induction a as [|c a IH]; intros p; [exists p; reflexivity|].
  destruct p as [|d p]; cbn [String.prefix]; [discriminate|].
  destruct (ascii_dec c d) as [->|]; [|discriminate].
  intros H. destruct (IH p H) as [r ->]. exists r. reflexivity.
Qed.

(** A path under a directory is the directory followed by nothing or by
    a slash and more. *)
Lemma under_split (dir p : string) :
  under dir p = true ->
  exists x, p = (dir ++ x)%string
            /\ forall c r, x = String c r -> c = "/"%char.
Proof.
  unfold under. intros H. apply orb_true_iff in H as [H|H].
  - apply String.eqb_eq in H as ->. exists "".
    rewrite path_app_nil_r. split; [reflexivity | discriminate].
  - apply prefix_split in H as [r ->]. exists ("/" ++ r)%string.
    rewrite path_app_assoc. split; [reflexivity|].
    intros c r' [= <- _]. reflexivity.
Qed.

(** Two names without slash that are followed by nothing or by a slash
    in the same text are the same name. *)
Lemma component_unique (t t' x x' : string) :
  no_slash t = true -> no_slash t' = true ->
  (forall c r, x = String c r -> c = "/"%char) ->
  (forall c r, x' = String c r -> c = "/"%char) ->
  (t ++ x)%string = (t' ++ x')%string -> t = t'.
Proof.
  unfold no_slash. revert t'.
  induction t as [|c t IH]; intros [|c' t'] Ht Ht' Hx Hx'.
  - reflexivity.
  - rewrite path_app_cons. intros H. cbn [String.append] in H.
    cbn [all_chars] in Ht'. apply andb_true_iff in Ht' as [Hc _].
    rewrite (Hx _ _ H) in Hc. discriminate Hc.
  - rewrite path_app_cons. intros H. symmetry in H. cbn [String.append] in H.
    cbn [all_chars] in Ht. apply andb_true_iff in Ht as [Hc _].
    rewrite (Hx' _ _ H) in Hc. discriminate Hc.
  - rewrite !path_app_cons. intros [= -> H].
    cbn [all_chars] in Ht, Ht'.
    apply andb_true_iff in Ht as [_ Ht]. apply andb_true_iff in Ht' as [_ Ht'].
    rewrite (IH t' Ht Ht' Hx Hx' H). reflexivity.
Qed.

(** Sibling directories hold nothing of each other. *)
Lemma under_sibling (base t t' p : string) :
  no_slash t = true -> no_slash t' = true -> t <> t' ->
  under (base ++ "/" ++ t') p = true -> under (base ++ "/" ++ t) p = false.
Proof.
  intros Ht Ht' Hne H'. destruct (under (base ++ "/" ++ t) p) eqn:H;
    [|reflexivity].
  exfalso. apply Hne.
  apply under_split in H as (x & -> & Hx).
  apply under_split in H' as (x' & Heq & Hx').
  rewrite !path_app_assoc in Heq.
  apply (inj (String.append base)) in Heq.
  apply (inj (String.append "/")) in Heq.
  exact (component_unique t t' x x' Ht Ht' Hx Hx' Heq).
Qed.

Lemma split_slash_plain (cur s : string) :
  no_slash s = true -> split_slash cur s = [(cur ++ s)%string].
Proof.
  unfold no_slash. revert cur. induction s as [|c s IH]; intros cur H.
  - rewrite path_app_nil_r. reflexivity.
  - cbn [all_chars] in H. apply andb_true_iff in H as [Hc Hs].
    apply negb_true_iff in Hc. cbn [split_slash]. rewrite Hc.
    rewrite (IH _ Hs), path_app_assoc. reflexivity.
Qed.

(** Joining one component appends it. *)
Lemma py_join_component (p : Path) (c : string) :
  is_component c = true -> py_join p c = {| parent := path_str p; name := c |}.
Proof.
  unfold is_component. intros H.
  apply andb_true_iff in H as [H _]. apply andb_true_iff in H as [H Hdot].
  apply andb_true_iff in H as [Hne Hs].
  assert (startswith c "/" = false) as Hrel.
  { destruct c as [|a c]; [discriminate Hne|].
    unfold no_slash in Hs. cbn [all_chars] in Hs.
    apply andb_true_iff in Hs as [Ha _]. apply negb_true_iff in Ha.
    unfold startswith. cbn [String.prefix].
    destruct (ascii_dec "/" a) as [<-|]; [discriminate Ha | reflexivity]. }
  unfold py_join, path_components. rewrite Hrel, (split_slash_plain "" c Hs).
  change ("" ++ c)%string with c.
  cbn [List.filter]. rewrite Hne, Hdot. reflexivity.
Qed.

(** The working directory of a task whose identifier is one component. *)
Lemma task_work_dir_component (task_id : string) :
  is_component task_id = true ->
  path_str (task_work_dir task_id)
  = (DOWNLOAD_WORK_DIR ++ "/" ++ task_id)%string.
Proof.
  intros H. unfold task_work_dir. rewrite (py_join_component _ _ H).
  reflexivity.
Qed.

Lemma component_no_slash (c : string) :
  is_component c = true -> no_slash c = true.
Proof.
  unfold is_component. intros H.
  apply andb_true_iff in H as [H _]. apply andb_true_iff in H as [H _].
  apply andb_true_iff in H as [_ H]. exact H.
Qed.





End PathFacts.

(** ** Reasoning about computations *)

Open Scope list_scope.

Section MonadFacts.

Context {A B : Type}.

Lemma run_bind (m : M A) (f : A -> M B) (s : State) :
  (m ≫= f) s =
  match m s with
  | (Ok a, s') => f a s'
  | (Raise e, s') => (Raise e, s')
  end.
Proof. reflexivity. Qed.

Lemma run_bind_ok (m : M A) (f : A -> M B) (s s' : State) (a : A) :
  m s = (Ok a, s') -> (m ≫= f) s = f a s'.
Proof. intros H. rewrite run_bind, H. reflexivity. Qed.

Lemma run_bind_raise (m : M A) (f : A -> M B) (s s' : State) (e : exn) :
  m s = (Raise e, s') -> (m ≫= f) s = (Raise e, s').
Proof. intros H. rewrite run_bind, H. reflexivity. Qed.

Lemma run_try_except (m : M A) (h : exn -> M A) (s : State) :
  try_except m h s =
  match m s with
  | (Ok a, s') => (Ok a, s')
  | (Raise e, s') => h e s'
  end.
Proof. reflexivity. Qed.

End MonadFacts.

(** *** [never_raises] *)

Section NeverRaises.

Context {A B : Type}.

Lemma nr_ret (a : A) : never_raises (mret a : M A).
Proof. intros s. exists a. reflexivity. Qed.

Lemma nr_bind (m : M A) (f : A -> M B) :
  never_raises m -> (forall a, never_raises (f a)) -> never_raises (m ≫= f).
Proof.
  intros Hm Hf s. rewrite run_bind.
  destruct (Hm s) as [a Ha]. destruct (m s) as [r s']. simpl in Ha. subst r.
  apply Hf.
Qed.

Lemma nr_try_except (m : M A) (h : exn -> M A) :
  (forall e, never_raises (h e)) -> never_raises (try_except m h).
Proof.
  intros Hh s. rewrite run_try_except.
  destruct (m s) as [[a|e] s']; [exists a; reflexivity | apply Hh].
Qed.

Lemma nr_try_finally (m : M A) (fin : M unit) :
  never_raises m -> never_raises fin -> never_raises (try_finally m fin).
Proof.
  intros Hm Hf s. unfold try_finally.
  destruct (Hm s) as [a Ha]. destruct (m s) as [r s']. simpl in Ha. subst r.
  destruct (Hf s') as [u Hu]. destruct (fin s') as [r' s'']. simpl in Hu.
  subst r'. exists a. reflexivity.
Qed.

Lemma nr_gets (f : State -> A) : never_raises (gets f).
Proof. intros s. exists (f s). reflexivity. Qed.

Lemma nr_observe (w : World) (oracle : nat -> A) (ev : A -> event) :
  never_raises (observe w oracle ev).
Proof. intros s. eexists. reflexivity. Qed.

End NeverRaises.

Lemma nr_try_pass (m : M unit) : never_raises (try_pass m).
Proof. apply nr_try_except. intros _. apply nr_ret. Qed.

Lemma nr_modify (f : State -> State) : never_raises (modify f).
Proof. intros s. exists tt. reflexivity. Qed.

Lemma nr_say (msg : string) : never_raises (say msg).
Proof. apply nr_modify. Qed.

Lemma nr_log (lvl : log_level) (msg : string) : never_raises (log lvl msg).
Proof. apply nr_modify. Qed.

Lemma nr_sleep (w : World) (ms : Z) : never_raises (sleep w ms).
Proof. intros s. exists tt. reflexivity. Qed.

Lemma nr_rmtree (w : World) (p : Path) : never_raises (rmtree w p).
Proof. intros s. exists tt. reflexivity. Qed.

Lemma nr_for_each {A} (l : list A) (body : A -> M unit) :
  (forall x, never_raises (body x)) -> never_raises (for_each l body).
Proof.
  intros Hb. induction l as [|x l IH]; simpl.
  - apply nr_ret.
  - apply nr_bind; [apply Hb | intros; exact IH].
Qed.

Lemma nr_for_each_from {A} (i : nat) (l : list A) (body : nat -> A -> M unit) :
  (forall i x, never_raises (body i x)) -> never_raises (for_each_from i l body).
Proof.
  intros Hb. revert i. induction l as [|x l IH]; intros i; simpl.
  - apply nr_ret.
  - apply nr_bind; [apply Hb | intros; apply IH].
Qed.

(** *** [grows] and [keeps] *)

Lemma grows_refl (P : event -> bool) (s : State) : grows P s s.
Proof.
  split; [reflexivity|]. exists []. rewrite app_nil_r.
  repeat split; [constructor | intros p []].
Qed.

Lemma grows_trans (P : event -> bool) (s1 s2 s3 : State) :
  grows P s1 s2 -> grows P s2 s3 -> grows P s1 s3.
Proof.
  intros (Hfs1 & evs1 & Ht1 & HP1 & Hw1) (Hfs2 & evs2 & Ht2 & HP2 & Hw2).
  split; [etrans; eassumption|].
  exists (evs1 ++ evs2). rewrite Ht2, Ht1, app_assoc.
  repeat split.
  - apply Forall_app; auto.
  - intros p Hin. apply in_app_or in Hin as [Hin|Hin]; auto.
Qed.

Lemma grows_weaken (P Q : event -> bool) (s s' : State) :
  (forall ev, P ev = true -> Q ev = true) -> grows P s s' -> grows Q s s'.
Proof.
  intros HPQ (Hfs & evs & Ht & HP & Hw). split; [exact Hfs|].
  exists evs. repeat split; auto.
  eapply Forall_impl; [exact HP|]. exact HPQ.
Qed.

(** A step that leaves the record of calls alone and loses no file. *)
Lemma grows_local (P : event -> bool) (s s' : State) :
  st_trace s' = st_trace s -> st_fs s ⊆ st_fs s' -> grows P s s'.
Proof.
  intros Ht Hfs. split; [exact Hfs|]. exists []. rewrite app_nil_r.
  repeat split; [exact Ht | constructor | intros p []].
Qed.

(** *** Computations that respect a preorder on states *)

Section Respects.

Context (R : State -> State -> Prop) `{!PreOrder R} {A B : Type}.

Lemma respects_ret (a : A) : respects R (mret a : M A).
Proof. intros s. reflexivity. Qed.

Lemma respects_raise (e : exn) : respects R (raise e : M A).
Proof. intros s. reflexivity. Qed.

Lemma respects_lift_res (r : Res A) : respects R (lift_res r).
Proof. intros s. reflexivity. Qed.

Lemma respects_gets (f : State -> A) : respects R (gets f).
Proof. intros s. reflexivity. Qed.

Lemma respects_bind (m : M A) (f : A -> M B) :
  respects R m -> (forall a, respects R (f a)) -> respects R (m ≫= f).
Proof.
  intros Hm Hf s. rewrite run_bind. specialize (Hm s).
  destruct (m s) as [[a|e] s']; simpl in *; [|exact Hm].
  etrans; [exact Hm | apply Hf].
Qed.

Lemma respects_try_except (m : M A) (h : exn -> M A) :
  respects R m -> (forall e, respects R (h e)) -> respects R (try_except m h).
Proof.
  intros Hm Hh s. rewrite run_try_except. specialize (Hm s).
  destruct (m s) as [[a|e] s']; simpl in *; [exact Hm|].
  etrans; [exact Hm | apply Hh].
Qed.

Lemma respects_try_finally (m : M A) (fin : M unit) :
  respects R m -> respects R fin -> respects R (try_finally m fin).
Proof.
  intros Hm Hf s. unfold try_finally. specialize (Hm s).
  destruct (m s) as [r s']. specialize (Hf s').
  destruct (fin s') as [[u|e] s'']; simpl in *; etrans; eassumption.
Qed.

Lemma respects_modify (f : State -> State) :
  (forall s, R s (f s)) -> respects R (modify f).
Proof. intros H s. apply H. Qed.

End Respects.

Section RespectsLoops.

Context (R : State -> State -> Prop) `{!PreOrder R}.

Lemma respects_try_pass (m : M unit) : respects R m -> respects R (try_pass m).
Proof.
  intros Hm. apply respects_try_except; [exact _ | exact Hm |].
  intros _. apply respects_ret. exact _.
Qed.

Lemma respects_for_each {A} (l : list A) (body : A -> M unit) :
  (forall x, respects R (body x)) -> respects R (for_each l body).
Proof.
  intros Hb. induction l as [|x l IH]; simpl.
  - apply respects_ret. exact _.
  - apply respects_bind; [exact _ | apply Hb | intros; exact IH].
Qed.

Lemma respects_for_each_from {A} (i : nat) (l : list A)
    (body : nat -> A -> M unit) :
  (forall i x, respects R (body i x)) -> respects R (for_each_from i l body).
Proof.
  intros Hb. revert i. induction l as [|x l IH]; intros i; simpl.
  - apply respects_ret. exact _.
  - apply respects_bind; [exact _ | apply Hb | intros; apply IH].
Qed.

End RespectsLoops.

Global Instance grows_preorder (P : event -> bool) : PreOrder (grows P).
Proof.
  split; [intros s; apply grows_refl | intros s1 s2 s3; apply grows_trans].
Qed.

Section Keeps.

Context (P : event -> bool) {A : Type}.

Lemma keeps_call (w : World) (oracle : nat -> Res A) (ev : Res A -> event) :
  (forall r, P (ev r) = true) ->
  (forall r p, ev r <> EvOpenWrite p (Ok tt)) ->
  keeps P (call w oracle ev).
Proof.
  intros HP Hne s. split; [reflexivity|]. eexists. split; [reflexivity|].
  split; [repeat constructor; apply HP|].
  intros p [Hin|[]]. exfalso. eapply Hne. exact Hin.
Qed.

Lemma keeps_observe (w : World) (oracle : nat -> A) (ev : A -> event) :
  (forall r, P (ev r) = true) ->
  (forall r p, ev r <> EvOpenWrite p (Ok tt)) ->
  keeps P (observe w oracle ev).
Proof.
  intros HP Hne s. split; [reflexivity|]. eexists. split; [reflexivity|].
  split; [repeat constructor; apply HP|].
  intros p [Hin|[]]. exfalso. eapply Hne. exact Hin.
Qed.

End Keeps.

Lemma keeps_weaken (P Q : event -> bool) {A} (m : M A) :
  (forall ev, P ev = true -> Q ev = true) -> keeps P m -> keeps Q m.
Proof. intros HPQ Hm s. eapply grows_weaken; [exact HPQ | apply Hm]. Qed.

Lemma keeps_modify (P : event -> bool) (f : State -> State) :
  (forall s, st_trace (f s) = st_trace s) ->
  (forall s, st_fs s ⊆ st_fs (f s)) ->
  keeps P (modify f).
Proof. intros Ht Hfs s. apply grows_local; [apply Ht | apply Hfs]. Qed.

Lemma keeps_say (P : event -> bool) (msg : string) : keeps P (say msg).
Proof. apply keeps_modify; intros s; reflexivity. Qed.

Lemma keeps_log (P : event -> bool) (lvl : log_level) (msg : string) :
  keeps P (log lvl msg).
Proof. apply keeps_modify; intros s; reflexivity. Qed.

Lemma keeps_append_downloaded (P : event -> bool) (p : Path) :
  keeps P (append_downloaded p).
Proof. apply keeps_modify; intros s; reflexivity. Qed.

Lemma keeps_append_uploaded (P : event -> bool) (n : string) :
  keeps P (append_uploaded n).
Proof. apply keeps_modify; intros s; reflexivity. Qed.

Lemma keeps_append_cand (P : event -> bool) (u : string) :
  keeps P (append_cand u).
Proof. apply keeps_modify; intros s; reflexivity. Qed.

Lemma keeps_stuck (P : event -> bool) : keeps P stuck.
Proof. apply keeps_modify; intros s; reflexivity. Qed.

Lemma keeps_fs_add (P : event -> bool) (p : string) : keeps P (fs_add p).
Proof.
  apply keeps_modify; intros s; [reflexivity|]. simpl. set_solver.
Qed.

Lemma keeps_sleep (P : event -> bool) (w : World) (ms : Z) :
  (forall d, P (EvSleep d) = true) -> keeps P (sleep w ms).
Proof.
  intros HP s. split; [reflexivity|]. eexists. split; [reflexivity|].
  split; [repeat constructor; apply HP|].
  intros p [Hin|[]]. discriminate.
Qed.

(** Opening a file for writing records the call and, when it succeeds,
    the file. *)
Lemma keeps_open_write (P : event -> bool) (w : World) (p : Path) :
  (forall q r, P (EvOpenWrite q r) = true) -> keeps P (open_write w p).
Proof.
  intros HP s. unfold open_write. rewrite run_bind. unfold call at 1.
  destruct (w_open_write w (length (st_trace s)) (path_str p)) as [[]|e];
    simpl.
  - split; [set_solver|]. eexists. split; [reflexivity|].
    split; [repeat constructor; apply HP|].
    intros q [[= <-]|[]]. set_solver.
  - split; [reflexivity|]. eexists. split; [reflexivity|].
    split; [repeat constructor; apply HP|].
    intros q [[=]|[]].
Qed.

(** *** Automation *)

Ltac unfold_prims :=
  progress unfold cmd, query, get_attribute, find_elements,
    find_element_by_id, window_handles, ensure_dir, write_body, copy2,
    extract, walk, extract_urls_from_perf_logs, path_exists, time_time,
    raise_for_status, derive_filename_from_url, session_from_driver,
    quit_driver.

Create HintDb keeps_db.
Create HintDb nr_db.

Ltac respects_step :=
  lazymatch goal with
  | |- forall _, _ => intros
  | |- PreOrder _ => exact _
  | |- respects _ (mret _) => apply respects_ret
  | |- respects _ (mbind _ _) => apply respects_bind
  | |- respects _ (raise _) => apply respects_raise
  | |- respects _ (gets _) => apply respects_gets
  | |- respects _ (lift_res _) => apply respects_lift_res
  | |- respects _ (try_except _ _) => apply respects_try_except
  | |- respects _ (try_pass _) => apply respects_try_pass
  | |- respects _ (try_finally _ _) => apply respects_try_finally
  | |- respects _ (for_each _ _) => apply respects_for_each
  | |- respects _ (for_each_from _ _ _) => apply respects_for_each_from
  | |- respects _ (if ?b then _ else _) => destruct b
  | |- respects _ (match ?x with _ => _ end) => destruct x
  | |- keeps _ (say _) => apply keeps_say
  | |- keeps _ (log _ _) => apply keeps_log
  | |- keeps _ (append_downloaded _) => apply keeps_append_downloaded
  | |- keeps _ (append_uploaded _) => apply keeps_append_uploaded
  | |- keeps _ (append_cand _) => apply keeps_append_cand
  | |- keeps _ (fs_add _) => apply keeps_fs_add
  | |- keeps _ stuck => apply keeps_stuck
  | |- keeps _ (modify _) => apply keeps_modify; intros ?; reflexivity
  | |- keeps _ (sleep _ _) => apply keeps_sleep; intros ?; reflexivity
  | |- keeps _ (open_write _ _) =>
      apply keeps_open_write; intros ? ?; reflexivity
  | |- keeps _ (call _ _ _) =>
      apply keeps_call; [intros ?; reflexivity | intros ? ?; discriminate]
  | |- keeps _ (observe _ _ _) =>
      apply keeps_observe; [intros ?; reflexivity | intros ? ?; discriminate]
  | |- respects _ _ => first [ solve [auto with keeps_db] | unfold_prims ]
  end.

Ltac keeps_go := repeat respects_step.

Ltac nr_step :=
  lazymatch goal with
  | |- forall _, _ => intros
  | |- never_raises (mret _) => apply nr_ret
  | |- never_raises (mbind _ _) => apply nr_bind
  | |- never_raises (gets _) => apply nr_gets
  | |- never_raises (modify _) => apply nr_modify
  | |- never_raises (say _) => apply nr_say
  | |- never_raises (log _ _) => apply nr_log
  | |- never_raises (sleep _ _) => apply nr_sleep
  | |- never_raises (rmtree _ _) => apply nr_rmtree
  | |- never_raises (observe _ _ _) => apply nr_observe
  | |- never_raises (try_pass _) => apply nr_try_pass
  | |- never_raises (try_except _ _) => apply nr_try_except
  | |- never_raises (try_finally _ _) => apply nr_try_finally
  | |- never_raises (for_each _ _) => apply nr_for_each
  | |- never_raises (for_each_from _ _ _) => apply nr_for_each_from
  | |- never_raises (if ?b then _ else _) => destruct b
  | |- never_raises (match ?x with _ => _ end) => destruct x
  | |- never_raises _ =>
      first [ solve [auto with nr_db]
            | unfold_prims
            | progress unfold append_downloaded, append_uploaded,
                append_cand, fs_add, stuck ]
  end.

Ltac nr_go := repeat nr_step.

(** *** The download, the upload and the archive pipeline *)

Section Frames.

Context (w : World).

Lemma keeps_download (via : discovered_via) (url : string) (out_dir : Path)
    (override : option string) :
  keeps is_scraping (download_with_session w via url out_dir override).
Proof. unfold download_with_session. keeps_go. Qed.

Lemma nr_download (via : discovered_via) (url : string) (out_dir : Path)
    (override : option string) :
  never_raises (download_with_session w via url out_dir override).
Proof. unfold download_with_session. nr_go. Qed.

Lemma keeps_upload (p : Path) : keeps is_keeping (upload_file_to_bisheng w p).
Proof. unfold upload_file_to_bisheng. keeps_go. Qed.

Lemma nr_upload (p : Path) : never_raises (upload_file_to_bisheng w p).
Proof. unfold upload_file_to_bisheng. nr_go. Qed.

Hint Resolve keeps_download keeps_upload : keeps_db.
Hint Resolve nr_download nr_upload : nr_db.

Lemma keeps_extract_and_upload (path : Path) (task_id title : string) :
  keeps is_keeping (extract_and_upload_file w path task_id title).
Proof.
  unfold extract_and_upload_file, expand_and_upload, upload_tree, upload_inner.
  keeps_go.
Qed.

Lemma nr_extract_and_upload (path : Path) (task_id title : string) :
  never_raises (extract_and_upload_file w path task_id title).
Proof. unfold extract_and_upload_file. nr_go. Qed.

(** *** Strategy A *)

Lemma keeps_wait_new_window (fuel : nat) (t0 : Z) (base : gset string)
    (wd : Path) :
  keeps is_scraping (wait_new_window w fuel t0 base wd).
Proof.
  induction fuel as [|fuel IH]; simpl;
    unfold visit_new_window, fetch_found; keeps_go.
Qed.

Lemma keeps_pick_perf_url (urls : list string) :
  keeps is_scraping (pick_perf_url w urls).
Proof. induction urls as [|u urls IH]; simpl; keeps_go. Qed.

Hint Resolve keeps_wait_new_window keeps_pick_perf_url : keeps_db.

Lemma keeps_poll_perf_logs (n : nat) : keeps is_scraping (poll_perf_logs w n).
Proof. induction n as [|n IH]; simpl; keeps_go. Qed.

Hint Resolve keeps_poll_perf_logs : keeps_db.

Lemma keeps_process_candidate (wd : Path) (base : gset string) (i : nat)
    (el : elem) :
  keeps is_scraping (process_candidate w wd base i el).
Proof.
  unfold process_candidate, read_candidate, resolve_candidate,
    click_candidate, run_probes, inspect_container, fetch_found.
  keeps_go.
Qed.

Lemma nr_process_candidate (wd : Path) (base : gset string) (i : nat)
    (el : elem) :
  never_raises (process_candidate w wd base i el).
Proof. unfold process_candidate. nr_go. Qed.

Hint Resolve keeps_process_candidate : keeps_db.
Hint Resolve nr_process_candidate : nr_db.

Lemma keeps_strategy_iframe_popups (task_id title : string) (wd : Path) :
  keeps is_scraping (strategy_iframe_popups w task_id title wd).
Proof.
  unfold strategy_iframe_popups, scan_iframe, click_trigger. keeps_go.
Qed.

Lemma nr_strategy_iframe_popups (task_id title : string) (wd : Path) :
  never_raises (strategy_iframe_popups w task_id title wd).
Proof. unfold strategy_iframe_popups. nr_go. Qed.

(** *** Strategy B *)

Lemma keeps_strategy_direct_links (task_id title : string) (wd : Path) :
  keeps is_scraping (strategy_direct_links w task_id title wd).
Proof.
  unfold strategy_direct_links, collect_direct_links, download_direct_link,
    scan_anchor, scan_markup_href.
  keeps_go.
Qed.

Lemma nr_strategy_direct_links (task_id title : string) (wd : Path) :
  never_raises (strategy_direct_links w task_id title wd).
Proof. unfold strategy_direct_links. nr_go. Qed.

Hint Resolve keeps_strategy_iframe_popups keeps_strategy_direct_links
  : keeps_db.
Hint Resolve nr_strategy_iframe_popups nr_strategy_direct_links : nr_db.

(** *** The task *)

Lemma keeps_run_strategies (task_id title : string) (wd : Path) :
  keeps is_scraping (run_strategies w task_id title wd).
Proof. unfold run_strategies. keeps_go. Qed.

Lemma nr_run_strategies (task_id title : string) (wd : Path) :
  never_raises (run_strategies w task_id title wd).
Proof. unfold run_strategies. nr_go. Qed.

Lemma keeps_first_heading (h3s : list elem) :
  keeps is_scraping (first_heading w h3s).
Proof. induction h3s as [|h h3s IH]; simpl; keeps_go. Qed.

Hint Resolve keeps_first_heading : keeps_db.

Lemma keeps_open_page (wd : Path) (url : string) :
  keeps is_scraping (open_page w wd url).
Proof.
  unfold open_page, build_driver, read_page_title. keeps_go.
Qed.

Lemma keeps_quit_driver : keeps is_scraping (quit_driver w).
Proof. keeps_go. Qed.

Lemma nr_quit_driver : never_raises (quit_driver w).
Proof. unfold quit_driver. nr_go. Qed.

Lemma scraping_keeping (ev : event) :
  is_scraping ev = true -> is_keeping ev = true.
Proof.
  unfold is_scraping, is_keeping. intros H.
  apply andb_true_iff in H. tauto.
Qed.

Lemma keeps_finish_task (task_id title : string) (downloaded : list Path) :
  keeps is_keeping (finish_task w task_id title downloaded).
Proof.
  unfold finish_task, process_download.
  pose proof keeps_extract_and_upload. keeps_go.
Qed.

Lemma nr_finish_task (task_id title : string) (downloaded : list Path) :
  never_raises (finish_task w task_id title downloaded).
Proof.
  unfold finish_task, process_download.
  pose proof nr_extract_and_upload. nr_go.
Qed.

Lemma keeps_task_failed (task_id : string) (e : exn) :
  keeps is_keeping (task_failed w task_id e).
Proof. unfold task_failed. keeps_go. Qed.

Lemma nr_task_failed (task_id : string) (e : exn) :
  never_raises (task_failed w task_id e).
Proof. unfold task_failed. nr_go. Qed.

Lemma keeps_task_body (task_id url : string) (wd : Path) :
  keeps is_keeping (task_body w task_id url wd).
Proof.
  unfold task_body.
  pose proof keeps_finish_task.
  pose proof (fun a b => keeps_weaken _ _ _ scraping_keeping (keeps_open_page a b)).
  pose proof (fun a b c =>
                keeps_weaken _ _ _ scraping_keeping (keeps_run_strategies a b c)).
  keeps_go.
Qed.

End Frames.

(** ** Reading the calls of a run *)

Lemma new_events_app (s s' : State) (evs : list event) :
  st_trace s' = st_trace s ++ evs -> new_events s s' = evs.
Proof. intros H. unfold new_events. rewrite H. apply drop_app_length. Qed.

Lemma new_events_nil (s s' : State) :
  st_trace s' = st_trace s -> new_events s s' = [].
Proof. intros H. apply new_events_app. rewrite H, app_nil_r. reflexivity. Qed.

Lemma new_messages_app (s s' : State) (l : list string) :
  st_messages s' = st_messages s ++ l -> new_messages s s' = l.
Proof. intros H. unfold new_messages. rewrite H. apply drop_app_length. Qed.


(** Projections of updated states, and the calls since a given state. *)
Ltac simpl_state :=
  cbn [st_clock st_trace st_fs st_messages st_log st_downloaded st_uploaded
       st_cand st_got_one st_driver st_stuck
       set_clock set_trace set_fs set_messages set_log set_downloaded
       set_uploaded set_cand set_got_one set_driver set_stuck fst snd].

Ltac simpl_state_all :=
  cbn [st_clock st_trace st_fs st_messages st_log st_downloaded st_uploaded
       st_cand st_got_one st_driver st_stuck
       set_clock set_trace set_fs set_messages set_log set_downloaded
       set_uploaded set_cand set_got_one set_driver set_stuck fst snd] in *.

Ltac simpl_events :=
  unfold new_events, new_messages; simpl_state;
  rewrite <- ?app_assoc, ?drop_app_length; cbn [app].

(** ** The upload *)

(** C10: [upload_file_to_bisheng] returns a pair from every state and for
    every file; the pair is [(True, "HTTP<status>")] exactly when the file
    was opened and the POST was answered with a status that is not a client
    or server error, and [(False, "UploadFailed: ...")] otherwise, whether
    the file could not be opened, the POST raised (a timeout, say) or the
    status was an error. *)
Theorem upload_file_to_bisheng_total (w : World) (p : Path) (s : State) :
  exists ok info s',
    upload_file_to_bisheng w p s = (Ok (ok, info), s')
    /\ (ok = true <->
        exists status,
          new_events s s' = [EvOpenRead (path_str p) (Ok tt);
                             EvPost (path_str p) (Ok status)]
          /\ http_error_status status = false)
    /\ (ok = true ->
        exists status,
          In (EvPost (path_str p) (Ok status)) (new_events s s')
          /\ info = ("HTTP" ++ pretty status)%string)
    /\ (ok = false ->
        (exists msg, info = ("UploadFailed: " ++ msg)%string)
        /\ (existsb ev_failed (new_events s s') = true
            \/ exists status,
                 In (EvPost (path_str p) (Ok status)) (new_events s s')
                 /\ http_error_status status = true)).
Proof.
  unfold upload_file_to_bisheng.
  rewrite run_try_except, run_bind. unfold call at 1.
  destruct (w_open_read w (length (st_trace s)) (path_str p)) as [[]|e] eqn:Ho.
  - rewrite run_bind. unfold call at 1. cbn [st_trace set_clock set_trace].
    destruct (w_post w (length (st_trace s ++ [EvOpenRead (path_str p) (Ok ())]))
                (path_str p)) as [status|e] eqn:Hp.
    + rewrite run_bind. unfold raise_for_status.
      destruct (http_error_status status) eqn:Hst.
      * do 3 eexists. split; [reflexivity|].
        simpl_events.
        repeat split; try discriminate.
        -- intros (st' & [= <-] & Hst'). congruence.
        -- eauto.
        -- right. exists status. simpl. auto.
      * do 3 eexists. split; [reflexivity|].
        simpl_events.
        repeat split; try discriminate.
        -- eauto.
        -- intros _. exists status. simpl. auto.
    + do 3 eexists. split; [reflexivity|].
      simpl_events.
      repeat split; try discriminate.
      * intros (st' & [=] & _).
      * eauto.
      * left. reflexivity.
  - do 3 eexists. split; [reflexivity|].
    simpl_events.
    repeat split; try discriminate.
    + intros (st' & [=] & _).
    + eauto.
    + left. reflexivity.
Qed.

(** ** The download *)

(** Unfold the monad and the calls to the environment, to run a
    computation step by step. *)
Ltac unfold_run :=
  unfold ensure_dir, open_write, write_body, copy2, derive_filename_from_url,
    raise_for_status, try_pass, try_except, log, say, fs_add,
    append_downloaded, append_uploaded, modify, gets, call, observe,
    lift_res, raise;
  unfold mbind, mret, M_bind, M_ret; simpl_state.

Ltac case_answer :=
  match goal with
  | |- context [match ?o with Ok _ => _ | Raise _ => _ end] =>
      let E := fresh "E" in destruct o as [?|?] eqn:E; simpl_state
  | |- context [if http_error_status ?st then _ else _] =>
      let E := fresh "E" in destruct (http_error_status st) eqn:E; simpl_state
  end.

(** C3: [download_with_session] returns from every state and for every
    URL, never raising: either the path of the file it wrote, under the
    output directory, after a GET answered without an error status; or
    [None] after logging the failure as a warning.  Any call that raised
    (connection, timeout, disk) and any error status give [None]. *)
Theorem download_with_session_never_propagates (w : World)
    (via : discovered_via) (url : string) (out_dir : Path)
    (override : option string) (s : State) :
  exists r s',
    download_with_session w via url out_dir override s = (Ok r, s')
    /\ match r with
       | Some p =>
           parent p = path_str out_dir
           /\ path_str p ∈ st_fs s'
           /\ exists status,
                http_error_status status = false
                /\ new_events s s' =
                   [EvMkdir (path_str out_dir) (Ok tt);
                    EvSessionGet via url (Ok status);
                    EvOpenWrite (path_str p) (Ok tt);
                    EvWriteBody (path_str p) (Ok tt)]
       | None =>
           exists msg,
             last (st_log s')
             = Some (WARNING, ("下载失败: " ++ url ++ " -> " ++ msg)%string)
       end
    /\ (existsb ev_failed (new_events s s') = true -> r = None)
    /\ (forall status,
          In (EvSessionGet via url (Ok status)) (new_events s s') ->
          http_error_status status = true -> r = None).
Proof.
  unfold download_with_session. unfold_run.
  assert (forall (l : list (log_level * string)) x, exists msg,
            last (l ++ [(WARNING, ("下载失败: " ++ url ++ " -> " ++ exn_msg x)%string)])
            = Some (WARNING, ("下载失败: " ++ url ++ " -> " ++ msg)%string)) as Hlog
    by (intros l x; exists (exn_msg x); apply last_snoc).
  assert (forall (st : Z) (evs : list event),
            http_error_status st = false ->
            forall status, In (EvSessionGet via url (Ok status))
                              (EvSessionGet via url (Ok st) :: evs) ->
            (forall x, In x evs -> forall v u r, x <> EvSessionGet v u r) ->
            http_error_status status = true -> False) as Hst.
  { intros st evs H0 status [[= <-]|Hin] Hevs H1; [congruence|].
    eapply Hevs; [exact Hin | reflexivity]. }
  case_answer;
    [|do 2 eexists; split; [reflexivity|]; simpl_state;
      split; [apply Hlog | split; intros; reflexivity]].
  destruct (nonempty (or_empty override)) eqn:Hov; simpl_state;
    repeat case_answer;
    repeat match goal with a : unit |- _ => destruct a end;
    do 2 eexists; (split; [reflexivity|]); simpl_state;
    try (split; [apply Hlog | split; intros; reflexivity]);
    simpl_events;
    (split; [split; [reflexivity|split; [set_solver|eauto]]|]);
    (split; [discriminate|]);
    intros st [[=]|Hin] Hbad; exfalso; (eapply Hst; [| exact Hin | | exact Hbad]);
    [eassumption | intros x [<-|[<-|[]]]; discriminate
    |eassumption | intros x [<-|[<-|[]]]; discriminate].
Qed.

(** ** The archive pipeline *)

Section Archive.

Context (w : World).











End Archive.





(** ** What a download leaves behind *)

Section DownloadRun.

Context (w : World).

Lemma completed_downloads_app (evs1 evs2 : list event) :
  completed_downloads (evs1 ++ evs2)
  = completed_downloads evs1 ++ completed_downloads evs2.
Proof. apply omap_app. Qed.

(** A download returns a path exactly when it wrote that file to the end;
    it touches neither the list of downloads nor the flags. *)
Lemma download_run (via : discovered_via) (url : string) (wd : Path)
    (override : option string) (s : State) :
  exists r s' evs,
    download_with_session w via url wd override s = (Ok r, s')
    /\ st_trace s' = st_trace s ++ evs
    /\ Forall (fun ev => is_download_from via ev = true) evs
    /\ completed_downloads evs
       = match r with Some p => [path_str p] | None => [] end
    /\ st_got_one s' = st_got_one s
    /\ st_stuck s' = st_stuck s
    /\ st_downloaded s' = st_downloaded s
    /\ st_messages s' = st_messages s.
Proof.
  unfold download_with_session. unfold_run.
  case_answer;
    [|do 3 eexists; (split; [reflexivity|]); simpl_state;
      (split; [reflexivity|]); repeat split; repeat constructor].
  destruct (nonempty (or_empty override)); simpl_state;
    repeat case_answer;
    do 3 eexists; (split; [reflexivity|]); simpl_state;
    rewrite <- ?app_assoc; (split; [reflexivity|]);
    repeat split; repeat constructor; apply bool_decide_eq_true; reflexivity.
Qed.

End DownloadRun.

(** ** The direct link of a candidate *)

Lemma rstrip_cons (c : ascii) (s : string) :
  is_space c = false -> rstrip (String c s) = String c (rstrip s).
Proof. intros H. cbn [rstrip]. rewrite H. destruct (rstrip s); reflexivity. Qed.


Section DirectHref.

Context (w : World).



End DirectHref.



(** ** The direct-link scan *)

(** C7, the code at a failing input: on a page with two anchors that point
    to the same PDF the candidate list holds that URL twice, the file is
    fetched twice and uploaded twice under the same name. *)
Theorem direct_links_keep_duplicate_anchors :
  (collect_direct_links two_anchors_world init_state).1
  = Ok ["http://site/a.pdf"; "http://site/a.pdf"]
  /\ count_events
       (fun ev => match ev with
                  | EvSessionGet StaticScan "http://site/a.pdf" _ => true
                  | _ => false
                  end)
       (st_trace (strategy_direct_links two_anchors_world "7" ""
                    (task_work_dir "7") init_state).2) = 2
  /\ match (handle_single_task two_anchors_world "7" "http://site/detail/7"
              init_state).1 with
     | Ok res => res_uploaded res
     | Raise _ => []
     end = ["7附件a.pdf"; "7附件a.pdf"].
Proof.
  split; [vm_compute; reflexivity|].
  split; vm_compute; reflexivity.
Qed.

(** ** The probes of a candidate *)

Lemma new_events_self (s : State) : new_events s s = [].
Proof. unfold new_events. apply drop_all. Qed.

Lemma new_downloaded_self (s : State) : new_downloaded s s = [].
Proof. unfold new_downloaded. apply drop_all. Qed.

Lemma new_events_trans (s s1 s2 : State) :
  st_trace s1 = st_trace s ++ new_events s s1 ->
  st_trace s2 = st_trace s1 ++ new_events s1 s2 ->
  new_events s s2 = new_events s s1 ++ new_events s1 s2.
Proof.
  intros H1 H2. apply new_events_app. rewrite H2, H1 at 1.
  rewrite <- app_assoc. reflexivity.
Qed.

Lemma new_downloaded_app (s s' : State) (dl : list Path) :
  st_downloaded s' = st_downloaded s ++ dl -> new_downloaded s s' = dl.
Proof. intros H. unfold new_downloaded. rewrite H. apply drop_app_length. Qed.

Lemma count_events_app (p : event -> bool) (evs1 evs2 : list event) :
  count_events p (evs1 ++ evs2) = count_events p evs1 + count_events p evs2.
Proof. unfold count_events. rewrite filter_app, length_app. reflexivity. Qed.

Lemma count_events_none (p q : event -> bool) (evs : list event) :
  (forall ev, q ev = true -> p ev = false) ->
  Forall (fun ev => q ev = true) evs -> count_events p evs = 0.
Proof.
  intros Hpq H. unfold count_events. induction H as [|ev evs Hev _ IH].
  - reflexivity.
  - rewrite filter_cons. destruct (decide (p ev = true)) as [Hp|_].
    + rewrite (Hpq ev Hev) in Hp. discriminate.
    + exact IH.
Qed.

(** A transition described by the calls it made and the paths it
    appended. *)
Lemma tracks_intro (P : event -> bool) (s s' : State) (evs : list event)
    (dl : list Path) :
  st_trace s' = st_trace s ++ evs ->
  Forall (fun ev => P ev = true) evs ->
  st_stuck s' = st_stuck s ->
  st_downloaded s' = st_downloaded s ++ dl ->
  map path_str dl = completed_downloads evs ->
  st_got_one s' = st_got_one s || negb (is_nil dl) ->
  tracks P s s'.
Proof.
  intros Ht HP Hs Hd Hc Hg. unfold tracks.
  rewrite (new_events_app _ _ _ Ht), (new_downloaded_app _ _ _ Hd). auto 10.
Qed.

(** A transition that made the calls [evs], none a completed download,
    and changed none of [downloaded], [got_one] and the fuel flag. *)
Lemma tracks_calls (P : event -> bool) (s s' : State) (evs : list event) :
  st_trace s' = st_trace s ++ evs ->
  Forall (fun ev => P ev = true) evs ->
  completed_downloads evs = [] ->
  st_stuck s' = st_stuck s ->
  st_downloaded s' = st_downloaded s ->
  st_got_one s' = st_got_one s ->
  tracks P s s'.
Proof.
  intros Ht HP Hc Hs Hd Hg.
  apply (tracks_intro P s s' evs []);
    [ exact Ht | exact HP | exact Hs | rewrite app_nil_r; exact Hd
    | rewrite Hc; reflexivity | rewrite Hg, orb_false_r; reflexivity ].
Qed.

Lemma tracks_refl (P : event -> bool) (s : State) : tracks P s s.
Proof. apply (tracks_calls P s s []); auto using app_nil_r. Qed.

Lemma tracks_trans (P : event -> bool) (s1 s2 s3 : State) :
  tracks P s1 s2 -> tracks P s2 s3 -> tracks P s1 s3.
Proof.
  intros (Ht1 & HP1 & Hs1 & Hd1 & Hc1 & Hg1) (Ht2 & HP2 & Hs2 & Hd2 & Hc2 & Hg2).
  apply (tracks_intro P s1 s3 (new_events s1 s2 ++ new_events s2 s3)
           (new_downloaded s1 s2 ++ new_downloaded s2 s3)).
  - rewrite Ht2, Ht1 at 1. rewrite <- app_assoc. reflexivity.
  - apply Forall_app; auto.
  - congruence.
  - rewrite Hd2, Hd1 at 1. rewrite <- app_assoc. reflexivity.
  - rewrite map_app, Hc1, Hc2. unfold completed_downloads.
    rewrite omap_app. reflexivity.
  - rewrite Hg2, Hg1.
    destruct (new_downloaded s1 s2), (new_downloaded s2 s3);
      simpl; rewrite ?orb_false_r, ?orb_true_r; reflexivity.
Qed.

Lemma tracks_weaken (P Q : event -> bool) (s s' : State) :
  (forall ev, P ev = true -> Q ev = true) -> tracks P s s' -> tracks Q s s'.
Proof.
  intros HPQ (Ht & HP & Hrest). split; [exact Ht|]. split; [|exact Hrest].
  eapply Forall_impl; [exact HP | exact HPQ].
Qed.

Global Instance tracks_preorder (P : event -> bool) : PreOrder (tracks P).
Proof.
  split; [intros s; apply tracks_refl | intros s1 s2 s3; apply tracks_trans].
Qed.

Section Tracks.

Context (P : event -> bool) (w : World).

Lemma tracks_modify (f : State -> State) :
  (forall s, st_trace (f s) = st_trace s) ->
  (forall s, st_stuck (f s) = st_stuck s) ->
  (forall s, st_downloaded (f s) = st_downloaded s) ->
  (forall s, st_got_one (f s) = st_got_one s) ->
  respects (tracks P) (modify f).
Proof.
  intros Ht Hs Hd Hg s. apply (tracks_calls P s _ []); simpl; auto.
  rewrite app_nil_r. apply Ht.
Qed.

Lemma tracks_call {A} (oracle : nat -> Res A) (ev : Res A -> event) :
  (forall r, P (ev r) = true) ->
  (forall r, is_completed_download (ev r) = false) ->
  respects (tracks P) (call w oracle ev).
Proof.
  intros HP Hc s. eapply tracks_calls; try reflexivity.
  - repeat constructor. apply HP.
  - unfold completed_downloads. simpl.
    specialize (Hc (oracle (length (st_trace s)))).
    destruct (ev (oracle (length (st_trace s)))); try reflexivity.
    destruct r; [discriminate Hc | reflexivity].
Qed.

Lemma tracks_observe {A} (oracle : nat -> A) (ev : A -> event) :
  (forall r, P (ev r) = true) ->
  (forall r, is_completed_download (ev r) = false) ->
  respects (tracks P) (observe w oracle ev).
Proof.
  intros HP Hc s. eapply tracks_calls; try reflexivity.
  - repeat constructor. apply HP.
  - unfold completed_downloads. simpl.
    specialize (Hc (oracle (length (st_trace s)))).
    destruct (ev (oracle (length (st_trace s)))); try reflexivity.
    destruct r; [discriminate Hc | reflexivity].
Qed.

Lemma tracks_sleep (ms : Z) :
  (forall d, P (EvSleep d) = true) -> respects (tracks P) (sleep w ms).
Proof.
  intros HP s. eapply tracks_calls; try reflexivity.
  repeat constructor. apply HP.
Qed.

End Tracks.

Ltac tracks_step :=
  lazymatch goal with
  | |- respects (tracks _) (say _) =>
      apply tracks_modify; intros ?; reflexivity
  | |- respects (tracks _) (log _ _) =>
      apply tracks_modify; intros ?; reflexivity
  | |- respects (tracks _) (fs_add _) =>
      apply tracks_modify; intros ?; reflexivity
  | |- respects (tracks _) (sleep _ _) =>
      apply tracks_sleep; intros ?; reflexivity
  | |- respects (tracks _) (call _ _ _) =>
      apply tracks_call; intros ?; reflexivity
  | |- respects (tracks _) (observe _ _ _) =>
      apply tracks_observe; intros ?; reflexivity
  | |- respects (tracks _) (open_write _ _) => unfold open_write
  | |- _ => respects_step
  end.

Ltac tracks_go := repeat tracks_step.

Section Probes.

Context (w : World).

(** What a probe does with the URL it found. *)
Lemma tracks_fetch_found (via : discovered_via) (url : string) (wd : Path) :
  respects (tracks (is_download_from via)) (fetch_found w via url wd).
Proof.
  intros s. unfold fetch_found. rewrite run_bind.
  destruct (download_run w via url wd None s)
    as (r & s1 & evs & Hrun & Ht & HP & Hc & Hg & Hs & Hd & _).
  rewrite Hrun. destruct r as [p|]; simpl.
  - apply (tracks_intro _ s _ evs [p]); simpl; auto.
    + rewrite Hd. reflexivity.
    + rewrite orb_true_r. reflexivity.
  - apply (tracks_calls _ s _ evs); auto.
Qed.

Lemma fetch_found_weaken (P : event -> bool) (via : discovered_via)
    (url : string) (wd : Path) :
  (forall ev, is_download_from via ev = true -> P ev = true) ->
  respects (tracks P) (fetch_found w via url wd).
Proof.
  intros HP s. eapply tracks_weaken; [exact HP | apply tracks_fetch_found].
Qed.

Lemma download_is_window_visit (ev : event) :
  is_download_from NewWindow ev = true -> is_window_visit ev = true.
Proof.
  destruct ev; try discriminate; intros H; unfold is_window_visit;
    simpl in *; rewrite ?H; reflexivity.
Qed.

Lemma download_is_trace_probe (ev : event) :
  is_download_from NetworkTrace ev = true -> is_trace_probe ev = true.
Proof.
  destruct ev; try discriminate; intros H; simpl in *; rewrite ?H; reflexivity.
Qed.

Lemma download_is_container_probe (ev : event) :
  is_download_from DomContainer ev = true -> is_container_probe ev = true.
Proof.
  destruct ev; try discriminate; intros H; simpl in *; rewrite ?H; reflexivity.
Qed.

Lemma tracks_visit_new_window (new_win : string) (base : gset string)
    (wd : Path) :
  respects (tracks is_window_visit) (visit_new_window w new_win base wd).
Proof.
  pose proof (fun url => fetch_found_weaken is_window_visit NewWindow url wd
                           download_is_window_visit).
  unfold visit_new_window. tracks_go.
Qed.

Lemma tracks_pick_perf_url (urls : list string) :
  respects (tracks is_trace_pick) (pick_perf_url w urls).
Proof. induction urls as [|u urls IH]; simpl; tracks_go. Qed.

Lemma tracks_inspect_container (selid : string) (wd : Path) :
  respects (tracks is_container_probe) (inspect_container w selid wd).
Proof.
  pose proof (fun url => fetch_found_weaken is_container_probe DomContainer url wd
                           download_is_container_probe).
  unfold inspect_container. tracks_go.
Qed.

End Probes.
Section ProbeOrder.

Context (w : World).

Lemma window_visit_probe (ev : event) :
  is_window_visit ev = true -> is_window_probe ev = true.
Proof. unfold is_window_visit. intros H. apply andb_true_iff in H. tauto. Qed.

Lemma window_visit_no_poll (ev : event) :
  is_window_visit ev = true -> is_window_poll ev = false.
Proof.
  unfold is_window_visit. intros H. apply andb_true_iff in H as [_ H].
  apply negb_true_iff in H. exact H.
Qed.

Lemma wnw_run (t0 : Z) (base : gset string) (wd : Path) (fuel : nat) :
  forall s : State,
    (1 <= fuel)%nat ->
    (CLICK_NEW_WINDOW_WAIT - (st_clock s - t0) <= 300 * (Z.of_nat fuel - 1))%Z ->
    exists r s',
      wait_new_window w fuel t0 base wd s = (r, s')
      /\ tracks is_window_probe s s'
      /\ (300 * Z.of_nat (count_events is_window_poll (new_events s s'))
          <= Z.max 0 (CLICK_NEW_WINDOW_WAIT - (st_clock s - t0)) + 299)%Z
      /\ ((st_clock s - t0 < CLICK_NEW_WINDOW_WAIT)%Z ->
          exists h rest, new_events s s' = EvWindowHandles h :: rest).
Proof.
  induction fuel as [|fuel IH]; intros s Hf Hrem; [lia|].
  cbn [wait_new_window]. rewrite run_bind. unfold time_time at 1, gets at 1.
  destruct (st_clock s - t0 <? CLICK_NEW_WINDOW_WAIT)%Z eqn:Hlt.
  2:{ do 2 eexists. split; [reflexivity|]. rewrite new_events_self.
      split; [apply tracks_refl|].
      split; [unfold count_events; rewrite filter_nil; cbn [length]; lia|].
      apply Z.ltb_ge in Hlt. lia. }
  apply Z.ltb_lt in Hlt.
  rewrite run_bind.
  pose proof (tracks_call is_window_probe w (w_window_handles w) EvWindowHandles
                (fun _ => eq_refl) (fun _ => eq_refl) s) as Hwh.
  unfold window_handles at 1.
  assert (new_events s (call w (w_window_handles w) EvWindowHandles s).2
          = [EvWindowHandles (w_window_handles w (length (st_trace s)))]) as Hev
    by (apply new_events_app; reflexivity).
  assert (st_clock s <= st_clock (call w (w_window_handles w) EvWindowHandles s).2)%Z
    as Hclk by (simpl; lia).
  destruct (call w (w_window_handles w) EvWindowHandles s) as [r s1] eqn:Hcall.
  assert (r = w_window_handles w (length (st_trace s))) as Hr
    by (unfold call in Hcall; congruence).
  cbn [snd] in *.
  destruct r as [hs|e].
  2:{ do 2 eexists. split; [reflexivity|]. split; [exact Hwh|].
      rewrite Hev. split; [unfold count_events; simpl; lia | eauto]. }
  destruct (elements (list_to_set hs ∖ base)) as [|new_win rest].
  - rewrite run_bind.
    pose proof (tracks_sleep is_window_probe w 300 (fun _ => eq_refl) s1) as Hsl.
    assert (new_events s1 (sleep w 300 s1).2 = [EvSleep 300]) as Hev2
      by (apply new_events_app; reflexivity).
    assert (st_clock s1 + 300 <= st_clock (sleep w 300 s1).2)%Z as Hclk2
      by (simpl; lia).
    destruct (sleep w 300 s1) as [r2 s2] eqn:Hsleep.
    assert (r2 = Ok tt) as -> by (unfold sleep in Hsleep; congruence).
    cbn [snd] in *.
    destruct (IH s2) as (r3 & s3 & Hrun & Htr & Hcnt & _); [lia | lia |].
    rewrite Hrun. exists r3, s3. split; [reflexivity|].
    assert (tracks is_window_probe s s2) as Hs2 by (etrans; eassumption).
    split; [etrans; eassumption|].
    rewrite (new_events_trans s s2 s3 (proj1 Hs2) (proj1 Htr)).
    rewrite (new_events_trans s s1 s2 (proj1 Hwh) (proj1 Hsl)).
    rewrite Hev, Hev2. split; [|intros _; cbn [app]; eauto].
    rewrite !count_events_app.
    unfold count_events at 1 2. simpl length. lia.
  - pose proof (tracks_visit_new_window w new_win base wd s1) as Hv.
    destruct (visit_new_window w new_win base wd s1) as [r2 s2].
    cbn [snd] in *. exists r2, s2. split; [reflexivity|].
    split.
    + etrans; [exact Hwh|].
      eapply tracks_weaken; [exact window_visit_probe | exact Hv].
    + rewrite (new_events_trans s s1 s2 (proj1 Hwh) (proj1 Hv)).
      rewrite Hev. split; [|intros _; cbn [app]; eauto].
      rewrite count_events_app.
      rewrite (count_events_none is_window_poll is_window_visit _
                 window_visit_no_poll (proj1 (proj2 Hv))).
      unfold count_events. simpl length. lia.
Qed.

Lemma trace_pick_probe (ev : event) :
  is_trace_pick ev = true -> is_trace_probe ev = true.
Proof.
  destruct ev as [|q| | | | | | | | | | | | | | | | | | |]; try discriminate.
  destruct q; try discriminate. reflexivity.
Qed.

Lemma trace_pick_no_poll (ev : event) :
  is_trace_pick ev = true -> is_trace_poll ev = false.
Proof. destruct ev; auto; discriminate. Qed.

(** Probe B polls at most [n] times. *)
Lemma poll_run (n : nat) :
  forall s : State,
    exists r s',
      poll_perf_logs w n s = (r, s')
      /\ tracks is_trace_probe s s'
      /\ count_events is_trace_poll (new_events s s') <= n
      /\ (1 <= n -> exists urls rest, new_events s s' = EvPerfUrls urls :: rest).
Proof.
  induction n as [|n IH]; intros s.
  - do 2 eexists. split; [reflexivity|]. rewrite new_events_self.
    split; [apply tracks_refl|]. split; [reflexivity | lia].
  - cbn [poll_perf_logs]. rewrite run_bind.
    pose proof (tracks_observe is_trace_probe w (w_perf_urls w) EvPerfUrls
                  (fun _ => eq_refl) (fun _ => eq_refl) s) as Hob.
    assert (new_events s (observe w (w_perf_urls w) EvPerfUrls s).2
            = [EvPerfUrls (w_perf_urls w (length (st_trace s)))]) as Hev
      by (apply new_events_app; reflexivity).
    unfold extract_urls_from_perf_logs at 1.
    destruct (observe w (w_perf_urls w) EvPerfUrls s) as [r1 s1] eqn:Hcall.
    assert (r1 = Ok (w_perf_urls w (length (st_trace s)))) as ->
      by (unfold observe in Hcall; congruence).
    cbn [snd] in *. rewrite run_bind.
    set (urls := w_perf_urls w (length (st_trace s))) in *.
    assert (exists r2 s2,
               (if is_nil urls then mret None else pick_perf_url w urls) s1
               = (r2, s2)
               /\ tracks is_trace_pick s1 s2) as (r2 & s2 & Hpick & Htp).
    { destruct (is_nil urls).
      - do 2 eexists. split; [reflexivity | apply tracks_refl].
      - pose proof (tracks_pick_perf_url w urls s1) as H.
        destruct (pick_perf_url w urls s1) as [r2 s2].
        do 2 eexists. split; [reflexivity | exact H]. }
    rewrite Hpick.
    assert (tracks is_trace_probe s s2) as Hs2.
    { etrans; [exact Hob|].
      eapply tracks_weaken; [exact trace_pick_probe | exact Htp]. }
    assert (new_events s s2 = EvPerfUrls urls :: new_events s1 s2) as Hd2.
    { rewrite (new_events_trans s s1 s2 (proj1 Hob) (proj1 Htp)), Hev.
      reflexivity. }
    assert (count_events is_trace_poll (new_events s s2) = 1) as Hc2.
    { rewrite (new_events_trans s s1 s2 (proj1 Hob) (proj1 Htp)).
      rewrite Hev, count_events_app.
      rewrite (count_events_none is_trace_poll is_trace_pick _
                 trace_pick_no_poll (proj1 (proj2 Htp))).
      reflexivity. }
    destruct r2 as [[u|]|e].
    + do 2 eexists. split; [reflexivity|]. split; [exact Hs2|].
      split; [lia | eauto].
    + rewrite run_bind.
      pose proof (tracks_sleep is_trace_probe w PERF_POLL_SLEEP
                    (fun _ => eq_refl) s2) as Hsl.
      assert (new_events s2 (sleep w PERF_POLL_SLEEP s2).2
              = [EvSleep PERF_POLL_SLEEP]) as Hev3
        by (apply new_events_app; reflexivity).
      destruct (sleep w PERF_POLL_SLEEP s2) as [r3 s3] eqn:Hsleep.
      assert (r3 = Ok tt) as -> by (unfold sleep in Hsleep; congruence).
      cbn [snd] in *.
      destruct (IH s3) as (r4 & s4 & Hrun & Htr & Hcnt & _).
      rewrite Hrun. exists r4, s4. split; [reflexivity|].
      assert (tracks is_trace_probe s s3) as Hs3 by (etrans; eassumption).
      split; [etrans; eassumption|].
      rewrite (new_events_trans s s3 s4 (proj1 Hs3) (proj1 Htr)).
      rewrite (new_events_trans s s2 s3 (proj1 Hs2) (proj1 Hsl)).
      split.
      * rewrite !count_events_app, Hc2, Hev3.
        unfold count_events at 1. simpl length. lia.
      * intros _. rewrite Hd2. cbn [app]. eauto.
    + do 2 eexists. split; [reflexivity|]. split; [exact Hs2|].
      split; [lia | eauto].
Qed.

(** Probe A, with its handler: it never raises and polls at most 27
    times; the fuel of the model is never used up. *)
Lemma window_probe_run (base : gset string) (wd : Path) (s : State) :
  exists s',
    try_except
      (t0 ← time_time ;
       wait_new_window w NEW_WINDOW_FUEL t0 base wd)
      (fun e => say ("        检查新窗口异常: " ++ exn_msg e)%string) s
    = (Ok tt, s')
    /\ tracks is_window_probe s s'
    /\ count_events is_window_poll (new_events s s') <= 27
    /\ exists h rest, new_events s s' = EvWindowHandles h :: rest.
Proof.
  rewrite run_try_except, run_bind. unfold time_time at 1, gets at 1.
  destruct (wnw_run (st_clock s) base wd NEW_WINDOW_FUEL s)
    as (r & s1 & Hrun & Htr & Hcnt & Hfirst).
  { unfold NEW_WINDOW_FUEL. lia. }
  { unfold NEW_WINDOW_FUEL, CLICK_NEW_WINDOW_WAIT. lia. }
  rewrite Hrun.
  assert (count_events is_window_poll (new_events s s1) <= 27) as Hc.
  { unfold CLICK_NEW_WINDOW_WAIT in Hcnt. lia. }
  assert (exists h rest, new_events s s1 = EvWindowHandles h :: rest) as Hf1.
  { apply Hfirst. unfold CLICK_NEW_WINDOW_WAIT. lia. }
  destruct r as [[]|e].
  - exists s1. auto.
  - eexists. split; [reflexivity|].
    assert (tracks is_window_probe s1
              (set_messages
                 (st_messages s1 ++ [("        检查新窗口异常: " ++ exn_msg e)%string])
                 s1)) as Hsay.
    { apply (tracks_calls _ _ _ []); auto using app_nil_r. }
    split; [etrans; eassumption|].
    split; [exact Hc | exact Hf1].
Qed.

End ProbeOrder.

Lemma tracks_no_download (P : event -> bool) (s s' : State) :
  tracks P s s' -> st_got_one s = false -> st_got_one s' = false ->
  completed_downloads (new_events s s') = [].
Proof.
  intros (_ & _ & _ & _ & Hc & Hg) H0 H1. rewrite <- Hc.
  rewrite H0, H1 in Hg. destruct (new_downloaded s s'); [reflexivity|discriminate].
Qed.

Lemma tracks_any (P : event -> bool) (s s' : State) :
  tracks P s s' -> tracks (fun _ => true) s s'.
Proof. apply tracks_weaken. reflexivity. Qed.

(** Three consecutive phases, put together. *)
Lemma phases_assemble (PA PB PC : event -> bool) (s0 sA sB sC : State) :
  tracks PA s0 sA -> tracks PB sA sB -> tracks PC sB sC ->
  new_events s0 sC = new_events s0 sA ++ new_events sA sB ++ new_events sB sC
  /\ st_stuck sC = st_stuck s0
  /\ map path_str (new_downloaded s0 sC)
     = completed_downloads
         (new_events s0 sA ++ new_events sA sB ++ new_events sB sC).
Proof.
  intros HA HB HC.
  assert (tracks (fun _ => true) sA sC) as HBC
    by (etrans; eapply tracks_any; eassumption).
  assert (tracks (fun _ => true) s0 sC) as H0C
    by (etrans; [eapply tracks_any; exact HA | exact HBC]).
  assert (new_events s0 sC
          = new_events s0 sA ++ new_events sA sB ++ new_events sB sC) as Hev.
  { rewrite (new_events_trans s0 sA sC (proj1 HA) (proj1 HBC)).
    rewrite (new_events_trans sA sB sC (proj1 HB) (proj1 HC)). reflexivity. }
  split; [exact Hev|]. rewrite <- Hev.
  destruct H0C as (_ & _ & Hs & _ & Hc & _). auto.
Qed.


Section ProbePhases.

Context (w : World).

(** With [got_one] unset at the start, it is set at the end exactly if a
    download completed. *)
Lemma tracks_got_one (P : event -> bool) (s s' : State) :
  tracks P s s' -> st_got_one s = false ->
  (st_got_one s' = false <-> completed_downloads (new_events s s') = []).
Proof.
  intros Ht H0. split; [apply (tracks_no_download P s s' Ht H0)|].
  destruct Ht as (_ & _ & _ & _ & Hc & Hg). rewrite <- Hc.
  rewrite Hg, H0. destruct (new_downloaded s s'); [reflexivity | discriminate].
Qed.

Lemma try_pass_run (m : M unit) (s : State) : try_pass m s = (Ok tt, (m s).2).
Proof.
  unfold try_pass. rewrite run_try_except.
  destruct (m s) as [[[]|e] s']; reflexivity.
Qed.

(** Probe C and the pause that ends the candidate: the container is
    looked up first, if the click handler named one, and the pause comes
    last. *)
Lemma container_run (selid : option string) (wd : Path) (s : State) :
  exists s' mid,
    ((if nonempty (or_empty selid)
      then inspect_container w (or_empty selid) wd
      else mret tt) ;; sleep w 300) s = (Ok tt, s')
    /\ tracks is_container_probe s s'
    /\ new_events s s' = mid ++ [EvSleep 300]
    /\ (nonempty (or_empty selid) = true ->
        exists r rest, mid = EvFindElementById (or_empty selid) r :: rest)
    /\ (nonempty (or_empty selid) = false -> mid = []).
Proof.
  assert (forall s1 : State,
            exists s2, sleep w 300 s1 = (Ok tt, s2)
                       /\ tracks is_container_probe s1 s2
                       /\ new_events s1 s2 = [EvSleep 300]) as Hsleep.
  { intros s1.
    pose proof (tracks_sleep is_container_probe w 300 (fun _ => eq_refl) s1) as H.
    eexists. split; [reflexivity|]. split; [exact H|].
    apply new_events_app. reflexivity. }
  rewrite run_bind. destruct (nonempty (or_empty selid)) eqn:Hsel.
  - pose proof (tracks_inspect_container w (or_empty selid) wd s) as Ht.
    unfold inspect_container in *. rewrite try_pass_run in *.
    rewrite try_pass_run in *. cbn [snd] in *.
    match type of Ht with
    | tracks _ _ (?X s).2 =>
        assert (exists r rest,
                  new_events s (X s).2
                  = EvFindElementById (or_empty selid) r :: rest) as Hfirst
    end.
    { rewrite run_bind. unfold find_element_by_id at 1, call at 1.
      match goal with
      | |- context [w_find_element_by_id w ?n ?i] =>
          destruct (w_find_element_by_id w n i) as [elc|e]
      end.
      - match goal with
        | |- context [mbind ?k (get_attribute w elc "innerHTML") ?s1] =>
            assert (tracks is_container_probe s1
                      (mbind k (get_attribute w elc "innerHTML") s1).2) as Hk
        end.
        { pose proof (fun url =>
                        fetch_found_weaken w is_container_probe DomContainer
                          url wd download_is_container_probe).
          match goal with
          | |- tracks _ ?s1 (?m ?s1).2 =>
              assert (respects (tracks is_container_probe) m) as Hm
                by tracks_go;
              exact (Hm s1)
          end. }
        destruct Hk as (Hk & _).
        eexists _, _. apply new_events_app. rewrite Hk. simpl_state.
        rewrite <- app_assoc. reflexivity.
      - eexists _, []. apply new_events_app. reflexivity. }
    destruct Hfirst as (r & rest & Hfirst).
    match type of Ht with
    | tracks _ _ (?X s).2 => set (s1 := (X s).2) in *
    end.
    destruct (Hsleep s1) as (s2 & -> & Ht2 & Hev2).
    exists s2, (EvFindElementById (or_empty selid) r :: rest).
    split; [reflexivity|]. split; [etrans; eassumption|].
    split; [|split; [eauto | discriminate]].
    rewrite (new_events_trans s s1 s2 (proj1 Ht) (proj1 Ht2)), Hfirst, Hev2.
    reflexivity.
  - unfold mret at 1, M_ret at 1.
    destruct (Hsleep s) as (s2 & -> & Ht2 & Hev2).
    exists s2, []. split; [reflexivity|]. split; [exact Ht2|].
    split; [exact Hev2|]. split; [discriminate | reflexivity].
Qed.

(** Probe A does not read the network trace. *)
Lemma wait_new_window_trace_free (f : nat -> list string) (fuel : nat)
    (t0 : Z) (base : gset string) (wd : Path) (s : State) :
  wait_new_window (with_perf_urls f w) fuel t0 base wd s
  = wait_new_window w fuel t0 base wd s.
Proof.
  revert s. induction fuel as [|fuel IH]; intros s; [reflexivity|].
  cbn [wait_new_window]. rewrite !run_bind.
  unfold time_time at 1 2, gets at 1 2.
  destruct (st_clock s - t0 <? CLICK_NEW_WINDOW_WAIT)%Z; [|reflexivity].
  rewrite !run_bind.
  change (window_handles (with_perf_urls f w) s) with (window_handles w s).
  destruct (window_handles w s) as [[hs|e] s1]; [|reflexivity].
  destruct (elements (list_to_set hs ∖ base)) as [|new_win rest].
  - rewrite !run_bind.
    change (sleep (with_perf_urls f w) 300 s1) with (sleep w 300 s1).
    destruct (sleep w 300 s1) as [[[]|e] s2]; [apply IH | reflexivity].
  - reflexivity.
Qed.

(** When probe A set [got_one], the run is the same whatever the network
    trace holds. *)
Lemma run_probes_trace_free (f : nat -> list string) (selid : option string)
    (base : gset string) (wd : Path) (s sA : State) :
  try_except
    (t0 ← time_time ;
     wait_new_window w NEW_WINDOW_FUEL t0 base wd)
    (fun e => say ("        检查新窗口异常: " ++ exn_msg e)%string)
    (set_got_one false s) = (Ok tt, sA) ->
  st_got_one sA = true ->
  run_probes (with_perf_urls f w) selid base wd s = (Ok tt, sA).
Proof.
  intros HA Hg. unfold run_probes. rewrite run_bind. unfold modify at 1.
  rewrite run_bind.
  match goal with
  | |- context [try_except ?m ?h (set_got_one false s)] =>
      assert (try_except m h (set_got_one false s) = (Ok tt, sA)) as ->
  end.
  { rewrite <- HA. rewrite !run_try_except, !run_bind.
    unfold time_time at 1 2, gets at 1 2.
    rewrite wait_new_window_trace_free. reflexivity. }
  rewrite run_bind. unfold gets at 1. rewrite Hg. reflexivity.
Qed.

End ProbePhases.

(** C2: after the click the three probes run in the order new window,
    network trace, DOM container.  The calls made split into three
    consecutive runs, one per probe.  The first is never empty: it
    starts with a poll of the window handles, and there are at most 27
    such polls (the clock bound is enough, the model never runs out of
    fuel).  If a download of the first run completes, nothing follows:
    the trace is not read and the container is not looked up, and the
    outcome is the same whatever the network trace holds, so a new
    window that yields the file wins over any trace match.  Otherwise
    the second run starts with a read of the trace, and there are at
    most 6 such reads.  If a download of the second run completes, the
    third run is empty.  Otherwise, when the probes return, the third
    run starts with the lookup of the container the click handler named,
    if it named one, and ends with the pause of 0.3 s.  What is appended
    to [downloaded] is exactly what the completed downloads wrote. *)
Theorem probes_run_in_order (w : World) (selid : option string)
    (base_handles : gset string) (work_dir : Path) (s : State) :
  exists r s' evA evB evC,
    run_probes w selid base_handles work_dir s = (r, s')
    /\ new_events s s' = evA ++ evB ++ evC
    /\ Forall (fun ev => is_window_probe ev = true) evA
    /\ Forall (fun ev => is_trace_probe ev = true) evB
    /\ Forall (fun ev => is_container_probe ev = true) evC
    /\ count_events is_window_poll evA <= 27
    /\ count_events is_trace_poll evB <= 6
    /\ st_stuck s' = st_stuck s
    /\ (exists h rest, evA = EvWindowHandles h :: rest)
    /\ (completed_downloads evA <> [] ->
        evB = [] /\ evC = [] /\ r = Ok tt
        /\ forall f, run_probes (with_perf_urls f w) selid base_handles
                       work_dir s = (r, s'))
    /\ (completed_downloads evA = [] ->
        exists urls rest, evB = EvPerfUrls urls :: rest)
    /\ (completed_downloads evB <> [] -> evC = [])
    /\ (r = Ok tt -> completed_downloads (evA ++ evB) = [] ->
        exists mid,
          evC = mid ++ [EvSleep 300]
          /\ (nonempty (or_empty selid) = true ->
              exists rr rest,
                mid = EvFindElementById (or_empty selid) rr :: rest)
          /\ (nonempty (or_empty selid) = false -> mid = []))
    /\ map path_str (new_downloaded s s')
       = completed_downloads (evA ++ evB ++ evC).
Proof.
  unfold run_probes. rewrite run_bind. unfold modify at 1.
  set (s0 := set_got_one false s).
  assert (forall x, new_events s x = new_events s0 x) as Hne by reflexivity.
  assert (forall x, new_downloaded s x = new_downloaded s0 x) as Hnd by reflexivity.
  assert (st_stuck s0 = st_stuck s) as Hst0 by reflexivity.
  assert (st_got_one s0 = false) as Hg0 by reflexivity.
  destruct (window_probe_run w base_handles work_dir s0)
    as (sA & HA & HtA & HcA & HfA).
  pose proof (tracks_got_one is_window_probe s0 sA HtA Hg0) as HgotA.
  rewrite run_bind, HA, run_bind. unfold gets at 1.
  destruct (st_got_one sA) eqn:HgA.
  { (* the new window yielded the file *)
    assert (completed_downloads (new_events s0 sA) <> []) as HdlA.
    { intros H. apply HgotA in H. discriminate H. }
    exists (Ok tt), sA, (new_events s0 sA), [], [].
    destruct (phases_assemble _ _ _ s0 sA sA sA HtA
                (tracks_refl is_trace_probe sA) (tracks_refl is_container_probe sA))
      as (Hev & Hs & Hd).
    rewrite !new_events_self in *.
    rewrite Hne, Hnd, Hs.
    split; [reflexivity|]. split; [exact Hev|].
    split; [exact (proj1 (proj2 HtA))|].
    split; [constructor|]. split; [constructor|].
    split; [exact HcA|]. split; [unfold count_events; simpl; lia|].
    split; [exact Hst0|]. split; [exact HfA|].
    split.
    { intros _. split; [reflexivity|]. split; [reflexivity|].
      split; [reflexivity|]. intros f.
      exact (run_probes_trace_free w f selid base_handles work_dir s sA HA HgA). }
    split; [intros H; contradiction|].
    split; [reflexivity|].
    split; [intros _ H; rewrite app_nil_r in H; contradiction|].
    exact Hd. }
  pose proof (proj1 HgotA eq_refl) as HnoA.
  rewrite run_bind.
  destruct (poll_run w PERF_POLL_ITER sA) as (rB & sB1 & HB & HtB1 & HcB & HfB).
  rewrite HB.
  destruct HfB as (urls & restB1 & HfB); [unfold PERF_POLL_ITER; lia|].
  assert (forall (r : Res unit) (sB sC : State),
            tracks is_trace_probe sA sB ->
            count_events is_trace_poll (new_events sA sB) <= 6 ->
            (exists rest, new_events sA sB = EvPerfUrls urls :: rest) ->
            tracks is_container_probe sB sC ->
            (st_got_one sB = true -> sC = sB) ->
            (r = Ok tt -> st_got_one sB = false ->
             exists mid,
               new_events sB sC = mid ++ [EvSleep 300]
               /\ (nonempty (or_empty selid) = true ->
                   exists rr rest,
                     mid = EvFindElementById (or_empty selid) rr :: rest)
               /\ (nonempty (or_empty selid) = false -> mid = [])) ->
            exists evA evB evC,
              new_events s sC = evA ++ evB ++ evC
              /\ Forall (fun ev => is_window_probe ev = true) evA
              /\ Forall (fun ev => is_trace_probe ev = true) evB
              /\ Forall (fun ev => is_container_probe ev = true) evC
              /\ count_events is_window_poll evA <= 27
              /\ count_events is_trace_poll evB <= 6
              /\ st_stuck sC = st_stuck s
              /\ (exists h rest, evA = EvWindowHandles h :: rest)
              /\ (completed_downloads evA <> [] ->
                  evB = [] /\ evC = [] /\ r = Ok tt
                  /\ forall f, run_probes (with_perf_urls f w) selid
                                 base_handles work_dir s = (r, sC))
              /\ (completed_downloads evA = [] ->
                  exists urls rest, evB = EvPerfUrls urls :: rest)
              /\ (completed_downloads evB <> [] -> evC = [])
              /\ (r = Ok tt -> completed_downloads (evA ++ evB) = [] ->
                  exists mid,
                    evC = mid ++ [EvSleep 300]
                    /\ (nonempty (or_empty selid) = true ->
                        exists rr rest,
                          mid = EvFindElementById (or_empty selid) rr :: rest)
                    /\ (nonempty (or_empty selid) = false -> mid = []))
              /\ map path_str (new_downloaded s sC)
                 = completed_downloads (evA ++ evB ++ evC)) as Hfinish.
  { intros r sB sC HtB HcB' HfB' HtC Hskip HC.
    pose proof (tracks_got_one is_trace_probe sA sB HtB HgA) as HgotB.
    exists (new_events s0 sA), (new_events sA sB), (new_events sB sC).
    destruct (phases_assemble _ _ _ s0 sA sB sC HtA HtB HtC) as (Hev & Hs & Hd).
    rewrite Hne, Hnd, Hs.
    split; [exact Hev|].
    split; [exact (proj1 (proj2 HtA))|].
    split; [exact (proj1 (proj2 HtB))|].
    split; [exact (proj1 (proj2 HtC))|].
    split; [exact HcA|]. split; [exact HcB'|]. split; [exact Hst0|].
    split; [exact HfA|].
    split; [intros Hc; contradiction|].
    split; [intros _; destruct HfB' as [rest ->]; eauto|].
    split.
    { intros Hc. destruct (st_got_one sB) eqn:HgB.
      - rewrite (Hskip eq_refl). apply new_events_self.
      - exfalso. apply Hc. apply HgotB. reflexivity. }
    split; [|exact Hd].
    intros Hr Hc. apply HC; [exact Hr|].
    apply HgotB. rewrite completed_downloads_app, HnoA in Hc. exact Hc. }
  destruct rB as [perf_found|e].
  2:{ (* reading the page address raised while the trace was searched *)
      exists (Raise e), sB1.
      destruct (Hfinish (Raise e) sB1 sB1 HtB1) as (evA & evB & evC & H);
        [unfold PERF_POLL_ITER in HcB; exact HcB
        |eauto | apply tracks_refl | reflexivity | discriminate |].
      exists evA, evB, evC. split; [reflexivity | exact H]. }
  assert (exists sB,
            match perf_found with
            | Some u =>
                say ("        从 performance logs 找到: " ++ u)%string ;;
                fetch_found w NetworkTrace u work_dir
            | None => mret tt
            end sB1 = (Ok tt, sB)
            /\ tracks is_trace_probe sA sB
            /\ count_events is_trace_poll (new_events sA sB) <= 6
            /\ exists rest, new_events sA sB = EvPerfUrls urls :: rest)
    as (sB & HrunB & HtB & HcB2 & HfB2).
  { destruct perf_found as [u|].
    - rewrite run_bind. unfold say at 1, modify at 1.
      set (sB0 := set_messages _ sB1).
      assert (tracks is_trace_probe sB1 sB0) as Hsay
        by (apply (tracks_calls _ _ _ []); auto using app_nil_r).
      pose proof (fetch_found_weaken w is_trace_probe NetworkTrace u work_dir
                    download_is_trace_probe sB0) as Hf.
      assert (new_events sB1 sB0 = []) as Hev0 by (apply new_events_nil; reflexivity).
      destruct (fetch_found w NetworkTrace u work_dir sB0) as [rf sB] eqn:Hrf.
      assert (rf = Ok tt) as ->.
      { revert Hrf. unfold fetch_found. rewrite run_bind.
        destruct (download_run w NetworkTrace u work_dir None sB0)
          as (r & s1 & evs & Hrun & _).
        rewrite Hrun. destruct r; unfold_run; congruence. }
      exists sB. cbn [snd] in Hf.
      split; [reflexivity|].
      assert (tracks is_trace_probe sB1 sB) as H1
        by exact (tracks_trans _ _ _ _ Hsay Hf).
      split; [exact (tracks_trans _ _ _ _ HtB1 H1)|].
      rewrite (new_events_trans sA sB1 sB (proj1 HtB1) (proj1 H1)).
      rewrite (new_events_trans sB1 sB0 sB (proj1 Hsay) (proj1 Hf)).
      rewrite Hev0. split; [|rewrite HfB; cbn [app]; eauto].
      rewrite !count_events_app.
      assert (count_events is_trace_poll (new_events sB0 sB) = 0) as ->.
      { destruct (tracks_fetch_found w NetworkTrace u work_dir sB0) as (_ & HP & _).
        rewrite Hrf in HP. cbn [snd] in HP.
        apply (count_events_none _ (is_download_from NetworkTrace)); [|exact HP].
        intros ev. destruct ev; auto; discriminate. }
      unfold PERF_POLL_ITER in HcB. unfold count_events at 2. simpl length. lia.
    - exists sB1. split; [reflexivity|]. split; [exact HtB1|].
      unfold PERF_POLL_ITER in HcB. split; [exact HcB | eauto]. }
  rewrite run_bind, HrunB, run_bind. unfold gets at 1.
  destruct (st_got_one sB) eqn:HgB.
  { (* the trace yielded the file *)
    exists (Ok tt), sB.
    destruct (Hfinish (Ok tt) sB sB HtB HcB2 HfB2) as (evA & evB & evC & H);
      [apply tracks_refl | reflexivity | intros _ Hg; congruence |].
    exists evA, evB, evC. split; [reflexivity | exact H]. }
  destruct (container_run w selid work_dir sB)
    as (sC & mid & HrunC & HtC & HevC & Hmid1 & Hmid2).
  rewrite HrunC. exists (Ok tt), sC.
  destruct (Hfinish (Ok tt) sB sC HtB HcB2 HfB2 HtC) as (evA & evB & evC & H);
    [congruence | intros _ _; exists mid; auto |].
  exists evA, evB, evC. split; [reflexivity | exact H].
Qed.

(** C2, witness: the click opens a window on the file while the trace
    holds a link to a file too.  The trace, had it been read, would have
    given its link; the file of the new window is the one downloaded,
    and the trace is never read. *)
Lemma probes_run_in_order_witness :
  (poll_perf_logs both_world PERF_POLL_ITER init_state).1
  = Ok (Some "http://site/files/trace.pdf")
  /\ st_downloaded
       (run_probes both_world None {[ "main" ]} (task_work_dir "7")
          init_state).2
     = [mkPath (path_str (task_work_dir "7")) "a.pdf"]
  /\ count_events is_trace_poll
       (st_trace (run_probes both_world None {[ "main" ]} (task_work_dir "7")
                    init_state).2) = 0
  /\ exists r s' evA evB evC,
       run_probes both_world None {[ "main" ]} (task_work_dir "7") init_state
       = (r, s')
       /\ new_events init_state s' = evA ++ evB ++ evC
       /\ Forall (fun ev => is_window_probe ev = true) evA
       /\ Forall (fun ev => is_trace_probe ev = true) evB
       /\ Forall (fun ev => is_container_probe ev = true) evC
       /\ count_events is_window_poll evA <= 27
       /\ count_events is_trace_poll evB <= 6
       /\ st_stuck s' = st_stuck init_state
       /\ (exists h rest, evA = EvWindowHandles h :: rest)
       /\ (completed_downloads evA <> [] ->
           evB = [] /\ evC = [] /\ r = Ok tt
           /\ forall f, run_probes (with_perf_urls f both_world) None
                          {[ "main" ]} (task_work_dir "7") init_state
                        = (r, s'))
       /\ (completed_downloads evA = [] ->
           exists urls rest, evB = EvPerfUrls urls :: rest)
       /\ (completed_downloads evB <> [] -> evC = [])
       /\ (r = Ok tt -> completed_downloads (evA ++ evB) = [] ->
           exists mid,
             evC = mid ++ [EvSleep 300]
             /\ (nonempty (or_empty None) = true ->
                 exists rr rest,
                   mid = EvFindElementById (or_empty None) rr :: rest)
             /\ (nonempty (or_empty None) = false -> mid = []))
       /\ map path_str (new_downloaded init_state s')
          = completed_downloads (evA ++ evB ++ evC).
Proof.
  split; [vm_compute; reflexivity|].
  split; [vm_compute; reflexivity|].
  split; [vm_compute; reflexivity|].
  apply (probes_run_in_order both_world None {[ "main" ]} (task_work_dir "7")
           init_state).
Defined.

(** ** The single-task processor *)

Section Task.

Context (w : World).

Lemma nr_run {A} (m : M A) (s : State) :
  never_raises m -> exists a s', m s = (Ok a, s').
Proof.
  intros H. destruct (H s) as [a Ha]. destruct (m s) as [r s'].
  simpl in Ha. subst r. eauto.
Qed.

Lemma try_finally_run {A} (m : M A) (fin : M unit) (s s1 : State) (r : Res A) :
  never_raises fin -> m s = (r, s1) ->
  exists s2, try_finally m fin s = (r, s2) /\ (fin s1).2 = s2.
Proof.
  intros Hfin Hm. unfold try_finally. rewrite Hm.
  destruct (nr_run fin s1 Hfin) as ([] & s2 & ->). eauto.
Qed.

Lemma task_failed_run (task_id : string) (e : exn) (s : State) :
  exists res s',
    task_failed w task_id e s = (Ok res, s')
    /\ res_status res = Some "error"
    /\ res_message res = exn_msg e.
Proof.
  unfold task_failed. rewrite run_bind. unfold log at 1, modify at 1.
  rewrite run_bind. unfold say at 1, modify at 1. rewrite run_bind.
  match goal with
  | |- context [quit_driver w ?s0] =>
      destruct (nr_run (quit_driver w) s0 (nr_quit_driver w)) as ([] & s1 & ->)
  end.
  do 2 eexists. split; [reflexivity|]. split; reflexivity.
Qed.

Lemma finish_task_run (task_id title : string) (downloaded : list Path)
    (s : State) :
  exists res s',
    finish_task w task_id title downloaded s = (Ok res, s')
    /\ (downloaded = [] ->
        res_status res = Some "no_content"
        /\ res !! "uploaded" = None
        /\ st_trace s' = st_trace s)
    /\ (downloaded <> [] -> res_status res = Some "success").
Proof.
  unfold finish_task. destruct downloaded as [|f fs]; cbn [is_nil].
  - do 2 eexists. split; [reflexivity|].
    split; [intros _; repeat split | intros H; congruence].
  - rewrite run_bind. unfold modify at 1. rewrite run_bind.
    match goal with
    | |- context [for_each ?l ?body ?s0] =>
        destruct (nr_run (for_each l body) s0) as ([] & s1 & ->)
    end.
    { apply nr_for_each. intros x. unfold process_download.
      pose proof (nr_extract_and_upload w). nr_go. }
    do 2 eexists. split; [reflexivity|].
    split; [intros H; discriminate | intros _; reflexivity].
Qed.

(** What follows the page title never raises and reports success or no
    content. *)
Lemma after_title_run (task_id title : string) (s : State) :
  exists res s',
    (say ("  页面标题(前15): " ++ title)%string ;;
     session_from_driver w ;;
     downloaded ← run_strategies w task_id title (task_work_dir task_id) ;
     finish_task w task_id title downloaded) s = (Ok res, s')
    /\ (res_status res = Some "success" \/ res_status res = Some "no_content").
Proof.
  rewrite run_bind. unfold say at 1, modify at 1. rewrite run_bind.
  match goal with
  | |- context [session_from_driver w ?s0] =>
      destruct (nr_run (session_from_driver w) s0) as ([] & s1 & ->);
        [unfold session_from_driver; nr_go|]
  end.
  rewrite run_bind.
  destruct (nr_run (run_strategies w task_id title (task_work_dir task_id)) s1
              (nr_run_strategies w _ _ _)) as (downloaded & s2 & ->).
  destruct (finish_task_run task_id title downloaded s2)
    as (res & s3 & -> & Hnil & Hcons).
  exists res, s3. split; [reflexivity|].
  destruct downloaded; [right; apply Hnil; reflexivity | left; apply Hcons; discriminate].
Qed.

End Task.

(** C9, as amended: once the working directory is in place,
    [handle_single_task] returns a result mapping whose status is success,
    no_content or error, and the status is error exactly when the stage
    that creates the browser session, navigates to the page and reads the
    page title raises.  Whatever fails later (in the strategies, the
    downloads, the expansion of archives, the uploads) ends in success or
    no_content. *)
Theorem handle_single_task_status (w : World) (task_id url : string)
    (s s0 : State) :
  prepare_work_dir w task_id s = (Ok tt, s0) ->
  exists res s',
    handle_single_task w task_id url s = (Ok res, s')
    /\ (res_status res = Some "success"
        \/ res_status res = Some "no_content"
        \/ res_status res = Some "error")
    /\ (res_status res = Some "error" <->
        exists e s1,
          open_page w (task_work_dir task_id) url (set_driver false s0)
          = (Raise e, s1)).
Proof.
  intros Hprep. unfold handle_single_task.
  rewrite run_bind, Hprep, run_bind. unfold modify at 1.
  assert (exists res s1,
            try_except (task_body w task_id url (task_work_dir task_id))
              (task_failed w task_id) (set_driver false s0) = (Ok res, s1)
            /\ (res_status res = Some "success"
                \/ res_status res = Some "no_content"
                \/ res_status res = Some "error")
            /\ (res_status res = Some "error" <->
                exists e s1,
                  open_page w (task_work_dir task_id) url (set_driver false s0)
                  = (Raise e, s1))) as (res & s1 & Hbody & Hst & Hiff).
  { rewrite run_try_except. unfold task_body. rewrite run_bind.
    destruct (open_page w (task_work_dir task_id) url (set_driver false s0))
      as [[title|e] s1] eqn:Hopen.
    - destruct (after_title_run w task_id title s1) as (res & s2 & -> & Hres).
      exists res, s2. split; [reflexivity|]. split; [tauto|].
      split.
      + intros Herr. destruct Hres as [H|H]; congruence.
      + intros (e & s3 & [=]).
    - destruct (task_failed_run w task_id e s1) as (res & s2 & -> & Hres & _).
      exists res, s2. split; [reflexivity|]. split; [tauto|].
      split; eauto. }
  destruct (try_finally_run _ (quit_driver w) _ _ _ (nr_quit_driver w) Hbody)
    as (s2 & -> & _).
  exists res, s2. auto.
Qed.

(** C9, witness: the quiet environment. *)
Lemma handle_single_task_status_witness :
  exists res s',
    handle_single_task quiet_world "7" "http://site/detail/7" init_state
    = (Ok res, s')
    /\ (res_status res = Some "success"
        \/ res_status res = Some "no_content"
        \/ res_status res = Some "error")
    /\ (res_status res = Some "error" <->
        exists e s1,
          open_page quiet_world (task_work_dir "7") "http://site/detail/7"
            (set_driver false (prepare_work_dir quiet_world "7" init_state).2)
          = (Raise e, s1)).
Proof.
  apply (handle_single_task_status quiet_world "7" "http://site/detail/7"
           init_state).
  vm_compute. reflexivity.
Defined.

(** C9, counterexample: the session is created and the page is reached,
    yet the status is error, because neither the headings nor the title
    of the page can be read. *)
Lemma title_failure_is_task_error :
  match (handle_single_task no_title_world "7" "http://site/detail/7"
           init_state).1 with
  | Ok res => res_status res
  | Raise _ => None
  end = Some "error"
  /\ existsb session_or_navigation_failed
       (st_trace (handle_single_task no_title_world "7" "http://site/detail/7"
                    init_state).2) = false
  /\ In (EvCmd (CmdGet "http://site/detail/7") (Ok tt))
        (st_trace (handle_single_task no_title_world "7" "http://site/detail/7"
                     init_state).2).
Proof.
  split; [vm_compute; reflexivity|].
  split; [vm_compute; reflexivity|].
  vm_compute. do 6 right. left. reflexivity.
Qed.

(** ** The task that finds nothing *)

Section NoContent.

Context (w : World).

(** The calls of the purge of the working directory are not uploads. *)
Lemma prepare_no_upload (task_id : string) (s : State) :
  exists evs,
    st_trace (prepare_work_dir w task_id s).2 = st_trace s ++ evs
    /\ Forall (fun ev => is_upload ev = false) evs.
Proof.
  unfold prepare_work_dir. unfold_run. unfold path_exists, rmtree. unfold_run.
  destruct (bool_decide _); simpl_state; case_answer; simpl_state;
    eexists; rewrite <- ?app_assoc; (split; [reflexivity|]);
    repeat constructor.
Qed.

Lemma scraping_no_upload (ev : event) :
  is_scraping ev = true -> is_upload ev = false.
Proof.
  unfold is_scraping. intros H. apply andb_true_iff in H as [_ H].
  apply negb_true_iff in H. exact H.
Qed.

End NoContent.

(** C5: when the strategies are reached and return no file, the result
    of the task has status no_content and no list of uploaded names (the
    route reads it as the empty list and reports that no attachment was
    found); no upload was attempted during the task. *)
Theorem no_downloads_no_content (w : World) (task_id url title : string)
    (s s2 s3 : State) :
  reach_strategies w task_id url s = (Ok title, s2) ->
  run_strategies w task_id title (task_work_dir task_id) s2 = (Ok [], s3) ->
  exists res s',
    handle_single_task w task_id url s = (Ok res, s')
    /\ res_status res = Some "no_content"
    /\ res_uploaded res = []
    /\ res !! "uploaded" = None
    /\ task_report task_id res = ("ID " ++ task_id ++ ": 未找到任何附件")%string
    /\ Forall (fun ev => is_upload ev = false) (new_events s s').
Proof.
  intros Hreach Hrun.
  unfold reach_strategies in Hreach. rewrite run_bind in Hreach.
  destruct (prepare_no_upload w task_id s) as (evs0 & Ht0 & Hup0).
  destruct (prepare_work_dir w task_id s) as [[[]|e0] s0] eqn:Hprep;
    [|discriminate Hreach].
  cbn [snd] in Ht0.
  rewrite run_bind in Hreach. unfold modify at 1 in Hreach.
  rewrite run_bind in Hreach.
  pose proof (keeps_open_page w (task_work_dir task_id) url (set_driver false s0))
    as Hk1.
  destruct (open_page w (task_work_dir task_id) url (set_driver false s0))
    as [[title'|e1] s1] eqn:Hopen; [|discriminate Hreach].
  cbn [snd] in Hk1.
  rewrite run_bind in Hreach. unfold say at 1, modify at 1 in Hreach.
  rewrite run_bind in Hreach.
  set (s1' := set_messages (st_messages s1 ++ [("  页面标题(前15): " ++ title')%string]) s1) in *.
  assert (keeps is_scraping (session_from_driver w)) as Hks
    by (unfold session_from_driver; keeps_go).
  specialize (Hks s1').
  destruct (session_from_driver w s1') as [[[]|e2] s2'] eqn:Hsess;
    [|discriminate Hreach].
  cbn [snd] in Hks. unfold mret, M_ret in Hreach.
  injection Hreach as -> ->.
  pose proof (keeps_run_strategies w task_id title (task_work_dir task_id) s2) as Hk3.
  rewrite Hrun in Hk3. cbn [snd] in Hk3.
  (* the run of the task *)
  assert (task_body w task_id url (task_work_dir task_id) (set_driver false s0)
          = finish_task w task_id title [] s3) as Hbody.
  { unfold task_body. rewrite run_bind, Hopen, run_bind.
    unfold say at 1, modify at 1. fold s1'.
    rewrite run_bind, Hsess, run_bind, Hrun. reflexivity. }
  destruct (finish_task_run w task_id title [] s3)
    as (res & s4 & Hfin & Hnil & _).
  destruct (Hnil eq_refl) as (Hst & Hupl & Ht4).
  assert (try_except (task_body w task_id url (task_work_dir task_id))
            (task_failed w task_id) (set_driver false s0) = (Ok res, s4)) as Htry.
  { rewrite run_try_except, Hbody, Hfin. reflexivity. }
  destruct (try_finally_run _ (quit_driver w) _ _ _ (nr_quit_driver w) Htry)
    as (s5 & Hfinal & Hquit).
  exists res, s5. split.
  { unfold handle_single_task. rewrite run_bind, Hprep, run_bind.
    unfold modify at 1. exact Hfinal. }
  split; [exact Hst|].
  split; [unfold res_uploaded; rewrite Hupl; reflexivity|].
  split; [exact Hupl|].
  split.
  { unfold task_report. rewrite Hst. reflexivity. }
  (* no upload among the calls *)
  pose proof (keeps_quit_driver w s4) as Hk5. rewrite Hquit in Hk5.
  assert (grows is_scraping (set_driver false s0) s5) as Hg.
  { etrans; [exact Hk1|]. etrans; [|etrans; [exact Hks|]].
    - apply grows_local; reflexivity.
    - etrans; [exact Hk3|]. etrans; [|exact Hk5].
      apply grows_local; [exact Ht4|].
      unfold finish_task in Hfin. cbn [is_nil] in Hfin. revert Hfin.
      unfold_run. intros [= _ <-]. reflexivity. }
  destruct Hg as (_ & evs & Ht5 & HP & _). simpl_state_all.
  rewrite (new_events_app s s5 (evs0 ++ evs));
    [|rewrite Ht5, Ht0, app_assoc; reflexivity].
  apply Forall_app. split; [exact Hup0|].
  eapply Forall_impl; [exact HP | exact scraping_no_upload].
Qed.

(** C5, witness: the page of the quiet environment has no candidate and
    no link. *)
Lemma no_downloads_no_content_witness :
  exists res s',
    handle_single_task quiet_world "7" "http://site/detail/7" init_state
    = (Ok res, s')
    /\ res_status res = Some "no_content"
    /\ res_uploaded res = []
    /\ res !! "uploaded" = None
    /\ task_report "7" res = "ID 7: 未找到任何附件"
    /\ Forall (fun ev => is_upload ev = false) (new_events init_state s').
Proof.
  eapply (no_downloads_no_content quiet_world "7" "http://site/detail/7" ""
            init_state).
  - vm_compute. reflexivity.
  - vm_compute. reflexivity.
Defined.

(** ** The working directory *)

Section WorkDir.

Context (w : World).

(** The purge: what is outside the working directory stays; inside it,
    only what resisted deletion is left. *)
Lemma prepare_purge (task_id : string) (s : State) :
  work_dir_consistent task_id s ->
  exists r s0,
    prepare_work_dir w task_id s = (r, s0)
    /\ (forall p, p ∈ st_fs s ->
                  under (path_str (task_work_dir task_id)) p = false ->
                  p ∈ st_fs s0)
    /\ (r = Ok tt ->
        path_str (task_work_dir task_id) ∈ st_fs s0
        /\ forall p, p ∈ st_fs s0 ->
                     under (path_str (task_work_dir task_id)) p = true ->
                     p <> path_str (task_work_dir task_id) ->
                     p ∈ st_fs s
                     /\ w_rmtree_left w (length (st_trace s))
                          (path_str (task_work_dir task_id)) p = true).
Proof.
  intros Hcons. unfold prepare_work_dir. unfold_run.
  unfold path_exists, rmtree. unfold_run.
  set (wd := path_str (task_work_dir task_id)) in *.
  destruct (bool_decide (wd ∈ st_fs s)) eqn:Hin; simpl_state; case_answer;
    simpl_state; do 2 eexists; (split; [reflexivity|]); split;
    try (intros Hr; discriminate Hr).
  - intros p Hp Hu. apply elem_of_union. right.
    apply elem_of_filter. rewrite Hu. auto.
  - intros _. split; [set_solver|]. intros p Hp Hu Hne.
    apply elem_of_union in Hp as [Hp|Hp]; [set_solver|].
    apply elem_of_filter in Hp as [Hf Hp]. split; [exact Hp|].
    rewrite Hu in Hf. cbn [andb] in Hf. apply negb_false_iff in Hf. exact Hf.
  - intros p Hp Hu. apply elem_of_filter. rewrite Hu. auto.
  - intros p Hp Hu. set_solver.
  - intros _. split; [set_solver|]. intros p Hp Hu Hne.
    apply elem_of_union in Hp as [Hp|Hp]; [set_solver|].
    apply bool_decide_eq_false in Hin. exfalso. apply Hin.
    exact (Hcons p Hp Hu).
  - intros p Hp Hu. exact Hp.
Qed.

(** What follows the purge deletes nothing. *)
Lemma keeps_after_prepare (task_id url : string) :
  keeps is_keeping
    (modify (set_driver false) ;;
     try_finally
       (try_except (task_body w task_id url (task_work_dir task_id))
                   (task_failed w task_id))
       (quit_driver w)).
Proof.
  pose proof (keeps_task_body w task_id url).
  pose proof (keeps_task_failed w task_id).
  pose proof (keeps_weaken _ _ _ scraping_keeping (keeps_quit_driver w)).
  keeps_go.
Qed.

Lemma keeping_no_rmtree (ev : event) :
  is_keeping ev = true -> is_rmtree ev = false.
Proof. unfold is_keeping. apply negb_true_iff. Qed.

(** The task, in relational form. *)
Lemma task_keeps_work_dir (task_id url : string) (s : State) :
  exists r0 s0 r s',
    prepare_work_dir w task_id s = (r0, s0)
    /\ handle_single_task w task_id url s = (r, s')
    /\ grows is_keeping s0 s'.
Proof.
  destruct (prepare_work_dir w task_id s) as [r0 s0] eqn:Hprep.
  unfold handle_single_task. rewrite run_bind, Hprep.
  destruct r0 as [[]|e].
  - pose proof (keeps_after_prepare task_id url s0) as Hk.
    match type of Hk with
    | grows _ _ (?m s0).2 => destruct (m s0) as [r s'] eqn:Hrun
    end.
    exists (Ok tt), s0, r, s'. cbn [snd] in Hk. auto.
  - exists (Raise e), s0, (Raise e), s0.
    split; [reflexivity|]. split; [reflexivity | apply grows_refl].
Qed.

End WorkDir.

(** C6, as amended: for a task whose identifier is one path component,
    the working directory is the directory of that name under the root
    of the working directories.  At the start of the task it is purged
    and made again: nothing outside it is touched, and when the task
    goes on the directory exists and holds only what resisted deletion
    (the purge ignores its failures), so it is empty when nothing did.
    From then on, whatever the outcome (success, no content, error),
    nothing is deleted: what exists on the disk keeps existing, no call
    removes a directory, and every file a download opened for writing is
    still there when the task returns.  What lies in the working
    directory of a task with another such identifier is never touched. *)
Theorem work_dir_purged_at_start_only (w : World) (task_id url : string)
    (s : State) :
  is_component task_id = true ->
  work_dir_consistent task_id s ->
  let wd := path_str (task_work_dir task_id) in
  let s0 := (prepare_work_dir w task_id s).2 in
  let s' := (handle_single_task w task_id url s).2 in
  wd = (DOWNLOAD_WORK_DIR ++ "/" ++ task_id)%string
  /\ (forall p, p ∈ st_fs s -> under wd p = false -> p ∈ st_fs s0)
  /\ ((prepare_work_dir w task_id s).1 = Ok tt ->
      wd ∈ st_fs s0
      /\ forall p, p ∈ st_fs s0 -> under wd p = true -> p <> wd ->
                   p ∈ st_fs s
                   /\ w_rmtree_left w (length (st_trace s)) wd p = true)
  /\ st_fs s0 ⊆ st_fs s'
  /\ st_trace s' = st_trace s0 ++ new_events s0 s'
  /\ Forall (fun ev => is_rmtree ev = false) (new_events s0 s')
  /\ (forall p, In (EvOpenWrite p (Ok tt)) (new_events s0 s') -> p ∈ st_fs s')
  /\ (forall other p,
        is_component other = true -> other <> task_id ->
        p ∈ st_fs s -> under (path_str (task_work_dir other)) p = true ->
        p ∈ st_fs s').
Proof.
  intros Hid Hcons wd s0 s'. subst wd s0 s'.
  destruct (prepare_purge w task_id s Hcons) as (r0 & s0 & Hprep & Hout & Hin).
  destruct (task_keeps_work_dir w task_id url s)
    as (r0' & s0' & r & s' & Hprep' & -> & Hg).
  rewrite Hprep in Hprep'. injection Hprep' as <- <-.
  rewrite Hprep. cbn [fst snd].
  destruct Hg as (Hfs & evs & Ht & HP & Hw).
  rewrite (new_events_app s0 s' evs Ht).
  split; [apply task_work_dir_component; exact Hid|].
  split; [exact Hout|]. split; [exact Hin|].
  split; [exact Hfs|]. split; [exact Ht|].
  split; [eapply Forall_impl; [exact HP | exact (keeping_no_rmtree)]|].
  split; [exact Hw|].
  intros other p Hother Hne Hp Hu. apply Hfs, Hout; [exact Hp|].
  rewrite (task_work_dir_component _ Hother) in Hu.
  rewrite (task_work_dir_component _ Hid).
  apply (under_sibling _ task_id other p);
    auto using component_no_slash.
Qed.

(** C6, witness: task 7 starts on a disk that still holds a file of an
    earlier run, which can be deleted, and downloads a PDF. *)
Lemma work_dir_purged_witness :
  is_component "7" = true
  /\ work_dir_consistent "7" stale_state
  /\ ~ ((path_str (task_work_dir "7") ++ "/old.pdf")%string
         ∈ st_fs (prepare_work_dir direct_href_world "7" stale_state).2)
  /\ ((path_str (task_work_dir "7") ++ "/a.pdf")%string
      ∈ st_fs (handle_single_task direct_href_world "7" "http://site/detail/7"
                 stale_state).2).
Proof.
  assert (work_dir_consistent "7" stale_state) as Hcons.
  { intros p _ _. unfold stale_state. cbn [st_fs]. set_solver. }
  split; [reflexivity|]. split; [exact Hcons|].
  destruct (work_dir_purged_at_start_only direct_href_world "7"
              "http://site/detail/7" stale_state eq_refl Hcons)
    as (_ & _ & Hfresh & _ & _ & _ & Hwritten & _).
  split.
  - intros Hin. destruct Hfresh as [_ Hleft]; [vm_compute; reflexivity|].
    destruct (Hleft _ Hin) as [_ Hl];
      [vm_compute; reflexivity | intros Heq; vm_compute in Heq; discriminate Heq |].
    vm_compute in Hl. discriminate Hl.
  - apply Hwritten. vm_compute. repeat (first [left; reflexivity | right]).
Defined.

(** C6, counterexample: a file that resists deletion is still in the
    working directory of task 7 when the task has started, so the
    directory is not empty; and the file task 7 downloaded is deleted by
    a run whose identifier is a single dot, which is not a run of task 7:
    that identifier names the root of all working directories. *)
Lemma work_dir_not_emptied_nor_private :
  ((prepare_work_dir sticky_world "7" stale_state).1 = Ok tt
   /\ (path_str (task_work_dir "7") ++ "/old.pdf")%string
      ∈ st_fs (prepare_work_dir sticky_world "7" stale_state).2)
  /\ ((path_str (task_work_dir "7") ++ "/a.pdf")%string
      ∈ st_fs downloaded_state
      /\ ~ ((path_str (task_work_dir "7") ++ "/a.pdf")%string
            ∈ st_fs (handle_single_task quiet_world "." "http://site/detail/7"
                       downloaded_state).2)).
Proof.
  split; [split; [vm_compute; reflexivity|]|split].
  - apply (bool_decide_eq_true_1 _). vm_compute. reflexivity.
  - apply (bool_decide_eq_true_1 _). vm_compute. reflexivity.
  - apply (bool_decide_eq_false_1 _). vm_compute. reflexivity.
Qed.


(** * Further properties of the code *)

(** ** File names *)

Section Names.

Lemma all_chars_impl (p q : ascii -> bool) (s : string) :
  (forall c, p c = true -> q c = true) ->
  all_chars p s = true -> all_chars q s = true.
Proof.
  intros Hpq. induction s as [|c s IH]; [reflexivity|].
  cbn [all_chars]. rewrite !andb_true_iff. intros [Hc Hs]. auto.
Qed.

(** What [re.sub] leaves: the underscores it writes and the characters
    outside the class. *)
Lemma sub_runs_all (cls p q : ascii -> bool) (b : bool) (s : string) :
  q "_"%char = true ->
  (forall c, p c = true -> cls c = false -> q c = true) ->
  all_chars p s = true -> all_chars q (sub_runs cls b s) = true.
Proof.
  intros Hu Hpq. revert b. induction s as [|c s IH]; intros b; [reflexivity|].
  cbn [all_chars sub_runs]. rewrite andb_true_iff. intros [Hc Hs].
  destruct (cls c) eqn:Hcls.
  - destruct b; [apply IH; exact Hs|].
    cbn [all_chars]. rewrite Hu. apply IH. exact Hs.
  - cbn [all_chars]. rewrite (Hpq c Hc Hcls). apply IH. exact Hs.
Qed.

(** Where no character is in the class, [re.sub] changes nothing. *)
Lemma sub_runs_id (cls : ascii -> bool) (s : string) :
  all_chars (fun c => negb (cls c)) s = true -> sub_runs cls false s = s.
Proof.
  induction s as [|c s IH]; [reflexivity|].
  cbn [all_chars sub_runs]. rewrite andb_true_iff, negb_true_iff.
  intros [-> Hs]. rewrite (IH Hs). reflexivity.
Qed.

Lemma sub_runs_nonempty (cls : ascii -> bool) (s : string) :
  s <> "" -> sub_runs cls false s <> "".
Proof.
  destruct s as [|c s]; [congruence|]. intros _. cbn [sub_runs].
  destruct (cls c); discriminate.
Qed.

Lemma rstrip_id (s : string) :
  all_chars (fun c => negb (is_space c)) s = true -> rstrip s = s.
Proof.
  induction s as [|c s IH]; [reflexivity|].
  cbn [all_chars]. rewrite andb_true_iff, negb_true_iff. intros [Hc Hs].
  rewrite (rstrip_cons c s Hc), (IH Hs). reflexivity.
Qed.

(** A string without white space has none to strip. *)
Lemma strip_id (s : string) :
  all_chars (fun c => negb (is_space c)) s = true -> strip s = s.
Proof.
  intros H. unfold strip.
  assert (lstrip s = s) as ->; [|apply rstrip_id; exact H].
  destruct s as [|c s]; [reflexivity|].
  cbn [all_chars] in H. apply andb_true_iff in H as [Hc _].
  apply negb_true_iff in Hc. cbn [lstrip]. rewrite Hc. reflexivity.
Qed.

Lemma take_chars_all (p : ascii -> bool) (n : nat) (s : string) :
  all_chars p s = true -> all_chars p (take_chars n s) = true.
Proof.
  revert n. induction s as [|c s IH]; intros n; [reflexivity|].
  cbn [all_chars take_chars]. rewrite andb_true_iff. intros [Hc Hs].
  destruct (is_continuation c).
  - cbn [all_chars]. rewrite Hc. apply IH. exact Hs.
  - destruct n; [reflexivity|]. cbn [all_chars]. rewrite Hc. apply IH. exact Hs.
Qed.

Lemma take_chars_count (n : nat) (s : string) :
  char_count (take_chars n s) <= n.
Proof.
  revert n. induction s as [|c s IH]; intros n; cbn [take_chars char_count].
  - lia.
  - destruct (is_continuation c) eqn:Hc.
    + cbn [char_count]. rewrite Hc. apply IH.
    + destruct n; cbn [char_count]; [lia|]. rewrite Hc.
      specialize (IH n). lia.
Qed.

(** A slice as long as the string is the string. *)
Lemma take_chars_id (n : nat) (s : string) :
  char_count s <= n -> take_chars n s = s.
Proof.
  revert n. induction s as [|c s IH]; intros n; [reflexivity|].
  cbn [take_chars char_count]. destruct (is_continuation c).
  - intros H. rewrite IH by exact H. reflexivity.
  - destruct n; [lia|]. intros H. rewrite IH by lia. reflexivity.
Qed.

Lemma take_chars_nonempty (n : nat) (s : string) :
  s <> "" -> take_chars (S n) s <> "".
Proof.
  destruct s as [|c s]; [congruence|]. intros _. cbn [take_chars].
  destruct (is_continuation c); discriminate.
Qed.

(** After the two substitutions no forbidden character and no white
    space is left. *)
Lemma substituted_clean (name : string) :
  all_chars is_name_char
    (sub_runs is_space false (sub_runs is_forbidden false name)) = true.
Proof.
  apply (sub_runs_all is_space (fun c => negb (is_forbidden c))).
  - reflexivity.
  - intros c Hf Hs. unfold is_name_char. rewrite Hf, Hs. reflexivity.
  - apply (sub_runs_all is_forbidden (fun _ => true)).
    + reflexivity.
    + intros c _ ->. reflexivity.
    + clear. induction name as [|c s IH]; [reflexivity | exact IH].
Qed.

Lemma name_char_no_space (c : ascii) :
  is_name_char c = true -> negb (is_space c) = true.
Proof. unfold is_name_char. rewrite andb_true_iff. tauto. Qed.

Lemma name_char_not_forbidden (c : ascii) :
  is_name_char c = true -> negb (is_forbidden c) = true.
Proof. unfold is_name_char. rewrite andb_true_iff. tauto. Qed.

(** [sanitize_filename] without its [strip]. *)
Lemma sanitize_unfold (name : string) :
  sanitize_filename name
  = take_chars 200 (sub_runs is_space false (sub_runs is_forbidden false name)).
Proof.
  unfold sanitize_filename. destruct name as [|c s]; [reflexivity|].
  cbn [nonempty negb]. rewrite strip_id; [reflexivity|].
  eapply all_chars_impl; [exact name_char_no_space | apply substituted_clean].
Qed.

Lemma sanitize_all (name : string) :
  all_chars is_name_char (sanitize_filename name) = true.
Proof. rewrite sanitize_unfold. apply take_chars_all, substituted_clean. Qed.

Lemma sanitize_id (name : string) :
  all_chars is_name_char name = true -> char_count name <= 200 ->
  sanitize_filename name = name.
Proof.
  intros Hall Hlen. rewrite sanitize_unfold.
  rewrite (sub_runs_id is_forbidden name)
    by (eapply all_chars_impl; [exact name_char_not_forbidden | exact Hall]).
  rewrite (sub_runs_id is_space name)
    by (eapply all_chars_impl; [exact name_char_no_space | exact Hall]).
  apply take_chars_id. exact Hlen.
Qed.

End Names.

(** X1: whatever name is given, [sanitize_filename] returns at most 200
    characters and [short_title] at most 15, none of them one of the
    characters backslash, slash, colon, star, question mark, double quote,
    angle brackets, bar, carriage return, line feed, and none of them
    (ASCII) white space. *)
Theorem sanitize_filename_clean_and_bounded (name : string) :
  all_chars is_name_char (sanitize_filename name) = true
  /\ char_count (sanitize_filename name) <= 200
  /\ all_chars is_name_char (short_title name) = true
  /\ char_count (short_title name) <= 15.
Proof.
  split; [apply sanitize_all|].
  split; [rewrite sanitize_unfold; apply take_chars_count|].
  unfold short_title.
  split; [apply take_chars_all, sanitize_all | apply take_chars_count].
Qed.

(** X2: the [strip()] at the end of [sanitize_filename] never removes
    anything, because the substitution before it has turned every run of
    white space, leading and trailing runs included, into an underscore:
    the result is the first 200 characters of the substituted name, a name
    that starts with white space gets a result that starts with an
    underscore, and only the empty name gives the empty result. *)
Theorem sanitize_filename_never_strips (name : string) :
  sanitize_filename name
  = take_chars 200 (sub_runs is_space false (sub_runs is_forbidden false name))
  /\ (forall c rest, name = String c rest /\ is_space c = true ->
        exists r, sanitize_filename name = String "_" r)
  /\ (sanitize_filename name = "" <-> name = "").
Proof.
  split; [apply sanitize_unfold|]. split.
  - intros c rest [-> Hc]. rewrite sanitize_unfold.
    cbn [sub_runs]. destruct (is_forbidden c); cbn [sub_runs].
    + change (is_space "_"%char) with false. cbv iota.
      cbn [take_chars]. change (is_continuation "_"%char) with false.
      cbv iota. eexists. reflexivity.
    + rewrite Hc. cbn [take_chars].
      change (is_continuation "_"%char) with false.
      cbv iota. eexists. reflexivity.
  - split; [|intros ->; reflexivity].
    intros H. destruct (decide (name = "")) as [|Hne]; [assumption|].
    exfalso. revert H. rewrite sanitize_unfold.
    apply take_chars_nonempty, sub_runs_nonempty, sub_runs_nonempty, Hne.
Qed.

(** X3: a name of at most 200 characters that holds no forbidden
    character and no white space (the model replaces the white space of
    ASCII only, Python that of Unicode too: names that hold white space
    outside ASCII are left aside) is returned as it is. *)
Theorem sanitize_filename_fixes_clean_names (name : string) :
  all_chars is_name_char name = true -> no_wide_space name = true ->
  char_count name <= 200 ->
  sanitize_filename name = name.
Proof. intros Hall _ Hlen. apply sanitize_id; assumption. Qed.

(** X3, witness: an ordinary file name. *)
Lemma sanitize_filename_fixes_clean_names_witness :
  sanitize_filename "公告_2024.pdf" = "公告_2024.pdf".
Proof.
  apply (sanitize_filename_fixes_clean_names "公告_2024.pdf").
  - reflexivity.
  - reflexivity.
  - vm_compute. lia.
Defined.

(** X4: sanitising twice is sanitising once, for the file name and for
    the short title. *)
Theorem sanitize_filename_idempotent (name : string) :
  sanitize_filename (sanitize_filename name) = sanitize_filename name
  /\ short_title (short_title name) = short_title name.
Proof.
  assert (forall n, n <= 200 ->
            sanitize_filename (take_chars n (sanitize_filename name))
            = take_chars n (sanitize_filename name)) as H.
  { intros n Hn. apply sanitize_id.
    - apply take_chars_all, sanitize_all.
    - pose proof (take_chars_count n (sanitize_filename name)). lia. }
  split.
  - apply sanitize_id; [apply sanitize_all|].
    rewrite sanitize_unfold. apply take_chars_count.
  - unfold short_title. rewrite H by lia.
    apply take_chars_id, take_chars_count.
Qed.

(** ** The argument of the click handler *)

Section Selid.

Lemma str_app_nil (s : string) : ("" ++ s)%string = s.
Proof. reflexivity. Qed.

Lemma str_app_cons (c : ascii) (s t : string) :
  (String c s ++ t)%string = String c (s ++ t)%string.
Proof. reflexivity. Qed.

Lemma str_span_app (p : ascii -> bool) (a t : string) :
  all_chars p a = true ->
  match t with String c _ => p c = false | EmptyString => True end ->
  Regex.span p (a ++ t) = (a, t).
Proof.
  intros Ha Ht. induction a as [|c a IH]; rewrite ?str_app_cons, ?str_app_nil.
  - destruct t as [|c t]; [reflexivity|]. cbn [Regex.span]. rewrite Ht.
    reflexivity.
  - cbn [all_chars] in Ha. apply andb_true_iff in Ha as [Hc Ha].
    cbn [Regex.span]. rewrite Hc, (IH Ha). reflexivity.
Qed.

Lemma str_span_inv (p : ascii -> bool) (s a b : string) :
  Regex.span p s = (a, b) -> s = (a ++ b)%string /\ all_chars p a = true.
Proof.
  revert a b. induction s as [|c s IH]; intros a b; cbn [Regex.span].
  - intros [= <- <-]. split; reflexivity.
  - destruct (p c) eqn:Hc.
    + destruct (Regex.span p s) as [a' b'] eqn:Hs. intros [= <- <-].
      destruct (IH a' b' eq_refl) as [-> Ha]. split; [reflexivity|].
      cbn [all_chars]. rewrite Hc, Ha. reflexivity.
    + intros [= <- <-]. split; reflexivity.
Qed.

Lemma str_prefix_inv (p s : string) :
  String.prefix p s = true -> s = (p ++ Regex.drop (String.length p) s)%string.
Proof.
  revert s. induction p as [|c p IH]; intros s; [reflexivity|].
  destruct s as [|d s]; cbn [String.prefix]; [discriminate|].
  destruct (ascii_dec c d) as [->|]; [|discriminate].
  intros H. rewrite str_app_cons; cbn [String.length Regex.drop]. rewrite <- (IH s H).
  reflexivity.
Qed.

Lemma str_prefix_app (p t : string) : String.prefix p (p ++ t) = true.
Proof.
  induction p as [|c p IH]; [destruct t; reflexivity|].
  rewrite str_app_cons. cbn [String.prefix].
  destruct (ascii_dec c c); [exact IH | congruence].
Qed.

Lemma str_drop_app (p t : string) : Regex.drop (String.length p) (p ++ t) = t.
Proof. induction p as [|c p IH]; [reflexivity | exact IH]. Qed.

Lemma search_selid_unfold (s : string) :
  Regex.search_selid s
  = match (if String.prefix "GetValidateCode(" s
           then Regex.match_selid_at (Regex.drop 16 s) else None) with
    | Some g => Some g
    | None => match s with
              | EmptyString => None
              | String _ s' => Regex.search_selid s'
              end
    end.
Proof. destruct s; reflexivity. Qed.

Lemma skip_quote_inv (s : string) :
  exists q, is_opt_quote q = true /\ s = (q ++ Regex.skip_quote s)%string.
Proof.
  destruct s as [|c s]; [exists ""; split; reflexivity|].
  cbn [Regex.skip_quote]. destruct (Regex.is_quote c) eqn:Hc.
  - exists (String c ""). split; [exact Hc | reflexivity].
  - exists "". split; reflexivity.
Qed.

(** Group 1 of a match at the start of [s]. *)
Lemma match_selid_at_inv (s g : string) :
  Regex.match_selid_at s = Some g ->
  g <> "" /\ all_chars is_selid_char g = true
  /\ exists q1 q2 post,
       is_opt_quote q1 = true /\ is_opt_quote q2 = true
       /\ s = (q1 ++ g ++ q2 ++ ")" ++ post)%string.
Proof.
  unfold Regex.match_selid_at.
  destruct (skip_quote_inv s) as (q1 & Hq1 & Hs).
  destruct (Regex.span _ (Regex.skip_quote s)) as [grp rest] eqn:Hspan.
  apply str_span_inv in Hspan as [Hskip Hall].
  destruct (nonempty grp) eqn:Hne; [|discriminate].
  destruct (skip_quote_inv rest) as (q2 & Hq2 & Hrest).
  destruct (Regex.skip_quote rest) as [|c post]; [discriminate|].
  destruct (Ascii.eqb c ")") eqn:Hc; [|discriminate].
  apply Ascii.eqb_eq in Hc as ->. intros [= <-].
  split; [destruct grp; [discriminate | congruence]|].
  split; [exact Hall|].
  exists q1, q2, post. split; [exact Hq1|]. split; [exact Hq2|].
  rewrite Hs at 1. rewrite Hskip. rewrite Hrest at 1. reflexivity.
Qed.

Lemma match_selid_at_app (q1 id q2 rest : string) :
  is_opt_quote q1 = true -> is_opt_quote q2 = true ->
  id <> "" -> all_chars is_selid_char id = true ->
  Regex.match_selid_at (q1 ++ id ++ q2 ++ ")" ++ rest) = Some id.
Proof.
  intros Hq1 Hq2 Hne Hall. unfold Regex.match_selid_at.
  assert (Regex.skip_quote (q1 ++ id ++ q2 ++ ")" ++ rest)
          = (id ++ q2 ++ ")" ++ rest)%string) as ->.
  { destruct q1 as [|c [|]]; try discriminate.
    - destruct id as [|c id]; [congruence|]. rewrite ?str_app_cons, ?str_app_nil; cbn [Regex.skip_quote].
      cbn [all_chars] in Hall. apply andb_true_iff in Hall as [Hc _].
      unfold is_selid_char in Hc. apply negb_true_iff, orb_false_iff in Hc as [-> _].
      reflexivity.
    - cbn [is_opt_quote] in Hq1. rewrite ?str_app_cons, ?str_app_nil; cbn [Regex.skip_quote]. rewrite Hq1.
      reflexivity. }
  rewrite (str_span_app (fun c => negb (Regex.is_quote c || Ascii.eqb c ")"%char))
             id (q2 ++ ")" ++ rest)%string Hall).
  2:{ destruct q2 as [|c [|]]; try discriminate; rewrite ?str_app_cons, ?str_app_nil.
      - reflexivity.
      - cbn [is_opt_quote] in Hq2. rewrite Hq2. reflexivity. }
  destruct id as [|c id]; [congruence|]. cbn [nonempty].
  destruct q2 as [|d [|]]; try discriminate; rewrite ?str_app_cons, ?str_app_nil; cbn [Regex.skip_quote].
  - reflexivity.
  - cbn [is_opt_quote] in Hq2. rewrite Hq2. reflexivity.
Qed.

End Selid.

(** X5: the identifier written between the parentheses of
    [GetValidateCode(...)] is what the resolver extracts from the click
    handler, whether it is written between single quotes, between double
    quotes, with quotes that do not match or with none, and whatever
    follows the closing parenthesis; here the call is preceded by text
    without a capital G. *)
Theorem search_selid_finds_argument (pre q1 id q2 rest : string) :
  all_chars (fun c => negb (Ascii.eqb c "G"%char)) pre = true ->
  is_opt_quote q1 = true -> is_opt_quote q2 = true ->
  id <> "" -> all_chars is_selid_char id = true ->
  Regex.search_selid (pre ++ "GetValidateCode(" ++ q1 ++ id ++ q2 ++ ")" ++ rest)
  = Some id.
Proof.
  intros Hpre Hq1 Hq2 Hne Hall. induction pre as [|c pre IH].
  - rewrite str_app_nil, search_selid_unfold, str_prefix_app.
    change 16 with (String.length "GetValidateCode("). rewrite str_drop_app.
    rewrite match_selid_at_app by assumption. reflexivity.
  - cbn [all_chars] in Hpre. apply andb_true_iff in Hpre as [Hc Hpre].
    apply negb_true_iff, Ascii.eqb_neq in Hc.
    rewrite str_app_cons, search_selid_unfold.
    assert (String.prefix "GetValidateCode("
              (String c (pre ++ "GetValidateCode(" ++ q1 ++ id ++ q2 ++ ")" ++ rest))
            = false) as ->.
    { cbn [String.prefix]. destruct (ascii_dec "G" c); [congruence | reflexivity]. }
    apply IH. exact Hpre.
Qed.

(** X5, witness: a handler as the site writes it. *)
Lemma search_selid_finds_argument_witness :
  Regex.search_selid "return GetValidateCode('dl_17');" = Some "dl_17".
Proof.
  apply (search_selid_finds_argument "return " "'" "dl_17" "'" ";");
    first [reflexivity | discriminate].
Defined.

(** X6: whatever the resolver extracts from a click handler is a
    non-empty text without quote and without closing parenthesis that
    stands in the handler right after [GetValidateCode(] and an optional
    quote, and is followed by an optional quote and a closing
    parenthesis; a handler without [GetValidateCode(] gives nothing. *)
Theorem search_selid_sound (onclick g : string) :
  Regex.search_selid onclick = Some g ->
  g <> "" /\ all_chars is_selid_char g = true
  /\ exists pre q1 q2 post,
       is_opt_quote q1 = true /\ is_opt_quote q2 = true
       /\ onclick
          = (pre ++ "GetValidateCode(" ++ q1 ++ g ++ q2 ++ ")" ++ post)%string.
Proof.
  induction onclick as [|c s IH]; rewrite search_selid_unfold.
  - change (String.prefix "GetValidateCode(" "") with false. discriminate.
  - destruct (String.prefix "GetValidateCode(" (String c s)) eqn:Hp.
    + destruct (Regex.match_selid_at (Regex.drop 16 (String c s))) as [g'|] eqn:Hm.
      * intros [= ->]. apply match_selid_at_inv in Hm
          as (Hne & Hall & q1 & q2 & post & Hq1 & Hq2 & Hd).
        split; [exact Hne|]. split; [exact Hall|].
        exists "", q1, q2, post. split; [exact Hq1|]. split; [exact Hq2|].
        rewrite (str_prefix_inv _ _ Hp) at 1.
        change (String.length "GetValidateCode(") with 16. rewrite Hd.
        reflexivity.
      * intros H. destruct (IH H) as (Hne & Hall & pre & q1 & q2 & post & Hq1 & Hq2 & ->).
        split; [exact Hne|]. split; [exact Hall|].
        exists (String c pre), q1, q2, post. auto.
    + intros H. destruct (IH H) as (Hne & Hall & pre & q1 & q2 & post & Hq1 & Hq2 & ->).
      split; [exact Hne|]. split; [exact Hall|].
      exists (String c pre), q1, q2, post. auto.
Qed.

(** X6, witness: a handler that passes the identifier without quotes. *)
Lemma search_selid_sound_witness :
  "f17" <> ""
  /\ all_chars is_selid_char "f17" = true
  /\ exists pre q1 q2 post,
       is_opt_quote q1 = true /\ is_opt_quote q2 = true
       /\ "GetValidateCode(f17)"
          = (pre ++ "GetValidateCode(" ++ q1 ++ "f17" ++ q2 ++ ")" ++ post)%string.
Proof.
  apply (search_selid_sound "GetValidateCode(f17)" "f17"). reflexivity.
Defined.

(** ** The ledger of a task *)

Lemma posted_ok_app (evs1 evs2 : list event) :
  posted_ok (evs1 ++ evs2) = posted_ok evs1 ++ posted_ok evs2.
Proof. apply omap_app. Qed.

Lemma ledger_intro (P : event -> bool) (s s' : State) (evs : list event)
    (dl up : list Path) :
  st_driver s' = st_driver s ->
  st_trace s' = st_trace s ++ evs ->
  Forall (fun ev => P ev = true) evs ->
  st_downloaded s' = st_downloaded s ++ dl ->
  map path_str dl = completed_downloads evs ->
  st_uploaded s' = st_uploaded s ++ map name up ->
  map path_str up = posted_ok evs ->
  ledger P s s'.
Proof. intros. split; [assumption|]. exists evs, dl, up. auto 10. Qed.

(** A transition that made the calls [evs], none a completed download or
    an accepted POST, and appended nothing to the two lists. *)
Lemma ledger_calls (P : event -> bool) (s s' : State) (evs : list event) :
  st_driver s' = st_driver s ->
  st_trace s' = st_trace s ++ evs ->
  Forall (fun ev => P ev = true) evs ->
  completed_downloads evs = [] -> posted_ok evs = [] ->
  st_downloaded s' = st_downloaded s ->
  st_uploaded s' = st_uploaded s ->
  ledger P s s'.
Proof.
  intros Hd Ht HP Hc Hp Hdl Hup.
  apply (ledger_intro P s s' evs [] []); auto;
    rewrite ?app_nil_r; auto.
Qed.

Lemma ledger_refl (P : event -> bool) (s : State) : ledger P s s.
Proof. apply (ledger_calls P s s []); auto using app_nil_r. Qed.

Lemma ledger_trans (P : event -> bool) (s1 s2 s3 : State) :
  ledger P s1 s2 -> ledger P s2 s3 -> ledger P s1 s3.
Proof.
  intros (Hd1 & evs1 & dl1 & up1 & Ht1 & HP1 & Hl1 & Hc1 & Hu1 & Hp1)
         (Hd2 & evs2 & dl2 & up2 & Ht2 & HP2 & Hl2 & Hc2 & Hu2 & Hp2).
  apply (ledger_intro P s1 s3 (evs1 ++ evs2) (dl1 ++ dl2) (up1 ++ up2)).
  - congruence.
  - rewrite Ht2, Ht1, app_assoc. reflexivity.
  - apply Forall_app; auto.
  - rewrite Hl2, Hl1, app_assoc. reflexivity.
  - rewrite map_app, completed_downloads_app. congruence.
  - rewrite Hu2, Hu1, map_app, app_assoc. reflexivity.
  - rewrite map_app, posted_ok_app. congruence.
Qed.

Lemma ledger_weaken (P Q : event -> bool) (s s' : State) :
  (forall ev, P ev = true -> Q ev = true) -> ledger P s s' -> ledger Q s s'.
Proof.
  intros HPQ (Hd & evs & dl & up & Ht & HP & Hrest).
  split; [exact Hd|]. exists evs, dl, up. split; [exact Ht|].
  split; [|exact Hrest]. eapply Forall_impl; [exact HP | exact HPQ].
Qed.

Global Instance ledger_preorder (P : event -> bool) : PreOrder (ledger P).
Proof.
  split; [intros s; apply ledger_refl | intros s1 s2 s3; apply ledger_trans].
Qed.

Section Ledger.

Context (P : event -> bool) (w : World).

Lemma ledger_modify (f : State -> State) :
  (forall s, st_trace (f s) = st_trace s) ->
  (forall s, st_driver (f s) = st_driver s) ->
  (forall s, st_downloaded (f s) = st_downloaded s) ->
  (forall s, st_uploaded (f s) = st_uploaded s) ->
  respects (ledger P) (modify f).
Proof.
  intros Ht Hd Hl Hu s. apply (ledger_calls P s _ []); simpl; auto.
  rewrite app_nil_r. apply Ht.
Qed.

Lemma ledger_call {A} (oracle : nat -> Res A) (ev : Res A -> event) :
  (forall r, P (ev r) = true) ->
  (forall r, completed_downloads [ev r] = []) ->
  (forall r, posted_ok [ev r] = []) ->
  respects (ledger P) (call w oracle ev).
Proof.
  intros HP Hc Hp s. eapply ledger_calls; try reflexivity.
  - repeat constructor. apply HP.
  - apply Hc.
  - apply Hp.
Qed.

Lemma ledger_observe {A} (oracle : nat -> A) (ev : A -> event) :
  (forall r, P (ev r) = true) ->
  (forall r, completed_downloads [ev r] = []) ->
  (forall r, posted_ok [ev r] = []) ->
  respects (ledger P) (observe w oracle ev).
Proof.
  intros HP Hc Hp s. eapply ledger_calls; try reflexivity.
  - repeat constructor. apply HP.
  - apply Hc.
  - apply Hp.
Qed.

Lemma ledger_sleep (ms : Z) :
  (forall d, P (EvSleep d) = true) -> respects (ledger P) (sleep w ms).
Proof.
  intros HP s. eapply ledger_calls; try reflexivity.
  repeat constructor. apply HP.
Qed.

(** A download and what is done with its result, when that is to append
    the path it returned to [downloaded]. *)
Lemma ledger_download {B} (via : discovered_via) (url : string) (wd : Path)
    (override : option string) (k : option Path -> M B) :
  (forall ev, is_download_from via ev = true -> P ev = true) ->
  (forall r s,
     st_trace (k r s).2 = st_trace s
     /\ st_driver (k r s).2 = st_driver s
     /\ st_uploaded (k r s).2 = st_uploaded s
     /\ st_downloaded (k r s).2
        = st_downloaded s ++ match r with Some p => [p] | None => [] end) ->
  respects (ledger P) (download_with_session w via url wd override ≫= k).
Proof.
  intros HP Hk s. rewrite run_bind.
  assert (exists r s1 evs,
            download_with_session w via url wd override s = (Ok r, s1)
            /\ st_trace s1 = st_trace s ++ evs
            /\ Forall (fun ev => is_download_from via ev = true) evs
            /\ completed_downloads evs
               = match r with Some p => [path_str p] | None => [] end
            /\ posted_ok evs = []
            /\ st_driver s1 = st_driver s
            /\ st_downloaded s1 = st_downloaded s
            /\ st_uploaded s1 = st_uploaded s)
    as (r & s1 & evs & -> & Ht & Hev & Hc & Hp & Hd & Hl & Hu).
  { unfold download_with_session. unfold_run.
    case_answer;
      [|do 3 eexists; (split; [reflexivity|]); simpl_state;
        (split; [reflexivity|]); repeat split; repeat constructor].
    destruct (nonempty (or_empty override)); simpl_state;
    repeat case_answer;
      do 3 eexists; (split; [reflexivity|]); simpl_state;
      rewrite <- ?app_assoc; (split; [reflexivity|]);
      repeat split; repeat constructor; apply bool_decide_eq_true; reflexivity. }
  destruct (Hk r s1) as (Ht2 & Hd2 & Hu2 & Hl2).
  apply (ledger_intro P s _ evs (match r with Some p => [p] | None => [] end) []).
  - congruence.
  - congruence.
  - eapply Forall_impl; [exact Hev | exact HP].
  - congruence.
  - rewrite Hc. destruct r; reflexivity.
  - rewrite app_nil_r. congruence.
  - rewrite Hp. reflexivity.
Qed.

(** An upload and what is done with its result, when that is to append
    the name of the file to [uploaded] if the upload succeeded. *)
Lemma ledger_upload {B} (dest : Path) (k : bool * string -> M B) :
  (forall ev, is_upload ev = true -> P ev = true) ->
  (forall ok info s,
     st_trace (k (ok, info) s).2 = st_trace s
     /\ st_driver (k (ok, info) s).2 = st_driver s
     /\ st_downloaded (k (ok, info) s).2 = st_downloaded s
     /\ st_uploaded (k (ok, info) s).2
        = st_uploaded s ++ (if ok then [name dest] else [])) ->
  respects (ledger P) (upload_file_to_bisheng w dest ≫= k).
Proof.
  intros HP Hk s. rewrite run_bind.
  assert (exists ok info s1 evs,
            upload_file_to_bisheng w dest s = (Ok (ok, info), s1)
            /\ st_trace s1 = st_trace s ++ evs
            /\ Forall (fun ev => is_upload ev = true) evs
            /\ completed_downloads evs = []
            /\ posted_ok evs = (if ok then [path_str dest] else [])
            /\ st_driver s1 = st_driver s
            /\ st_downloaded s1 = st_downloaded s
            /\ st_uploaded s1 = st_uploaded s)
    as (ok & info & s1 & evs & -> & Ht & Hev & Hc & Hp & Hd & Hl & Hu).
  { unfold upload_file_to_bisheng. unfold_run.
    repeat case_answer;
      do 4 eexists; (split; [reflexivity|]); simpl_state;
      rewrite <- ?app_assoc; (split; [reflexivity|]);
      (split; [repeat constructor|]); (split; [reflexivity|]);
      (split; [unfold posted_ok; simpl; rewrite ?E1; reflexivity|]);
      repeat split. }
  destruct (Hk ok info s1) as (Ht2 & Hd2 & Hl2 & Hu2).
  apply (ledger_intro P s _ evs [] (if ok then [dest] else [])).
  - congruence.
  - congruence.
  - eapply Forall_impl; [exact Hev | exact HP].
  - rewrite app_nil_r. congruence.
  - rewrite Hc. reflexivity.
  - rewrite Hu2, Hu. destruct ok; reflexivity.
  - rewrite Hp. destruct ok; reflexivity.
Qed.

End Ledger.

Ltac ledger_footprint :=
  let ev := fresh "ev" in
  let H := fresh "H" in
  intros ev H; destruct ev; simpl in H; try discriminate H; try reflexivity;
  apply bool_decide_eq_true in H; subst; reflexivity.

Ltac ledger_step :=
  lazymatch goal with
  | |- respects (ledger _) (say _) =>
      apply ledger_modify; intros ?; reflexivity
  | |- respects (ledger _) (log _ _) =>
      apply ledger_modify; intros ?; reflexivity
  | |- respects (ledger _) (fs_add _) =>
      apply ledger_modify; intros ?; reflexivity
  | |- respects (ledger _) (append_cand _) =>
      apply ledger_modify; intros ?; reflexivity
  | |- respects (ledger _) stuck =>
      apply ledger_modify; intros ?; reflexivity
  | |- respects (ledger _) (modify _) =>
      apply ledger_modify; intros ?; reflexivity
  | |- respects (ledger _) (sleep _ _) =>
      apply ledger_sleep; intros ?; reflexivity
  | |- respects (ledger _) (call _ _ _) =>
      apply ledger_call; intros ?; reflexivity
  | |- respects (ledger _) (observe _ _ _) =>
      apply ledger_observe; intros ?; reflexivity
  | |- respects (ledger _) (mbind _ (download_with_session _ _ _ _ _)) =>
      apply ledger_download;
      [ ledger_footprint
      | intros [?|] ?; repeat split; rewrite ?app_nil_r; reflexivity ]
  | |- respects (ledger _) (mbind _ (upload_file_to_bisheng _ _)) =>
      apply ledger_upload;
      [ ledger_footprint
      | intros [|] ? ?; repeat split; rewrite ?app_nil_r; reflexivity ]
  | |- respects (ledger _) (fetch_found _ _ _ _) => unfold fetch_found
  | |- _ => respects_step
  end.

Ltac ledger_go := repeat ledger_step.

Section LedgerOfStages.

Context (w : World).

Lemma ledger_wait_new_window (fuel : nat) (t0 : Z) (base : gset string)
    (wd : Path) :
  respects (ledger is_strategy_a) (wait_new_window w fuel t0 base wd).
Proof.
  induction fuel as [|fuel IH]; simpl; unfold visit_new_window; ledger_go.
Qed.

Lemma ledger_pick_perf_url (urls : list string) :
  respects (ledger is_strategy_a) (pick_perf_url w urls).
Proof. induction urls as [|u urls IH]; simpl; ledger_go. Qed.

Hint Resolve ledger_wait_new_window ledger_pick_perf_url : keeps_db.

Lemma ledger_poll_perf_logs (n : nat) :
  respects (ledger is_strategy_a) (poll_perf_logs w n).
Proof. induction n as [|n IH]; simpl; ledger_go. Qed.

Hint Resolve ledger_poll_perf_logs : keeps_db.

Lemma ledger_process_candidate (wd : Path) (base : gset string) (i : nat)
    (el : elem) :
  respects (ledger is_strategy_a) (process_candidate w wd base i el).
Proof.
  unfold process_candidate, read_candidate, resolve_candidate,
    click_candidate, run_probes, inspect_container.
  ledger_go.
Qed.

Hint Resolve ledger_process_candidate : keeps_db.

(** The guarded block of strategy A. *)
Lemma ledger_scan_iframes (wd : Path) :
  respects (ledger is_strategy_a)
    (try_except
       (triggers ← try_except (find_elements w SelOpendownTriggers)
                     (fun _ => mret []) ;
        (if is_nil triggers
         then say "    未发现 opendown 触发点，继续尝试扫描页面 iframe..."
         else
           say ("    发现 opendown 触发点 " ++ pretty (length triggers)
                ++ " 个，依次点击...")%string ;;
           for_each triggers (click_trigger w)) ;;
        iframes ← find_elements w SelIframes ;
        say ("    页面 iframe 数: " ++ pretty (length iframes))%string ;;
        for_each_from 0 iframes (scan_iframe w wd))
       (fun e => say ("  [策略A] 异常: " ++ exn_msg e)%string)).
Proof. unfold scan_iframe, click_trigger. ledger_go. Qed.

(** The guarded block of strategy B. *)
Lemma ledger_scan_links (wd : Path) :
  respects (ledger is_strategy_b)
    (try_except
       (cand ← collect_direct_links w ;
        say ("    直链候选数: " ++ pretty (length cand))%string ;;
        for_each cand (download_direct_link w wd))
       (fun e => say ("  [策略B] 异常: " ++ exn_msg e)%string)).
Proof.
  unfold collect_direct_links, download_direct_link, scan_anchor,
    scan_markup_href.
  ledger_go.
Qed.

Lemma ledger_extract_and_upload (path : Path) (task_id title : string) :
  respects (ledger is_upload_stage)
    (extract_and_upload_file w path task_id title).
Proof.
  unfold extract_and_upload_file, expand_and_upload, upload_tree, upload_inner.
  ledger_go.
Qed.

Lemma ledger_first_heading (h3s : list elem) :
  respects (ledger is_page_open) (first_heading w h3s).
Proof. induction h3s as [|h h3s IH]; simpl; ledger_go. Qed.

Hint Resolve ledger_first_heading : keeps_db.

Lemma ledger_build_driver (wd : Path) (headless : bool) :
  respects (ledger is_page_open) (build_driver w wd headless).
Proof. unfold build_driver. ledger_go. Qed.

Lemma ledger_read_page_title :
  respects (ledger is_page_open) (read_page_title w).
Proof. unfold read_page_title. ledger_go. Qed.

Lemma ledger_session_from_driver :
  respects (ledger is_cookie_read) (session_from_driver w).
Proof. ledger_go. Qed.

Lemma ledger_quit_driver : respects (ledger is_quit) (quit_driver w).
Proof. ledger_go. Qed.

End LedgerOfStages.

(** ** The runs of the stages *)

Lemma posted_ok_none (evs : list event) :
  Forall (fun ev => is_upload ev = false) evs -> posted_ok evs = [].
Proof.
  induction 1 as [|ev evs Hev _ IH]; [reflexivity|].
  unfold posted_ok in *. cbn [omap list_omap]. 
  destruct ev; try exact IH. discriminate Hev.
Qed.

Lemma completed_downloads_none (evs : list event) :
  Forall (fun ev => is_completed_download ev = false) evs ->
  completed_downloads evs = [].
Proof.
  induction 1 as [|ev evs Hev _ IH]; [reflexivity|].
  unfold completed_downloads in *. cbn [omap list_omap].
  destruct ev; try exact IH. destruct r; [discriminate Hev | exact IH].
Qed.

Lemma map_path_str_nil (l : list Path) : map path_str l = [] -> l = [].
Proof. destruct l; [reflexivity | discriminate]. Qed.

(** A stage that makes no upload call leaves [uploaded] alone. *)
Lemma ledger_no_upload (P : event -> bool) (s s' : State) :
  (forall ev, P ev = true -> is_upload ev = false) ->
  ledger P s s' -> st_uploaded s' = st_uploaded s.
Proof.
  intros HP (_ & evs & dl & up & _ & Hev & _ & _ & Hu & Hp).
  rewrite posted_ok_none in Hp
    by (eapply Forall_impl; [exact Hev | exact HP]).
  apply map_path_str_nil in Hp. subst up. rewrite Hu. apply app_nil_r.
Qed.

Lemma strategy_a_no_upload (ev : event) :
  is_strategy_a ev = true -> is_upload ev = false.
Proof. destruct ev; try reflexivity; discriminate. Qed.

Lemma strategy_b_no_upload (ev : event) :
  is_strategy_b ev = true -> is_upload ev = false.
Proof. destruct ev; try reflexivity; discriminate. Qed.

Section StageRuns.

Context (w : World).

(** Strategy A returns the files its downloads completed. *)
Lemma strategy_a_run (task_id title : string) (wd : Path) (s : State) :
  exists l s' evs,
    strategy_iframe_popups w task_id title wd s = (Ok l, s')
    /\ st_trace s' = st_trace s ++ evs
    /\ Forall (fun ev => is_strategy_a ev = true) evs
    /\ map path_str l = completed_downloads evs
    /\ st_driver s' = st_driver s
    /\ st_uploaded s' = st_uploaded s.
Proof.
  unfold strategy_iframe_popups. rewrite run_bind. unfold say at 1, modify at 1.
  rewrite run_bind. unfold modify at 1. rewrite run_bind.
  match goal with
  | |- context [try_except ?m ?h ?s0] =>
      pose proof (ledger_scan_iframes w wd s0) as Hl;
      change (ledger is_strategy_a s0 (try_except m h s0).2) in Hl;
      destruct (nr_run (try_except m h) s0) as ([] & s1 & Hrun); [nr_go|]
  end.
  rewrite Hrun in *. cbn [snd] in Hl.
  pose proof (ledger_no_upload _ _ _ strategy_a_no_upload Hl) as Hup.
  destruct Hl as (Hd & evs & dl & up & Ht & Hev & Hdl & Hc & _ & _).
  simpl_state_all. cbn [app] in Hdl.
  do 3 eexists. split; [reflexivity|]. simpl_state.
  split; [exact Ht|]. split; [exact Hev|]. rewrite Hdl. auto.
Qed.

Lemma ledger_trace (P : event -> bool) (s s' : State) :
  ledger P s s' -> exists evs, st_trace s' = st_trace s ++ evs.
Proof. intros (_ & evs & _ & _ & Ht & _). eauto. Qed.

(** A guarded block that starts with a driver command: the command is
    the first call it makes. *)
Lemma first_cmd_run {A B} (P : event -> bool) (c : driver_cmd)
    (k1 : unit -> M A) (k2 : A -> M B) (h : exn -> M B) (s : State) :
  (forall u, respects (ledger P) (k1 u)) ->
  (forall a, respects (ledger P) (k2 a)) ->
  (forall e, respects (ledger P) (h e)) ->
  exists r evs,
    st_trace (try_except ((cmd w c ≫= k1) ≫= k2) h s).2
    = st_trace s ++ EvCmd c r :: evs.
Proof.
  intros Hk1 Hk2 Hh. rewrite run_try_except, !run_bind.
  unfold cmd at 1, call at 1. exists (w_cmd w (length (st_trace s)) c).
  set (s0 := set_clock _ _).
  assert (st_trace s0
          = st_trace s ++ [EvCmd c (w_cmd w (length (st_trace s)) c)]) as Ht0
    by reflexivity.
  clearbody s0.
  assert (forall s1 evs, st_trace s1 = st_trace s0 ++ evs ->
            st_trace s1
            = st_trace s ++ EvCmd c (w_cmd w (length (st_trace s)) c) :: evs)
    as Hcons.
  { intros s1 evs ->. rewrite Ht0, <- app_assoc. reflexivity. }
  destruct (w_cmd w (length (st_trace s)) c) as [u|e].
  - destruct (ledger_trace _ _ _ (Hk1 u s0)) as (evs1 & Ht1).
    destruct (k1 u s0) as [[a|e] s1]; cbn [snd] in Ht1.
    + destruct (ledger_trace _ _ _ (Hk2 a s1)) as (evs2 & Ht2).
      destruct (k2 a s1) as [[b|e] s2]; cbn [snd] in Ht2.
      * exists (evs1 ++ evs2). apply Hcons. cbn [snd].
        rewrite Ht2, Ht1, app_assoc. reflexivity.
      * destruct (ledger_trace _ _ _ (Hh e s2)) as (evs3 & Ht3).
        exists (evs1 ++ evs2 ++ evs3). apply Hcons.
        rewrite Ht3, Ht2, Ht1, !app_assoc. reflexivity.
    + destruct (ledger_trace _ _ _ (Hh e s1)) as (evs3 & Ht3).
      exists (evs1 ++ evs3). apply Hcons.
      rewrite Ht3, Ht1, !app_assoc. reflexivity.
  - destruct (ledger_trace _ _ _ (Hh e s0)) as (evs3 & Ht3).
    exists evs3. apply Hcons. exact Ht3.
Qed.

(** Strategy B returns the files its downloads completed; its first call
    switches to the main document. *)
Lemma strategy_b_run (task_id title : string) (wd : Path) (s : State) :
  exists l s' r evs,
    strategy_direct_links w task_id title wd s = (Ok l, s')
    /\ st_trace s' = st_trace s ++ EvCmd CmdDefaultContent r :: evs
    /\ Forall (fun ev => is_strategy_b ev = true)
              (EvCmd CmdDefaultContent r :: evs)
    /\ map path_str l = completed_downloads evs
    /\ st_driver s' = st_driver s
    /\ st_uploaded s' = st_uploaded s.
Proof.
  unfold strategy_direct_links. rewrite run_bind. unfold modify at 1.
  rewrite run_bind. unfold say at 1, modify at 1. rewrite run_bind.
  match goal with
  | |- context [try_except ?m ?h ?s0] =>
      pose proof (ledger_scan_links w wd s0) as Hl;
      change (ledger is_strategy_b s0 (try_except m h s0).2) in Hl;
      destruct (nr_run (try_except m h) s0) as ([] & s1 & Hrun); [nr_go|];
      assert (exists r evs', st_trace (try_except m h s0).2
                             = st_trace s0 ++ EvCmd CmdDefaultContent r :: evs')
        as (r & evs' & Hfirst)
  end.
  { unfold collect_direct_links.
    apply (first_cmd_run is_strategy_b);
      unfold download_direct_link, scan_anchor, scan_markup_href; ledger_go. }
  rewrite Hrun in *. cbn [snd] in Hl, Hfirst.
  pose proof (ledger_no_upload _ _ _ strategy_b_no_upload Hl) as Hup.
  destruct Hl as (Hd & evs & dl & up & Ht & Hev & Hdl & Hc & _ & _).
  rewrite Ht in Hfirst. apply app_inv_head in Hfirst. subst evs.
  simpl_state_all. cbn [app] in Hdl.
  eexists _, _, r, evs'. split; [reflexivity|]. simpl_state.
  split; [exact Ht|]. split; [exact Hev|]. rewrite Hdl. auto.
Qed.

(** The two strategies: B runs exactly when A completed no download. *)
Lemma run_strategies_run (task_id title : string) (wd : Path) (s : State) :
  exists l s' evA evB,
    run_strategies w task_id title wd s = (Ok l, s')
    /\ st_trace s' = st_trace s ++ evA ++ evB
    /\ Forall (fun ev => is_strategy_a ev = true) evA
    /\ Forall (fun ev => is_strategy_b ev = true) evB
    /\ map path_str l = completed_downloads (evA ++ evB)
    /\ (completed_downloads evA <> [] -> evB = [])
    /\ (completed_downloads evA = [] ->
        exists r rest, evB = EvCmd CmdDefaultContent r :: rest)
    /\ st_driver s' = st_driver s
    /\ st_uploaded s' = st_uploaded s.
Proof.
  unfold run_strategies. rewrite run_bind. unfold say at 1, modify at 1.
  rewrite run_bind.
  match goal with
  | |- context [strategy_iframe_popups w task_id title wd ?s0] =>
      destruct (strategy_a_run task_id title wd s0)
        as (la & sa & evA & -> & HtA & HA & HcA & HdA & HuA)
  end.
  simpl_state_all.
  rewrite run_bind. unfold say at 1, modify at 1. rewrite run_bind.
  destruct la as [|p la]; cbn [is_nil].
  - rewrite run_bind. unfold say at 1, modify at 1. rewrite run_bind.
    match goal with
    | |- context [strategy_direct_links w task_id title wd ?s0] =>
        destruct (strategy_b_run task_id title wd s0)
          as (lb & sb & r & evB & -> & HtB & HB & HcB & HdB & HuB)
    end.
    simpl_state_all.
    rewrite run_bind. unfold say at 1, modify at 1.
    eexists _, _, evA, (EvCmd CmdDefaultContent r :: evB).
    split; [reflexivity|]. simpl_state.
    split; [rewrite HtB, HtA, <- app_assoc; reflexivity|].
    split; [exact HA|]. split; [exact HB|].
    split; [rewrite completed_downloads_app, <- HcA; exact HcB|].
    split; [intros Hne; exfalso; apply Hne; rewrite <- HcA; reflexivity|].
    split; [eauto|]. split; congruence.
  - rewrite run_bind. unfold say at 1, modify at 1.
    eexists _, _, evA, []. split; [reflexivity|]. simpl_state.
    rewrite !app_nil_r. split; [exact HtA|]. split; [exact HA|].
    split; [constructor|]. split; [exact HcA|]. split; [reflexivity|].
    split; [|auto]. intros Hnil. rewrite Hnil in HcA. discriminate HcA.
Qed.

(** What follows the strategies: nothing when no file was found, else
    the expansion and the uploads; the result lists the names of the
    files whose POST was accepted. *)
Lemma finish_run (task_id title : string) (l : list Path) (s : State) :
  exists res s' evs (up : list Path),
    finish_task w task_id title l s = (Ok res, s')
    /\ st_trace s' = st_trace s ++ evs
    /\ Forall (fun ev => is_upload_stage ev = true) evs
    /\ st_driver s' = st_driver s
    /\ res_status res = Some (if is_nil l then "no_content" else "success")
    /\ res_uploaded res = map name up
    /\ posted_ok evs = map path_str up
    /\ (l = [] -> evs = []).
Proof.
  unfold finish_task. destruct l as [|f fs]; cbn [is_nil].
  - eexists _, _, [], []. split; [reflexivity|]. simpl_state.
    rewrite app_nil_r. repeat split. constructor.
  - rewrite run_bind. unfold modify at 1. rewrite run_bind.
    match goal with
    | |- context [for_each ?l ?body ?s0] =>
        assert (respects (ledger is_upload_stage) (for_each l body)) as Hl
          by (pose proof (ledger_extract_and_upload w);
              unfold process_download; ledger_go);
        specialize (Hl s0);
        destruct (nr_run (for_each l body) s0) as ([] & s1 & Hrun)
    end.
    { apply nr_for_each. intros x. unfold process_download.
      pose proof (nr_extract_and_upload w). nr_go. }
    rewrite Hrun in *. cbn [snd] in Hl.
    destruct Hl as (Hd & evs & dl & up & Ht & Hev & _ & _ & Hu & Hp).
    simpl_state_all. cbn [app] in Hu.
    eexists _, _, evs, up. split; [reflexivity|]. simpl_state.
    split; [exact Ht|]. split; [exact Hev|]. split; [exact Hd|].
    split; [reflexivity|]. split; [|split; [symmetry; exact Hp | discriminate]].
    unfold res_uploaded. rewrite <- Hu. reflexivity.
Qed.

Lemma driver_built_app (evs1 evs2 : list event) :
  driver_built (evs1 ++ evs2) = driver_built evs1 || driver_built evs2.
Proof. apply existsb_app. Qed.

Lemma chrome_started_app (evs1 evs2 : list event) :
  chrome_started (evs1 ++ evs2) = chrome_started evs1 || chrome_started evs2.
Proof. apply existsb_app. Qed.

(** [build_driver] returns exactly when its last call is answered. *)
Lemma build_driver_run (wd : Path) (headless : bool) (s : State) :
  exists r s' evs,
    build_driver w wd headless s = (r, s')
    /\ st_trace s' = st_trace s ++ evs
    /\ Forall (fun ev => is_page_open ev = true) evs
    /\ st_driver s' = st_driver s
    /\ st_uploaded s' = st_uploaded s
    /\ driver_built evs = is_ok r
    /\ (is_ok r = true -> chrome_started evs = true).
Proof.
  unfold build_driver. change (nonempty CHROMEDRIVER_PATH) with true. cbv iota.
  unfold cmd. unfold_run.
  repeat first
    [ case_answer
    | match goal with
      | |- context [decide (exn_cls ?e = TypeError)] =>
          destruct (decide (exn_cls e = TypeError)); simpl_state
      end ];
    do 3 eexists; (split; [reflexivity|]); simpl_state;
    rewrite <- ?app_assoc; (split; [reflexivity|]);
    (split; [repeat constructor|]); repeat split; try discriminate;
    match goal with
    | |- context [w_cmd w ?n CmdSetScriptTimeout] =>
        destruct (w_cmd w n CmdSetScriptTimeout); reflexivity
    end.
Qed.

(** From the creation of the session to the page title: [driver] is
    assigned exactly if [build_driver] returned. *)
Lemma open_page_run (wd : Path) (url : string) (s : State) :
  exists r s' evs,
    open_page w wd url s = (r, s')
    /\ st_trace s' = st_trace s ++ evs
    /\ Forall (fun ev => is_page_open ev = true) evs
    /\ st_uploaded s' = st_uploaded s
    /\ st_driver s' = st_driver s || driver_built evs
    /\ (is_ok r = true -> driver_built evs = true)
    /\ (driver_built evs = true -> chrome_started evs = true).
Proof.
  unfold open_page. rewrite run_bind. unfold say at 1, modify at 1.
  rewrite run_bind.
  match goal with
  | |- context [build_driver w wd HEADLESS ?s0] =>
      destruct (build_driver_run wd HEADLESS s0)
        as (r1 & s1 & evs1 & -> & Ht1 & Hev1 & Hd1 & Hu1 & Hb1 & Hc1)
  end.
  simpl_state_all. destruct r1 as [[]|e]; cbn [is_ok] in *.
  - rewrite run_bind. unfold modify at 1.
    match goal with
    | |- context [mbind ?f ?m ?s2] =>
        assert (respects (ledger is_page_open) (mbind f m)) as Hl
          by (pose proof (ledger_read_page_title w); ledger_go);
        specialize (Hl s2); destruct (mbind f m s2) as [r2 s3]
    end.
    cbn [snd] in Hl.
    assert (st_uploaded s3 = st_uploaded s1) as Hu3.
    { apply (ledger_no_upload is_page_open (set_driver true s1) s3); [|exact Hl].
      intros ev; destruct ev; try reflexivity; discriminate. }
    destruct Hl as (Hd3 & evs2 & _ & _ & Ht3 & Hev3 & _).
    simpl_state_all.
    exists r2, s3, (evs1 ++ evs2). split; [reflexivity|].
    split; [rewrite Ht3, Ht1, app_assoc; reflexivity|].
    split; [apply Forall_app; auto|]. split; [congruence|].
    rewrite driver_built_app, chrome_started_app, Hb1, Hd3, (Hc1 eq_refl).
    rewrite orb_true_r. auto.
  - exists (Raise e), s1, evs1. split; [reflexivity|].
    split; [exact Ht1|]. split; [exact Hev1|]. split; [exact Hu1|].
    rewrite Hb1, orb_false_r. split; [exact Hd1|]. split; discriminate.
Qed.

(** [driver.quit()] is called exactly if [driver] was assigned. *)
Lemma quit_run (s : State) :
  exists s' evs,
    quit_driver w s = (Ok tt, s')
    /\ st_trace s' = st_trace s ++ evs
    /\ Forall (fun ev => is_quit ev = true) evs
    /\ length evs = (if st_driver s then 1 else 0)
    /\ st_driver s' = st_driver s
    /\ st_uploaded s' = st_uploaded s
    /\ st_messages s' = st_messages s.
Proof.
  unfold quit_driver, cmd. unfold_run.
  destruct (st_driver s) eqn:Hd; simpl_state.
  - case_answer; try match goal with a : unit |- _ => destruct a end;
      eexists _, _; (split; [reflexivity|]); simpl_state;
      (split; [reflexivity|]); (split; [repeat constructor|]);
      repeat split; exact Hd.
  - exists s, []. rewrite app_nil_r. repeat split; auto.
Qed.

End StageRuns.

Section TaskRun.

Context (w : World).

Lemma session_run (s : State) :
  exists s' r,
    session_from_driver w s = (Ok tt, s')
    /\ st_trace s' = st_trace s ++ [EvGetCookies r]
    /\ st_driver s' = st_driver s
    /\ st_uploaded s' = st_uploaded s.
Proof.
  unfold session_from_driver. unfold_run. case_answer;
    try match goal with a : unit |- _ => destruct a end;
    eexists _, _; (split; [reflexivity|]); simpl_state; repeat split.
Qed.

(** The handler of a failed task: the browser is quit if there is one. *)
Lemma failed_run (task_id : string) (e : exn) (s : State) :
  exists res s' evs,
    task_failed w task_id e s = (Ok res, s')
    /\ st_trace s' = st_trace s ++ evs
    /\ Forall (fun ev => is_quit ev = true) evs
    /\ length evs = (if st_driver s then 1 else 0)
    /\ st_driver s' = st_driver s
    /\ res_status res = Some "error"
    /\ res_uploaded res = [].
Proof.
  unfold task_failed. rewrite run_bind. unfold log at 1, modify at 1.
  rewrite run_bind. unfold say at 1, modify at 1. rewrite run_bind.
  match goal with
  | |- context [quit_driver w ?s0] =>
      destruct (quit_run w s0) as (s1 & evs & -> & Ht & Hev & Hlen & Hd & _)
  end.
  simpl_state_all.
  eexists _, _, evs. split; [reflexivity|]. simpl_state. auto 10.
Qed.

(** The calls of a task after the working directory is set up, stage by
    stage. *)
Lemma task_run (task_id url : string) (s s0 : State) :
  prepare_work_dir w task_id s = (Ok tt, s0) ->
  exists res s' evOpen evCook evA evB evUp evQuit (up : list Path),
    handle_single_task w task_id url s = (Ok res, s')
    /\ st_trace s'
       = st_trace s0 ++ evOpen ++ evCook ++ evA ++ evB ++ evUp ++ evQuit
    /\ Forall (fun ev => is_page_open ev = true) evOpen
    /\ Forall (fun ev => is_cookie_read ev = true) evCook
    /\ Forall (fun ev => is_strategy_a ev = true) evA
    /\ Forall (fun ev => is_strategy_b ev = true) evB
    /\ Forall (fun ev => is_upload_stage ev = true) evUp
    /\ Forall (fun ev => is_quit ev = true) evQuit
    /\ (driver_built evOpen = true -> chrome_started evOpen = true)
    /\ (completed_downloads evA <> [] -> evB = [])
    /\ res_uploaded res = map name up
    /\ posted_ok evUp = map path_str up
    /\ ((res_status res = Some "error"
         /\ evCook = [] /\ evA = [] /\ evB = [] /\ evUp = []
         /\ length evQuit = (if driver_built evOpen then 2 else 0))
        \/ (res_status res
            = Some (if is_nil (completed_downloads (evA ++ evB))
                    then "no_content" else "success")
            /\ driver_built evOpen = true
            /\ length evCook = 1
            /\ length evQuit = 1)).
Proof.
  intros Hprep. unfold handle_single_task.
  rewrite run_bind, Hprep, run_bind. unfold modify at 1.
  unfold try_finally. rewrite run_try_except. unfold task_body.
  rewrite run_bind.
  destruct (open_page_run w (task_work_dir task_id) url (set_driver false s0))
    as (r & s1 & evOpen & -> & Ht1 & Hev1 & Hu1 & Hd1 & Hok1 & Hch1).
  simpl_state_all. cbn [orb] in Hd1.
  destruct r as [title|e]; cbn [is_ok] in Hok1.
  - specialize (Hok1 eq_refl). rewrite Hok1 in Hd1.
    rewrite run_bind. unfold say at 1, modify at 1. rewrite run_bind.
    match goal with
    | |- context [session_from_driver w ?s2] =>
        destruct (session_run s2) as (s3 & rc & -> & Ht3 & Hd3 & Hu3)
    end.
    simpl_state_all. rewrite run_bind.
    destruct (run_strategies_run w task_id title (task_work_dir task_id) s3)
      as (l & s4 & evA & evB & -> & Ht4 & HA & HB & Hc4 & Hskip & _ & Hd4 & Hu4).
    destruct (finish_run w task_id title l s4)
      as (res & s5 & evUp & up & -> & Ht5 & HU & Hd5 & Hst & Hup & Hpo & _).
    destruct (quit_run w s5) as (s6 & evQuit & -> & Ht6 & HQ & Hlen & _).
    exists res, s6, evOpen, [EvGetCookies rc], evA, evB, evUp, evQuit, up.
    split; [reflexivity|].
    split; [rewrite Ht6, Ht5, Ht4, Ht3, Ht1, <- !app_assoc; reflexivity|].
    split; [exact Hev1|]. split; [repeat constructor|].
    split; [exact HA|]. split; [exact HB|]. split; [exact HU|].
    split; [exact HQ|]. split; [exact Hch1|]. split; [exact Hskip|].
    split; [exact Hup|]. split; [exact Hpo|].
    right. split; [rewrite Hst, <- Hc4; destruct l; reflexivity|].
    split; [exact Hok1|]. split; [reflexivity|].
    rewrite Hlen, Hd5, Hd4, Hd3, Hd1. reflexivity.
  - destruct (failed_run task_id e s1)
      as (res & s2 & evQ1 & -> & Ht2 & HQ1 & Hlen1 & Hd2 & Hst & Hup).
    destruct (quit_run w s2) as (s3 & evQ2 & -> & Ht3 & HQ2 & Hlen2 & _).
    exists res, s3, evOpen, [], [], [], [], (evQ1 ++ evQ2), [].
    split; [reflexivity|].
    split; [rewrite Ht3, Ht2, Ht1, <- !app_assoc; reflexivity|].
    split; [exact Hev1|]. do 4 (split; [constructor|]).
    split; [apply Forall_app; auto|]. split; [exact Hch1|].
    split; [intros H; exfalso; apply H; reflexivity|].
    split; [exact Hup|]. split; [reflexivity|].
    left. split; [exact Hst|]. do 4 (split; [reflexivity|]).
    rewrite length_app, Hlen1, Hlen2, Hd2, Hd1.
    destruct (driver_built evOpen); reflexivity.
Qed.

End TaskRun.

(** ** What a task reports *)

Section Classes.

Lemma omap_of_class {A} (f : event -> option A) (P : event -> bool)
    (evs : list event) :
  (forall ev, P ev = true -> f ev = None) ->
  Forall (fun ev => P ev = true) evs -> omap f evs = [].
Proof.
  intros Hf. induction 1 as [|ev evs Hev _ IH]; [reflexivity|].
  cbn [omap list_omap]. rewrite (Hf ev Hev). exact IH.
Qed.

Lemma existsb_of_class (f P : event -> bool) (evs : list event) :
  (forall ev, P ev = true -> f ev = false) ->
  Forall (fun ev => P ev = true) evs -> existsb f evs = false.
Proof.
  intros Hf. induction 1 as [|ev evs Hev _ IH]; [reflexivity|].
  cbn [existsb]. rewrite (Hf ev Hev). exact IH.
Qed.

Lemma count_events_all (p : event -> bool) (evs : list event) :
  Forall (fun ev => p ev = true) evs -> count_events p evs = length evs.
Proof.
  intros H. unfold count_events. induction H as [|ev evs Hev _ IH].
  - reflexivity.
  - rewrite filter_cons. destruct (decide (p ev = true)); [|contradiction].
    cbn [length]. rewrite IH. reflexivity.
Qed.

Context (w : World).

(** Setting up the working directory removes and makes directories, and
    does nothing else. *)
Lemma prepare_run (task_id : string) (s : State) :
  exists evs,
    st_trace (prepare_work_dir w task_id s).2 = st_trace s ++ evs
    /\ Forall (fun ev => is_work_dir_setup ev = true) evs.
Proof.
  unfold prepare_work_dir. unfold_run. unfold path_exists, rmtree. unfold_run.
  destruct (bool_decide _); simpl_state; case_answer; simpl_state;
    eexists; rewrite <- ?app_assoc; (split; [reflexivity|]);
    repeat constructor.
Qed.

(** A task that returns has set up its working directory. *)
Lemma returned_prepared (task_id url : string) (s s' : State)
    (res : gmap string pyval) :
  handle_single_task w task_id url s = (Ok res, s') ->
  exists s0, prepare_work_dir w task_id s = (Ok tt, s0).
Proof.
  unfold handle_single_task. rewrite run_bind.
  destruct (prepare_work_dir w task_id s) as [[[]|e] s0]; [eauto | discriminate].
Qed.

End Classes.

(** Solve [f ev = None] or [f ev = false] for the calls [ev] of a class. *)
Ltac by_class :=
  let ev := fresh "ev" in
  let H := fresh "H" in
  intros ev H; destruct ev; try discriminate H; try reflexivity;
  repeat match goal with
         | x : driver_cmd |- _ => destruct x; try discriminate H; try reflexivity
         | x : Res _ |- _ => destruct x; try discriminate H; try reflexivity
         end.

(** X7: the list of uploaded names a task returns is exact: it names, in
    order, the files whose POST to the knowledge base was answered with a
    status that is not an error, and no other.  A result without that
    list (no content, error) goes with a task in which no POST was
    accepted. *)
Theorem reported_uploads_are_the_accepted_posts (w : World)
    (task_id url : string) (s s' : State) (res : gmap string pyval) :
  handle_single_task w task_id url s = (Ok res, s') ->
  exists up : list Path,
    res_uploaded res = map name up
    /\ posted_ok (new_events s s') = map path_str up.
Proof.
  intros Hrun. destruct (returned_prepared w _ _ _ _ _ Hrun) as (s0 & Hprep).
  destruct (prepare_run w task_id s) as (ev0 & Ht0 & H0).
  rewrite Hprep in Ht0. cbn [snd] in Ht0.
  destruct (task_run w task_id url s s0 Hprep)
    as (res' & s'' & evOpen & evCook & evA & evB & evUp & evQuit & up & Hrun'
        & Ht & HO & HC & HA & HB & HU & HQ & _ & _ & Hup & Hpo & _).
  rewrite Hrun in Hrun'. injection Hrun' as <- <-.
  exists up. split; [exact Hup|].
  rewrite (new_events_app s s'
             (ev0 ++ evOpen ++ evCook ++ evA ++ evB ++ evUp ++ evQuit))
    by (rewrite Ht, Ht0, <- app_assoc; reflexivity).
  rewrite !posted_ok_app, <- Hpo. unfold posted_ok at 1 2 3 4 5 7.
  rewrite (omap_of_class _ is_work_dir_setup ev0) by (by_class || exact H0).
  rewrite (omap_of_class _ is_page_open evOpen) by (by_class || exact HO).
  rewrite (omap_of_class _ is_cookie_read evCook) by (by_class || exact HC).
  rewrite (omap_of_class _ is_strategy_a evA) by (by_class || exact HA).
  rewrite (omap_of_class _ is_strategy_b evB) by (by_class || exact HB).
  rewrite (omap_of_class _ is_quit evQuit) by (by_class || exact HQ).
  rewrite app_nil_r. reflexivity.
Qed.

(** X7, witness: the task of [direct_href_world] uploads the one file it
    downloaded. *)
Lemma reported_uploads_are_the_accepted_posts_witness :
  exists res s' up,
    handle_single_task direct_href_world "7" "http://site/detail/7" init_state
    = (Ok res, s')
    /\ res_uploaded res = map name up
    /\ posted_ok (new_events init_state s') = map path_str up.
Proof.
  assert (handle_single_task direct_href_world "7" "http://site/detail/7"
            init_state
          = (Ok (run_result (handle_single_task direct_href_world "7"
                               "http://site/detail/7" init_state)),
             (handle_single_task direct_href_world "7" "http://site/detail/7"
                init_state).2)) as Hrun by (vm_compute; reflexivity).
  destruct (reported_uploads_are_the_accepted_posts direct_href_world "7"
              "http://site/detail/7" init_state _ _ Hrun) as (up & H1 & H2).
  eexists _, _, up. split; [exact Hrun|]. split; assumption.
Defined.

(** X8: the two strategies return exactly the files whose download was
    written to its end, in order.  Their calls are those of strategy A
    followed by those of strategy B, and strategy B is run exactly when
    no download of strategy A completed: then its first call switches to
    the main document, otherwise it makes no call at all.  Neither
    strategy navigates, uploads, deletes or quits the browser. *)
Theorem strategies_return_the_completed_downloads (w : World)
    (task_id title : string) (wd : Path) (s : State) :
  exists l s' evA evB,
    run_strategies w task_id title wd s = (Ok l, s')
    /\ new_events s s' = evA ++ evB
    /\ Forall (fun ev => is_strategy_a ev = true) evA
    /\ Forall (fun ev => is_strategy_b ev = true) evB
    /\ map path_str l = completed_downloads (evA ++ evB)
    /\ (completed_downloads evA <> [] -> evB = [])
    /\ (completed_downloads evA = [] ->
        exists r rest, evB = EvCmd CmdDefaultContent r :: rest).
Proof.
  destruct (run_strategies_run w task_id title wd s)
    as (l & s' & evA & evB & Hrun & Ht & HA & HB & Hc & Hskip & Hb & _).
  exists l, s', evA, evB. split; [exact Hrun|].
  split; [apply new_events_app; exact Ht|]. auto 10.
Qed.

(** X9: a task reports success exactly when at least one download was
    written to its end, whatever became of the uploads: a task whose
    uploads were all refused still reports success, with an empty list of
    uploaded names. *)
Theorem status_is_success_iff_a_download_completed (w : World)
    (task_id url : string) (s s' : State) (res : gmap string pyval) :
  handle_single_task w task_id url s = (Ok res, s') ->
  (res_status res = Some "success"
   <-> completed_downloads (new_events s s') <> []).
Proof.
  intros Hrun. destruct (returned_prepared w _ _ _ _ _ Hrun) as (s0 & Hprep).
  destruct (prepare_run w task_id s) as (ev0 & Ht0 & H0).
  rewrite Hprep in Ht0. cbn [snd] in Ht0.
  destruct (task_run w task_id url s s0 Hprep)
    as (res' & s'' & evOpen & evCook & evA & evB & evUp & evQuit & up & Hrun'
        & Ht & HO & HC & HA & HB & HU & HQ & _ & _ & _ & _ & Hcase).
  rewrite Hrun in Hrun'. injection Hrun' as <- <-.
  rewrite (new_events_app s s'
             (ev0 ++ evOpen ++ evCook ++ evA ++ evB ++ evUp ++ evQuit))
    by (rewrite Ht, Ht0, <- app_assoc; reflexivity).
  assert (completed_downloads
            (ev0 ++ evOpen ++ evCook ++ evA ++ evB ++ evUp ++ evQuit)
          = completed_downloads (evA ++ evB)) as ->.
  { rewrite !completed_downloads_app. unfold completed_downloads at 1 2 3 6 7.
    rewrite (omap_of_class _ is_work_dir_setup ev0) by (by_class || exact H0).
    rewrite (omap_of_class _ is_page_open evOpen) by (by_class || exact HO).
    rewrite (omap_of_class _ is_cookie_read evCook) by (by_class || exact HC).
    rewrite (omap_of_class _ is_upload_stage evUp) by (by_class || exact HU).
    rewrite (omap_of_class _ is_quit evQuit) by (by_class || exact HQ).
    rewrite !app_nil_r. reflexivity. }
  destruct Hcase as [(Hst & _ & -> & -> & _)|(Hst & _)]; rewrite Hst.
  - split; [discriminate | intros H; exfalso; apply H; reflexivity].
  - destruct (completed_downloads (evA ++ evB)); cbn [is_nil].
    + split; [discriminate | congruence].
    + split; [discriminate | reflexivity].
Qed.

(** X9, witness: the file is downloaded, the knowledge base answers the
    POST with status 500; the task reports success and no uploaded
    name. *)
Lemma status_is_success_iff_a_download_completed_witness :
  exists res s',
    handle_single_task refusing_world "7" "http://site/detail/7" init_state
    = (Ok res, s')
    /\ res_status res = Some "success"
    /\ res_uploaded res = []
    /\ completed_downloads (new_events init_state s') <> [].
Proof.
  assert (handle_single_task refusing_world "7" "http://site/detail/7"
            init_state
          = (Ok (run_result (handle_single_task refusing_world "7"
                               "http://site/detail/7" init_state)),
             (handle_single_task refusing_world "7" "http://site/detail/7"
                init_state).2)) as Hrun by (vm_compute; reflexivity).
  assert (res_status (run_result (handle_single_task refusing_world "7"
                                    "http://site/detail/7" init_state))
          = Some "success") as Hst by (vm_compute; reflexivity).
  eexists _, _. split; [exact Hrun|].
  split; [exact Hst|]. split; [vm_compute; reflexivity|].
  apply (status_is_success_iff_a_download_completed refusing_world "7"
           "http://site/detail/7" init_state _ _ Hrun).
  exact Hst.
Defined.

(** X10: the browser is quit exactly if [build_driver] returned, and then
    quitting is the last call of the task: twice in a row when the task
    ends in the error handler, once otherwise.  When [build_driver]
    raises, the task reports an error and never calls [quit], not even
    when the browser process had been started. *)
Theorem browser_quit_iff_driver_built (w : World) (task_id url : string)
    (s s0 : State) :
  prepare_work_dir w task_id s = (Ok tt, s0) ->
  exists res s',
    handle_single_task w task_id url s = (Ok res, s')
    /\ count_events is_quit (new_events s0 s')
       = (if driver_built (new_events s0 s')
          then if bool_decide (res_status res = Some "error") then 2 else 1
          else 0)
    /\ (driver_built (new_events s0 s') = true ->
        exists evs r, new_events s0 s' = evs ++ [EvCmd CmdQuit r])
    /\ (driver_built (new_events s0 s') = false ->
        res_status res = Some "error").
Proof.
  intros Hprep.
  destruct (task_run w task_id url s s0 Hprep)
    as (res & s' & evOpen & evCook & evA & evB & evUp & evQuit & up & Hrun
        & Ht & HO & HC & HA & HB & HU & HQ & _ & _ & _ & _ & Hcase).
  exists res, s'. split; [exact Hrun|].
  rewrite (new_events_app s0 s' _ Ht).
  assert (driver_built (evOpen ++ evCook ++ evA ++ evB ++ evUp ++ evQuit)
          = driver_built evOpen) as ->.
  { rewrite !driver_built_app. unfold driver_built at 2 3 4 5 6.
    rewrite (existsb_of_class _ is_cookie_read evCook) by (by_class || exact HC).
    rewrite (existsb_of_class _ is_strategy_a evA) by (by_class || exact HA).
    rewrite (existsb_of_class _ is_strategy_b evB) by (by_class || exact HB).
    rewrite (existsb_of_class _ is_upload_stage evUp) by (by_class || exact HU).
    rewrite (existsb_of_class _ is_quit evQuit) by (by_class || exact HQ).
    rewrite !orb_false_r. reflexivity. }
  assert (count_events is_quit
            (evOpen ++ evCook ++ evA ++ evB ++ evUp ++ evQuit)
          = length evQuit) as ->.
  { rewrite !count_events_app.
    rewrite (count_events_none is_quit is_page_open evOpen)
      by (by_class || exact HO).
    rewrite (count_events_none is_quit is_cookie_read evCook)
      by (by_class || exact HC).
    rewrite (count_events_none is_quit is_strategy_a evA)
      by (by_class || exact HA).
    rewrite (count_events_none is_quit is_strategy_b evB)
      by (by_class || exact HB).
    rewrite (count_events_none is_quit is_upload_stage evUp)
      by (by_class || exact HU).
    rewrite (count_events_all is_quit evQuit HQ). reflexivity. }
  assert (0 < length evQuit ->
          exists evs r,
            evOpen ++ evCook ++ evA ++ evB ++ evUp ++ evQuit
            = evs ++ [EvCmd CmdQuit r]) as Hlast.
  { intros Hpos.
    destruct (exists_last (l := evQuit)) as (evs & ev & Hq);
      [intros ->; cbn in Hpos; lia|].
    subst evQuit. apply Forall_app in HQ as [_ HQ].
    apply Forall_inv in HQ.
    destruct ev as [c r| | | | | | | | | | | | | | | | | | | |];
      try discriminate HQ.
    destruct c; try discriminate HQ.
    exists (evOpen ++ evCook ++ evA ++ evB ++ evUp ++ evs), r.
    rewrite <- !app_assoc. reflexivity. }
  destruct Hcase as [(Hst & _ & _ & _ & _ & Hlen)|(Hst & Hb & _ & Hlen)].
  - rewrite Hst, Hlen. rewrite bool_decide_eq_true_2 by reflexivity.
    split; [reflexivity|]. split; [|auto].
    intros Hb. apply Hlast. rewrite Hlen, Hb. lia.
  - rewrite Hb, Hlen. split.
    + rewrite bool_decide_eq_false_2; [reflexivity|].
      rewrite Hst. destruct (is_nil _); discriminate.
    + split; [intros _; apply Hlast; lia | discriminate].
Qed.

(** X10, witness: the browser starts, setting its page-load timeout
    fails; the task reports an error and the browser is never quit. *)
Lemma browser_quit_iff_driver_built_witness :
  exists res s',
    handle_single_task timeout_failure_world "7" "http://site/detail/7"
      init_state = (Ok res, s')
    /\ chrome_started (st_trace s') = true
    /\ count_events is_quit
         (new_events (prepare_work_dir timeout_failure_world "7" init_state).2 s')
       = 0
    /\ res_status res = Some "error".
Proof.
  destruct (browser_quit_iff_driver_built timeout_failure_world "7"
              "http://site/detail/7" init_state
              (prepare_work_dir timeout_failure_world "7" init_state).2)
    as (res & s' & Hrun & Hcount & _ & Herr).
  { vm_compute. reflexivity. }
  exists res, s'. split; [exact Hrun|].
  assert ((handle_single_task timeout_failure_world "7" "http://site/detail/7"
             init_state).2 = s') as Hs' by (rewrite Hrun; reflexivity).
  subst s'.
  assert (driver_built
            (new_events
               (prepare_work_dir timeout_failure_world "7" init_state).2
               (handle_single_task timeout_failure_world "7"
                  "http://site/detail/7" init_state).2)
          = false) as Hb by (vm_compute; reflexivity).
  split; [vm_compute; reflexivity|].
  split; [rewrite Hcount, Hb; reflexivity | exact (Herr Hb)].
Defined.

(** X11: the calls of a task come stage by stage, in this order: the
    session and the page, the cookies, strategy A, strategy B, the
    expansion and the uploads, the quit.  So nothing is uploaded before
    every download is over, and the browser is not used after the
    uploads begin except to be quit. *)
Theorem task_calls_come_stage_by_stage (w : World) (task_id url : string)
    (s s0 : State) :
  prepare_work_dir w task_id s = (Ok tt, s0) ->
  exists res s' evOpen evCook evA evB evUp evQuit,
    handle_single_task w task_id url s = (Ok res, s')
    /\ new_events s0 s' = evOpen ++ evCook ++ evA ++ evB ++ evUp ++ evQuit
    /\ Forall (fun ev => is_page_open ev = true) evOpen
    /\ Forall (fun ev => is_cookie_read ev = true) evCook
    /\ Forall (fun ev => is_strategy_a ev = true) evA
    /\ Forall (fun ev => is_strategy_b ev = true) evB
    /\ Forall (fun ev => is_upload_stage ev = true) evUp
    /\ Forall (fun ev => is_quit ev = true) evQuit.
Proof.
  intros Hprep.
  destruct (task_run w task_id url s s0 Hprep)
    as (res & s' & evOpen & evCook & evA & evB & evUp & evQuit & up & Hrun
        & Ht & HO & HC & HA & HB & HU & HQ & _).
  exists res, s', evOpen, evCook, evA, evB, evUp, evQuit.
  split; [exact Hrun|]. split; [apply new_events_app; exact Ht|]. auto 10.
Qed.

(** X11, witness: the task of [direct_href_world]. *)
Lemma task_calls_come_stage_by_stage_witness :
  exists res s' evOpen evCook evA evB evUp evQuit,
    handle_single_task direct_href_world "7" "http://site/detail/7" init_state
    = (Ok res, s')
    /\ new_events (prepare_work_dir direct_href_world "7" init_state).2 s'
       = evOpen ++ evCook ++ evA ++ evB ++ evUp ++ evQuit
    /\ Forall (fun ev => is_page_open ev = true) evOpen
    /\ Forall (fun ev => is_cookie_read ev = true) evCook
    /\ Forall (fun ev => is_strategy_a ev = true) evA
    /\ Forall (fun ev => is_strategy_b ev = true) evB
    /\ Forall (fun ev => is_upload_stage ev = true) evUp
    /\ Forall (fun ev => is_quit ev = true) evQuit.
Proof.
  apply (task_calls_come_stage_by_stage direct_href_world "7"
           "http://site/detail/7" init_state).
  vm_compute. reflexivity.
Defined.

(** ** Files that are not expanded *)

Section PlainFiles.

Context (w : World).

(** Without [patoolib], the loop over downloaded [.rar] files only
    writes messages. *)
Lemma rar_loop_run (task_id title : string) (l : list Path) (s : State) :
  w_patoolib w = false ->
  Forall (fun p => lower (path_suffix p) = ".rar") l ->
  exists s',
    for_each l (process_download w task_id title) s = (Ok tt, s')
    /\ st_trace s' = st_trace s
    /\ st_fs s' = st_fs s
    /\ st_uploaded s' = st_uploaded s
    /\ st_messages s'
       = st_messages s
         ++ map (fun p => if bool_decide (path_str p ∈ st_fs s)
                          then "  patoolib 未安装，无法解压 rar"
                          else ("  文件缺失: " ++ path_str p)%string) l.
Proof.
  intros Hpat Hl. revert s. induction Hl as [|p l Hp _ IH]; intros s.
  - exists s. rewrite app_nil_r. repeat split.
  - cbn [for_each]. rewrite run_bind.
    assert (exists s1,
              process_download w task_id title p s = (Ok tt, s1)
              /\ st_trace s1 = st_trace s /\ st_fs s1 = st_fs s
              /\ st_uploaded s1 = st_uploaded s
              /\ st_messages s1
                 = st_messages s
                   ++ [if bool_decide (path_str p ∈ st_fs s)
                       then "  patoolib 未安装，无法解压 rar"
                       else ("  文件缺失: " ++ path_str p)%string])
      as (s1 & -> & Ht1 & Hf1 & Hu1 & Hm1).
    { unfold process_download. rewrite run_bind.
      unfold path_exists at 1, gets at 1.
      destruct (bool_decide (path_str p ∈ st_fs s)); cbn [negb].
      - unfold extract_and_upload_file. rewrite Hp, Hpat.
        change (String.eqb ".rar" ".zip") with false.
        change (String.eqb ".rar" ".rar") with true. cbn [negb].
        eexists. split; [reflexivity|]. repeat split.
      - eexists. split; [reflexivity|]. repeat split. }
    destruct (IH s1) as (s' & -> & Ht & Hf & Hu & Hm).
    exists s'. split; [reflexivity|].
    rewrite Ht, Hf, Hu, Hm, Hm1, Hf1, <- app_assoc. repeat split; assumption.
Qed.

End PlainFiles.

(** X12: where [patoolib] is not installed, downloaded [.rar] archives
    are dropped: for a task whose downloads are all [.rar] files, what
    follows the strategies makes no call at all (nothing is expanded,
    copied or uploaded, the archive itself included), writes one line per
    file, and still reports success, with an empty list of uploaded names
    and the report of 0 uploads. *)
Theorem rar_is_dropped_without_patoolib (w : World) (task_id title : string)
    (l : list Path) (s : State) :
  w_patoolib w = false ->
  l <> [] ->
  Forall (fun p => lower (path_suffix p) = ".rar") l ->
  exists res s',
    finish_task w task_id title l s = (Ok res, s')
    /\ new_events s s' = []
    /\ res_status res = Some "success"
    /\ res_uploaded res = []
    /\ res !! "report" = Some (VStr "上传 0 件")
    /\ new_messages s s'
       = map (fun p => if bool_decide (path_str p ∈ st_fs s)
                       then "  patoolib 未安装，无法解压 rar"
                       else ("  文件缺失: " ++ path_str p)%string) l
         ++ [("--- [附件攻坚任务] ID " ++ task_id ++ " 结束: 上传 0 件 ---")%string].
Proof.
  intros Hpat Hne Hl. unfold finish_task.
  destruct l as [|f fs]; [congruence|].
  cbn [is_nil]. rewrite run_bind. unfold modify at 1. rewrite run_bind.
  destruct (rar_loop_run w task_id title (f :: fs) (set_uploaded [] s) Hpat Hl)
    as (s1 & -> & Ht & Hf & Hu & Hm).
  simpl_state_all.
  eexists _, _. split; [reflexivity|]. simpl_state.
  split; [apply new_events_nil; exact Ht|].
  split; [reflexivity|].
  split; [unfold res_uploaded; rewrite Hu; reflexivity|].
  split; [rewrite Hu; reflexivity|].
  apply new_messages_app. rewrite Hm, Hu, <- app_assoc. reflexivity.
Qed.

(** X12, witness: one [.RAR] file that is on the disk. *)
Lemma rar_is_dropped_without_patoolib_witness :
  exists res s',
    finish_task quiet_world "7" "" [mkPath "/w/7" "x.RAR"]
      (set_fs {[ "/w/7/x.RAR" ]} init_state) = (Ok res, s')
    /\ new_events (set_fs {[ "/w/7/x.RAR" ]} init_state) s' = []
    /\ res_status res = Some "success"
    /\ res_uploaded res = []
    /\ res !! "report" = Some (VStr "上传 0 件")
    /\ new_messages (set_fs {[ "/w/7/x.RAR" ]} init_state) s'
       = map (fun p => if bool_decide
                            (path_str p
                             ∈ st_fs (set_fs {[ "/w/7/x.RAR" ]} init_state))
                       then "  patoolib 未安装，无法解压 rar"
                       else ("  文件缺失: " ++ path_str p)%string)
             [mkPath "/w/7" "x.RAR"]
         ++ ["--- [附件攻坚任务] ID 7 结束: 上传 0 件 ---"].
Proof.
  apply (rar_is_dropped_without_patoolib quiet_world "7" ""
           [mkPath "/w/7" "x.RAR"] (set_fs {[ "/w/7/x.RAR" ]} init_state)).
  - reflexivity.
  - discriminate.
  - repeat constructor.
Defined.



(** ** The search of a response body *)

Section FindUrl.

Lemma endswith_nonempty (s ext : string) :
  endswith s ext = true -> ext <> "" -> s <> "".
Proof. intros H Hne ->. cbn in H. destruct ext; [congruence | discriminate]. Qed.

Lemma url_value_nonempty (s : string) : is_url_value s = true -> nonempty s = true.
Proof.
  destruct s as [|c s]; [|reflexivity]. intros H. exfalso. revert H.
  vm_compute. discriminate.
Qed.

Lemma list_find_app {A} (p : A -> bool) (l1 l2 : list A) :
  List.find p (l1 ++ l2)
  = match List.find p l1 with Some x => Some x | None => List.find p l2 end.
Proof.
  induction l1 as [|x l1 IH]; [reflexivity|]. cbn [app List.find].
  destruct (p x); [reflexivity | exact IH].
Qed.

Lemma find_some_holds (p : string -> bool) (l : list string) (x : string) :
  List.find p l = Some x -> p x = true.
Proof. intros H. apply List.find_some in H. tauto. Qed.

Lemma find_url_spec (obj : json) :
  find_url obj = List.find is_url_value (dict_strings obj).
Proof.
  induction obj as [| | | |items IH|items IH] using json_induction;
    try reflexivity.
  - cbn [find_url dict_strings]. induction IH as [|it l Hit _ IHl];
      [reflexivity|].
    rewrite list_find_app, <- Hit, IHl.
    destruct (find_url it) as [res|]; [|reflexivity].
    symmetry in Hit. apply find_some_holds, url_value_nonempty in Hit.
    rewrite Hit. reflexivity.
  - cbn [find_url dict_strings]. induction IH as [|[k v] l Hv _ IHl];
      [reflexivity|].
    cbn [snd] in Hv. rewrite list_find_app, IHl.
    match goal with
    | |- _ = match _ with Some _ => _ | None => ?r end => generalize r
    end.
    clear IHl. intros rest.
    destruct v as [| | |s| |];
      try (rewrite <- Hv; destruct (find_url _) as [res|]; [|reflexivity];
           symmetry in Hv; apply find_some_holds, url_value_nonempty in Hv;
           rewrite Hv; reflexivity).
    cbn [List.find find_url]. unfold is_url_value at 1.
    destruct (ends_with_ext s); [reflexivity|]. cbn [orb].
    destruct (is_download_link s); reflexivity.
Qed.

End FindUrl.

(** X14: the deep search of a response body returns the first string, in
    the order of the document, that is the value of a key (at any depth)
    and either ends in a recognised extension (case matters here) or
    starts with [http] and holds [down.bidcenter] or an extension.
    Strings that are items of a list, and a document that is itself a
    string, are never returned. *)
Theorem find_url_returns_first_matching_value (obj : json) :
  find_url obj = List.find is_url_value (dict_strings obj)
  /\ (forall l : list string, find_url (JList (map JStr l)) = None)
  /\ (forall s : string, find_url (JStr s) = None).
Proof.
  split; [apply find_url_spec|]. split; [|reflexivity].
  intros l. rewrite find_url_spec.
  assert (dict_strings (JList (map JStr l)) = []) as ->; [|reflexivity].
  cbn [dict_strings]. induction l as [|x l IH]; [reflexivity | exact IH].
Qed.

Section UrlInJson.

Lemma dict_lookup_in (fk v : string) (items : list (string * json)) :
  dict_lookup fk items = Some (JStr v) -> In v (dict_strings (JDict items)).
Proof.
  cbn [dict_strings]. induction items as [|[k x] items IH]; [discriminate|].
  cbn [dict_lookup]. destruct (String.eqb k fk).
  - intros [= ->]. left. reflexivity.
  - intros H. apply in_or_app. right. apply IH. exact H.
Qed.

(** The loop over the well-known fields of an object. *)
Lemma known_field_url_dict (fields : list string) (items : list (string * json)) :
  known_field_url fields (JDict items)
  = Ok (match List.find (is_http_field items) fields with
        | Some fk => match dict_lookup fk items with
                     | Some (JStr v) => Some v
                     | _ => None
                     end
        | None => None
        end).
Proof.
  induction fields as [|fk rest IH]; [reflexivity|].
  cbn [known_field_url py_in py_get List.find]. unfold is_http_field at 1.
  assert (existsb (fun kv : string * json => String.eqb kv.1 fk) items = false ->
          dict_lookup fk items = None) as Hmiss.
  { clear. induction items as [|[k x] items IH]; [reflexivity|].
    cbn [existsb dict_lookup fst]. destruct (String.eqb k fk); [discriminate|].
    exact IH. }
  destruct (existsb _ items) eqn:Hin.
  - destruct (dict_lookup fk items) as [[| | |v| |]|] eqn:Hl; try exact IH.
    destruct (startswith v "http"); [|exact IH].
    cbv iota. rewrite Hl. reflexivity.
  - rewrite (Hmiss eq_refl). exact IH.
Qed.

Lemma known_field_url_sound (fields : list string) (j : json) (v : string) :
  known_field_url fields j = Ok (Some v) ->
  In v (dict_strings j) /\ startswith v "http" = true.
Proof.
  induction fields as [|fk rest IH]; [discriminate|].
  cbn [known_field_url]. destruct (py_in fk j) as [[|]|e]; [|exact IH|discriminate].
  destruct j as [| | | | |items]; try discriminate. cbn [py_get].
  destruct (dict_lookup fk items) as [[| | |s| |]|] eqn:Hl; try exact IH.
  destruct (startswith s "http") eqn:Hs; [|exact IH].
  intros [= ->]. split; [eapply dict_lookup_in; exact Hl | exact Hs].
Qed.

End UrlInJson.

(** X15: whatever URL is taken from a parsed response body is a string
    of that body, the value of one of its keys, and it starts with [http]
    or ends in a recognised extension: nothing is made up, and a string
    that is an item of a list is not taken. *)
Theorem url_in_json_sound (j : json) (u : string) :
  url_in_json j = Ok (Some u) ->
  In u (dict_strings j)
  /\ (startswith u "http" = true \/ ends_with_ext u = true).
Proof.
  unfold url_in_json.
  destruct (known_field_url URL_FIELDS j) as [[found|]|e] eqn:Hk;
    [| |discriminate].
  - destruct (known_field_url_sound _ _ _ Hk) as [Hin Hs].
    destruct (nonempty found) eqn:Hne; [intros [= <-]; auto|].
    destruct found; [discriminate Hs | discriminate Hne].
  - intros [= Hf]. rewrite find_url_spec in Hf.
    apply List.find_some in Hf as [Hin Hp]. split; [exact Hin|].
    unfold is_url_value, is_download_link in Hp.
    apply orb_true_iff in Hp as [Hp|Hp]; [right; exact Hp|].
    apply andb_true_iff in Hp as [Hp _]. left. exact Hp.
Qed.

(** X15, witness: the link of [sample_body], found by the deep search. *)
Lemma url_in_json_sound_witness :
  In "http://down.bidcenter.com.cn/f/17" (dict_strings sample_body)
  /\ (startswith "http://down.bidcenter.com.cn/f/17" "http" = true
      \/ ends_with_ext "http://down.bidcenter.com.cn/f/17" = true).
Proof.
  apply (url_in_json_sound sample_body "http://down.bidcenter.com.cn/f/17").
  reflexivity.
Defined.

(** X16: on a response body that is a JSON object the extraction never
    raises, and the fields [urlhref], [fileUrl], [downloadUrl], [url] of
    the object itself come before the deep search: when one of them holds
    a string that starts with [http], the result is the first such field
    in that order, even where the deep search would have returned a
    string that comes earlier in the document; otherwise the result is
    that of the deep search. *)
Theorem url_in_json_prefers_known_fields (items : list (string * json)) :
  url_in_json (JDict items)
  = Ok (match List.find (is_http_field items) URL_FIELDS with
        | Some fk => match dict_lookup fk items with
                     | Some (JStr v) => Some v
                     | _ => None
                     end
        | None => find_url (JDict items)
        end).
Proof.
  unfold url_in_json. rewrite known_field_url_dict.
  destruct (List.find (is_http_field items) URL_FIELDS) as [fk|] eqn:Hf;
    [|reflexivity].
  apply List.find_some in Hf as [_ Hf]. unfold is_http_field in Hf.
  destruct (dict_lookup fk items) as [[| | |v| |]|]; try discriminate Hf.
  destruct v; [discriminate Hf | reflexivity].
Qed.

(** ** The candidate list of the direct-link scan *)

Section AddFresh.


End AddFresh.

Section StaticPage.

Context (w : World) (anchors : list elem) (href : elem -> option string)
        (html cur : string).

Hypothesis Hhref : forall n a, w_get_attribute w n a "href" = Ok (href a).
Hypothesis Hattr : forall n a attr, is_ok (w_get_attribute w n a attr) = true.
Hypothesis Htext : forall n a, is_ok (w_query w n (QText a)) = true.
Hypothesis Hsource : forall n, w_query w n QPageSource = Ok html.
Hypothesis Hcur : forall n, w_query w n QCurrentUrl = Ok cur.




End StaticPage.



(** ** The route *)

Section RouteRuns.

Context (w : World) (repr : json -> string).

Hypothesis Hmkdir : forall n p, w_mkdir w n p = Ok tt.

(** Where directories can be made, the working directory is set up. *)
Lemma prepare_ok (task_id : string) (s : State) :
  exists s0, prepare_work_dir w task_id s = (Ok tt, s0).
Proof.
  unfold prepare_work_dir. unfold_run. unfold path_exists, rmtree. unfold_run.
  destruct (bool_decide _); simpl_state; rewrite Hmkdir; eexists; reflexivity.
Qed.

(** ... and a task returns a result with one of the three statuses. *)
Lemma handle_ok (task_id url : string) (s : State) :
  exists res s',
    handle_single_task w task_id url s = (Ok res, s')
    /\ (res_status res = Some "success"
        \/ res_status res = Some "no_content"
        \/ res_status res = Some "error").
Proof.
  destruct (prepare_ok task_id s) as (s0 & Hprep).
  destruct (task_run w task_id url s s0 Hprep)
    as (res & s' & evOpen & evCook & evA & evB & evUp & evQuit & up & Hrun
        & _ & _ & _ & _ & _ & _ & _ & _ & _ & _ & _ & Hcase).
  exists res, s'. split; [exact Hrun|].
  destruct Hcase as [(Hst & _)|(Hst & _)]; [auto|].
  rewrite Hst. destruct (is_nil _); auto.
Qed.

Lemma run_task_ok (t : json) (s : State) :
  is_dict t = true ->
  exists res s',
    run_task w repr t s
    = (Ok (task_report (task_id_of repr t) res,
           res ∪ (<[ "ID" := VStr (task_id_of repr t) ]>
                  (<[ "url" := VStr (task_url_of repr t) ]> ∅))), s')
    /\ (res_status res = Some "success"
        \/ res_status res = Some "no_content"
        \/ res_status res = Some "error").
Proof.
  destruct t as [| | | | |items]; try discriminate. intros _.
  unfold run_task. cbn [py_get task_id_of task_url_of].
  rewrite run_bind. unfold lift_res at 1. rewrite run_bind.
  unfold lift_res at 1. rewrite run_bind. unfold log at 1, modify at 1.
  rewrite run_bind.
  match goal with
  | |- context [handle_single_task w ?tid ?url ?s0] =>
      destruct (handle_ok tid url s0) as (res & s1 & -> & Hst)
  end.
  rewrite run_bind.
  destruct (nr_run (for_each (res_messages res) (log INFO)) s1)
    as ([] & s2 & ->); [apply nr_for_each; intros; apply nr_log|].
  exists res, s2. split; [reflexivity | exact Hst].
Qed.

Lemma run_tasks_ok (tasks : list json) (s : State) :
  Forall (fun t => is_dict t = true) tasks ->
  exists (ress : list (gmap string pyval)) s',
    run_tasks w repr tasks s
    = (Ok (zip_with (fun t res => task_report (task_id_of repr t) res)
                    tasks ress,
           zip_with (fun t res =>
                       res ∪ (<[ "ID" := VStr (task_id_of repr t) ]>
                              (<[ "url" := VStr (task_url_of repr t) ]> ∅)))
                    tasks ress), s')
    /\ length ress = length tasks
    /\ Forall (fun res => res_status res = Some "success"
                          \/ res_status res = Some "no_content"
                          \/ res_status res = Some "error") ress.
Proof.
  intros Hd. revert s. induction Hd as [|t tasks Ht _ IH]; intros s.
  - exists [], s. repeat split. constructor.
  - cbn [run_tasks]. rewrite run_bind.
    destruct (run_task_ok t s Ht) as (res & s1 & -> & Hst).
    rewrite run_bind. destruct (IH s1) as (ress & s2 & -> & Hlen & Hall).
    exists (res :: ress), s2. split; [reflexivity|].
    split; [cbn [length]; rewrite Hlen; reflexivity|].
    constructor; assumption.
Qed.

End RouteRuns.

(** X19: given at least one task, each of them a JSON object, and a disk
    on which working directories can be made, the route answers with
    code 200 and status ok whatever the outcome of the tasks (no browser,
    page that does not load, downloads or uploads that fail): it runs
    the tasks one after the other in the order given, and its answer
    holds one report line (joined by line feeds) and one detail per task,
    in that order, each detail being the result of the task, with status
    success, no_content or error, together with the identifier and the
    URL of the task as texts. *)
Theorem route_answers_every_task (w : World) (repr : json -> string)
    (tasks : list json) (s : State) :
  (forall n p, w_mkdir w n p = Ok tt) ->
  tasks <> [] ->
  Forall (fun t => is_dict t = true) tasks ->
  exists (ress : list (gmap string pyval)) s',
    answer_tasks w repr tasks s
    = (Ok (Answer 200 "ok"
             (join_with LF
                (zip_with (fun t res => task_report (task_id_of repr t) res)
                          tasks ress))
             (zip_with (fun t res =>
                          res ∪ (<[ "ID" := VStr (task_id_of repr t) ]>
                                 (<[ "url" := VStr (task_url_of repr t) ]> ∅)))
                       tasks ress)), s')
    /\ length ress = length tasks
    /\ Forall (fun res => res_status res = Some "success"
                          \/ res_status res = Some "no_content"
                          \/ res_status res = Some "error") ress.
Proof.
  intros Hmk Hne Hd. unfold answer_tasks.
  destruct tasks as [|t tasks]; [congruence|]. cbn [is_nil].
  rewrite run_bind.
  destruct (run_tasks_ok w repr Hmk (t :: tasks) s Hd)
    as (ress & s' & -> & Hlen & Hall).
  exists ress, s'. split; [reflexivity|]. auto.
Qed.

(** X19, witness: two tasks on a machine where the browser cannot be
    started; both fail, the route answers 200. *)
Lemma route_answers_every_task_witness :
  exists (ress : list (gmap string pyval)) s',
    answer_tasks no_browser_world (fun _ => "") two_tasks init_state
    = (Ok (Answer 200 "ok"
             (join_with LF
                (zip_with (fun t res =>
                             task_report (task_id_of (fun _ => "") t) res)
                          two_tasks ress))
             (zip_with (fun t res =>
                          res ∪ (<[ "ID" := VStr (task_id_of (fun _ => "") t) ]>
                                 (<[ "url" := VStr (task_url_of (fun _ => "") t) ]> ∅)))
                       two_tasks ress)), s')
    /\ length ress = length two_tasks
    /\ Forall (fun res => res_status res = Some "success"
                          \/ res_status res = Some "no_content"
                          \/ res_status res = Some "error") ress.
Proof.
  apply (route_answers_every_task no_browser_world (fun _ => "") two_tasks
           init_state).
  - intros n p. reflexivity.
  - discriminate.
  - repeat constructor.
Defined.

(** ** The route: reading the tasks *)

Section ReadingRuns.

Context (loads : string -> Res json).

Lemma set_log_same (s : State) : set_log (st_log s ++ []) s = s.
Proof. rewrite app_nil_r. destruct s; reflexivity. Qed.

Lemma set_log_twice (s : State) (l1 l2 : list (log_level * string)) :
  set_log (st_log (set_log (st_log s ++ l1) s) ++ l2)
          (set_log (st_log s ++ l1) s)
  = set_log (st_log s ++ l1 ++ l2) s.
Proof. destruct s; simpl. rewrite <- app_assoc. reflexivity. Qed.

(** The loop over the lines: the tasks it appends and what it logs. *)
Lemma read_lines_run (warn : bool) (lines : list string) (s : State) :
  read_task_lines loads warn lines s
  = (Ok (omap (task_of_line loads) lines),
     set_log (st_log s
              ++ (if warn
                  then map line_warning (List.filter (is_bad_line loads) lines)
                  else [])) s).
Proof.
  revert s. induction lines as [|ln lines IH]; intros s.
  - cbn [read_task_lines omap list_omap List.filter map].
    destruct warn; rewrite set_log_same; reflexivity.
  - cbn [read_task_lines omap list_omap List.filter].
    unfold task_of_line at 1, is_bad_line at 1.
    destruct (nonempty (py_strip ln)); cbn [negb andb]; [|apply IH].
    destruct (read_task_line loads (py_strip ln)) as [[obj|]|e];
      cbn [is_ok negb].
    + rewrite run_bind, IH. reflexivity.
    + apply IH.
    + rewrite run_bind. destruct warn.
      * unfold log at 1, modify at 1. rewrite IH. cbn [map].
        rewrite set_log_twice. reflexivity.
      * unfold mret at 1, M_ret at 1. apply IH.
Qed.

Lemma py_in_lookup (key : string) (items : list (string * json)) :
  py_in key (JDict items) = Ok (bool_decide (dict_lookup key items <> None)).
Proof.
  cbn [py_in]. f_equal. induction items as [|[k v] items IH]; [reflexivity|].
  cbn [existsb dict_lookup fst]. destruct (String.eqb k key); [reflexivity|].
  exact IH.
Qed.

End ReadingRuns.

Section RouteFails.

Context (w : World) (repr : json -> string).

(** A task that is no object stops the loop, if no task before it did. *)
Lemma run_tasks_raises (tasks : list json) (s : State) :
  Exists (fun t => is_dict t = false) tasks ->
  exists e s', run_tasks w repr tasks s = (Raise e, s').
Proof.
  intros Hex. revert s. induction Hex as [t tasks Ht|t tasks _ IH]; intros s.
  - cbn [run_tasks]. rewrite run_bind. unfold run_task. rewrite run_bind.
    destruct t; try discriminate; unfold lift_res at 1; cbn [py_get];
      eexists _, _; reflexivity.
  - cbn [run_tasks]. rewrite run_bind.
    destruct (run_task w repr t s) as [[r|e] s1]; [|eauto].
    rewrite run_bind. destruct (IH s1) as (e & s' & ->). eauto.
Qed.

End RouteFails.

(** X20: a body that is an object with the keys ID and url is the one
    task of the request, whatever else it holds: an [arg1] beside them is
    not read.  Where working directories can be made, the route answers
    200 with the report line and the detail of that task. *)
Theorem body_with_id_and_url_is_the_only_task (w : World)
    (repr : json -> string) (loads : string -> Res json) (req : Request)
    (items : list (string * json)) (s : State) :
  (forall n p, w_mkdir w n p = Ok tt) ->
  req_json req = Ok (JDict items) ->
  has_id_and_url (JDict items) = Ok true ->
  select_tasks loads req s = (Ok [JDict items], s)
  /\ exists res s',
       upload_to_bisheng w repr loads req s
       = (Ok (Answer 200 "ok"
                (task_report (task_id_of repr (JDict items)) res)
                [res ∪ (<[ "ID" := VStr (task_id_of repr (JDict items)) ]>
                        (<[ "url" := VStr (task_url_of repr (JDict items)) ]> ∅))]),
          s')
       /\ (res_status res = Some "success"
           \/ res_status res = Some "no_content"
           \/ res_status res = Some "error").
Proof.
  intros Hmk Hreq Hboth.
  assert (py_truthy (JDict items) = true) as Htr.
  { destruct items; [discriminate | reflexivity]. }
  assert (select_tasks loads req s = (Ok [JDict items], s)) as Hsel.
  { unfold select_tasks. rewrite Hreq, Htr, run_bind. unfold lift_res at 1.
    rewrite Hboth. reflexivity. }
  split; [exact Hsel|].
  unfold upload_to_bisheng. rewrite run_bind, Hsel. unfold answer_tasks.
  cbn [is_nil]. rewrite run_bind.
  destruct (run_tasks_ok w repr Hmk [JDict items] s) as (ress & s' & -> & Hlen & Hall);
    [repeat constructor|].
  destruct ress as [|res [|? ?]]; try discriminate Hlen.
  exists res, s'. split; [reflexivity|].
  inversion Hall; assumption.
Qed.

(** X20, witness: the body holds the task and an [arg1]. *)
Lemma body_with_id_and_url_is_the_only_task_witness :
  select_tasks sample_loads single_task_request init_state
  = (Ok [JDict [("ID", JNum "7"); ("url", JStr "http://site/detail/7");
                ("arg1", JStr task_line)]], init_state)
  /\ exists res s',
       upload_to_bisheng no_browser_world (fun _ => "") sample_loads
         single_task_request init_state
       = (Ok (Answer 200 "ok" (task_report "7" res)
                [res ∪ (<[ "ID" := VStr "7" ]>
                        (<[ "url" := VStr "http://site/detail/7" ]> ∅))]),
          s')
       /\ (res_status res = Some "success"
           \/ res_status res = Some "no_content"
           \/ res_status res = Some "error").
Proof.
  apply (body_with_id_and_url_is_the_only_task no_browser_world (fun _ => "")
           sample_loads single_task_request
           [("ID", JNum "7"); ("url", JStr "http://site/detail/7");
            ("arg1", JStr task_line)] init_state).
  - intros n p. reflexivity.
  - reflexivity.
  - reflexivity.
Defined.

(** X21: for a body that is an object without the two keys of a task and
    with a string [arg1], the tasks are the lines of [arg1], in order,
    that parse to a value holding both ID and url, each line stripped of
    the white space around it.  Blank lines and lines that parse to
    something else are passed over in silence; a line that does not parse
    (or whose value cannot be searched for a key) gives one warning, with
    at most 120 characters of the line.  Nothing else happens: no call,
    no other change of the state. *)
Theorem arg1_lines_are_the_tasks (loads : string -> Res json)
    (req : Request) (items : list (string * json)) (text : string)
    (s : State) :
  req_json req = Ok (JDict items) ->
  has_id_and_url (JDict items) = Ok false ->
  dict_lookup "arg1" items = Some (JStr text) ->
  select_tasks loads req s
  = (Ok (omap (task_of_line loads) (py_splitlines text)),
     set_log (st_log s
              ++ map line_warning
                     (List.filter (is_bad_line loads) (py_splitlines text)))
             s).
Proof.
  intros Hreq Hboth Harg.
  assert (py_truthy (JDict items) = true) as Htr.
  { destruct items; [discriminate | reflexivity]. }
  unfold select_tasks. rewrite Hreq, Htr, run_bind. unfold lift_res at 1.
  rewrite Hboth. rewrite run_bind. unfold lift_res at 1.
  rewrite py_in_lookup, Harg.
  rewrite bool_decide_eq_true_2 by discriminate.
  rewrite run_bind. unfold lift_res at 1. cbn [py_getitem]. rewrite Harg.
  apply read_lines_run.
Qed.

(** X21, witness: four lines, of which one is a task (between spaces),
    one is blank, one has no URL and one is not JSON. *)
Lemma arg1_lines_are_the_tasks_witness :
  select_tasks sample_loads sample_request init_state
  = (Ok [JDict [("ID", JNum "7"); ("url", JStr "http://site/detail/7")]],
     set_log [(WARNING, "未能解析行: oops")] init_state).
Proof.
  apply (arg1_lines_are_the_tasks sample_loads sample_request
           [("arg1",
             JStr ("  " ++ task_line ++ " " ++ LF ++ "   " ++ LF
                   ++ id_only_line ++ LF ++ "oops")%string)]
           ("  " ++ task_line ++ " " ++ LF ++ "   " ++ LF
            ++ id_only_line ++ LF ++ "oops")%string init_state).
  - reflexivity.
  - reflexivity.
  - reflexivity.
Defined.

(** X22: the tasks read from the request are not checked to be objects.
    A line of [arg1] that is a JSON string holding the texts ID and url
    (or a list with these two items) is taken as a task, and the loop over
    the tasks then raises on it: the request fails with an exception, not
    with an answer, also when tasks before it were run. *)
Theorem task_that_is_no_object_fails_the_request (w : World)
    (repr : json -> string) (loads : string -> Res json) (req : Request)
    (tasks : list json) (s s1 : State) :
  select_tasks loads req s = (Ok tasks, s1) ->
  Exists (fun t => is_dict t = false) tasks ->
  exists e s',
    upload_to_bisheng w repr loads req s = (Raise e, s').
Proof.
  intros Hsel Hex. unfold upload_to_bisheng. rewrite run_bind, Hsel.
  unfold answer_tasks. destruct tasks as [|t tasks]; [inversion Hex|].
  cbn [is_nil]. rewrite run_bind.
  destruct (run_tasks_raises w repr (t :: tasks) s1 Hex) as (e & s' & ->).
  eauto.
Qed.

(** X22, witness: the second line of [arg1] is a JSON string. *)
Lemma task_that_is_no_object_fails_the_request_witness :
  exists e s',
    upload_to_bisheng no_browser_world (fun _ => "") sample_loads
      string_task_request init_state = (Raise e, s').
Proof.
  apply (task_that_is_no_object_fails_the_request no_browser_world
           (fun _ => "") sample_loads string_task_request
           [JDict [("ID", JNum "7"); ("url", JStr "http://site/detail/7")];
            JStr "see ID and url"]
           init_state init_state).
  - vm_compute. reflexivity.
  - right. left. reflexivity.
Defined.
